(** * t212-backend: the screening service, embedded and checked

    The repository holds several revisions of one Express service.  They
    are embedded here, each in a module of its own:

    - [Trend]   : the revision with historical candles, moving averages and
                  trend analysis (quote + candle endpoints, 25-symbol cap);
    - [Finnhub] : the quote-only revision paced at 50 ms per symbol;
    - [Yahoo]   : [server.js], which fetches quotes in batches of 100;
    - [Basic]   : the first revision, one price per symbol, further below,
                  with the API key check all revisions share
                  ([Middleware]).

    JavaScript values are modelled by [jsval]; numbers are IEEE-754 binary64
    values ([PrimFloat.float]), exactly the numbers of the language.  Three
    built-ins of the language that the service calls but does not define
    (string-to-number conversion, number-to-string conversion and
    [Number.prototype.toFixed]) are the fields of the class [JSRuntime];
    every statement below holds for all of their implementations.  The
    HTTP provider is the class [Provider] over an abstract world that is
    threaded through every request. *)

From Stdlib Require Import List String Ascii ZArith Lia Bool PeanoNat.
From Stdlib Require Import PrimFloat SpecFloat FloatOps.
From Stdlib Require FloatAxioms Permutation.
Import ListNotations.
Set Warnings "-inexact-float,-register-all".
Local Open Scope string_scope.
Local Open Scope list_scope.

(* ================================================================== *)
(** * The JavaScript layer                                             *)
(* ================================================================== *)

Module JS.

(** Values.  [JObject] stands for any object or function that is not an
    array literal of the request body: a member inherited from
    [Object.prototype], or an object of the request body.  Arrays and
    objects are compared by reference in the language; in this service the
    two sides of every comparison come from different allocations (a member
    of a record against a value of the request body), so such a comparison
    is always false. *)
Inductive jsval : Type :=
| JUndefined
| JNull
| JBool (b : bool)
| JNum (x : float)
| JStr (s : string)
| JArr (elems : list jsval)
| JObject.

(** The built-ins of the language that the service relies on and that are
    not part of the repository. *)
Class JSRuntime : Type := {
  StringToNumber : string -> float;
  NumberToString : float -> string;
  toFixed : float -> nat -> string
}.

(** The integer [z] as a number (round to nearest, ties to even). *)
Definition Z2F (z : Z) : float := SF2Prim (binary_normalize prec emax z 0 false).

Definition ToBoolean (v : jsval) : bool :=
  match v with
  | JUndefined | JNull => false
  | JBool b => b
  | JNum x => negb (is_nan x || is_zero x)
  | JStr s => negb (String.eqb s "")
  | JArr _ | JObject => true
  end.

(** Truthiness of a number: everything but [0], [-0] and [NaN]. *)
Definition truthy_num (x : float) : bool := negb (is_nan x || is_zero x).

Fixpoint join (sep : string) (l : list string) : string :=
  match l with
  | [] => ""
  | [s] => s
  | s :: rest => s ++ sep ++ join sep rest
  end.

Section Coercions.
Context {rt : JSRuntime}.

(** [String(v)]; an element of an array that is [undefined] or [null]
    is rendered as the empty string by [Array.prototype.join]. *)
Fixpoint ToString (v : jsval) : string :=
  match v with
  | JUndefined => "undefined"
  | JNull => "null"
  | JBool true => "true"
  | JBool false => "false"
  | JNum x => NumberToString x
  | JStr s => s
  | JArr l =>
      join "," (map (fun e => match e with
                              | JUndefined | JNull => ""
                              | _ => ToString e
                              end) l)
  | JObject => "[object Object]"
  end.

(** [Number(v)]. *)
Definition ToNumber (v : jsval) : float :=
  match v with
  | JUndefined => nan
  | JNull => zero
  | JBool true => one
  | JBool false => zero
  | JNum x => x
  | JStr s => StringToNumber s
  | JArr _ => StringToNumber (ToString v)
  | JObject => nan
  end.
End Coercions.

(** [a === b]. *)
Definition strict_equal (a b : jsval) : bool :=
  match a, b with
  | JUndefined, JUndefined => true
  | JNull, JNull => true
  | JBool x, JBool y => Bool.eqb x y
  | JNum x, JNum y => PrimFloat.eqb x y
  | JStr x, JStr y => String.eqb x y
  | _, _ => false
  end.

(** The comparison of [Array.prototype.includes]: as [===], but [NaN]
    equals [NaN]. *)
Definition same_value_zero (a b : jsval) : bool :=
  match a, b with
  | JNum x, JNum y => PrimFloat.eqb x y || (is_nan x && is_nan y)
  | _, _ => strict_equal a b
  end.

Definition includes (l : list jsval) (v : jsval) : bool :=
  existsb (fun e => same_value_zero e v) l.

(** [l.includes(s)] for an array literal of strings and a string. *)
Definition includes_str (l : list string) (s : string) : bool :=
  existsb (fun e => String.eqb e s) l.

(** [a || b]. *)
Definition js_or (a b : jsval) : jsval := if ToBoolean a then a else b.

(** A relative index of [Array.prototype.slice]. *)
Definition rel_index (len : nat) (i : Z) : nat :=
  if (i <? 0)%Z then Z.to_nat (Z.max (Z.of_nat len + i) 0)
  else Z.to_nat (Z.min i (Z.of_nat len)).

(** [l.slice(start, stop)]. *)
Definition slice {A : Type} (l : list A) (start stop : Z) : list A :=
  let k := rel_index (List.length l) start in
  let final := rel_index (List.length l) stop in
  firstn (final - k) (skipn k l).

(** [l.slice(start)]. *)
Definition slice_from {A : Type} (l : list A) (start : Z) : list A :=
  slice l start (Z.of_nat (List.length l)).

(** [Math.max] and [Math.min] on numbers: [NaN] is contagious and [+0] is
    larger than [-0]. *)
Definition max2 (a b : float) : float :=
  if is_nan a || is_nan b then nan
  else if PrimFloat.ltb a b then b
  else if PrimFloat.ltb b a then a
  else if get_sign a then b else a.

Definition min2 (a b : float) : float :=
  if is_nan a || is_nan b then nan
  else if PrimFloat.ltb a b then a
  else if PrimFloat.ltb b a then b
  else if get_sign a then a else b.

Definition Math_max (l : list float) : float := fold_left max2 l neg_infinity.
Definition Math_min (l : list float) : float := fold_left min2 l infinity.

(** Objects built by object literals: the own properties in the order of
    the literal. *)
Definition obj : Type := list (string * jsval).

Fixpoint own_prop (k : string) (o : obj) : option jsval :=
  match o with
  | [] => None
  | (k', v) :: rest => if String.eqb k' k then Some v else own_prop k rest
  end.

(** The members every object literal inherits from [Object.prototype]. *)
Definition Object_prototype_keys : list string :=
  [ "constructor"; "__defineGetter__"; "__defineSetter__"; "hasOwnProperty";
    "__lookupGetter__"; "__lookupSetter__"; "isPrototypeOf";
    "propertyIsEnumerable"; "toString"; "valueOf"; "__proto__";
    "toLocaleString" ].

(** [o[k]]. *)
Definition get_prop (o : obj) (k : string) : jsval :=
  match own_prop k o with
  | Some v => v
  | None => if includes_str Object_prototype_keys k then JObject else JUndefined
  end.

(** [x === undefined || x === null]. *)
Definition is_nullish (v : jsval) : bool :=
  strict_equal v JUndefined || strict_equal v JNull.

(** A number or [null]. *)
Definition nullable (o : option float) : jsval :=
  match o with
  | Some x => JNum x
  | None => JNull
  end.

End JS.
Import JS.

(* ================================================================== *)
(** * What the service exchanges with its environment                   *)
(* ================================================================== *)

(** The result of an HTTP call: [axios.get] either throws or yields the
    body of the response. *)
Inductive Fetched (A : Type) : Type :=
| HttpError
| HttpOk (data : A).
Arguments HttpError {A}.
Arguments HttpOk {A} data.

(** Computations of the service thread the state of the outside world. *)
Definition M (W A : Type) : Type := W -> A * W.

Definition ret {W A : Type} (a : A) : M W A := fun w => (a, w).

Definition bind {W A B : Type} (m : M W A) (k : A -> M W B) : M W B :=
  fun w => let (a, w') := m w in k a w'.

Declare Scope screen_scope.
Delimit Scope screen_scope with screen.
Notation "x <- m ;; k" := (bind m (fun x => k))
  (at level 61, m at next level, right associativity) : screen_scope.
Notation "m ;;; k" := (bind m (fun _ => k))
  (at level 61, right associativity) : screen_scope.

(** A condition of a screening request. *)
Record Condition : Type := {
  c_left : string;
  c_operation : string;
  c_right : jsval
}.

(** The body of a screening request.  [universe] is [None] when the member
    is not an array; [conditions] is [None] when the member is absent or
    [null]. *)
Record Request : Type := {
  action : jsval;
  universe : option (list string);
  conditions : option (list Condition)
}.

(** The body of a Finnhub quote response: current, open, high, low and
    previous-close price, as they arrive (a member that is missing reads
    [JUndefined]). *)
Record RawQuote : Type := {
  q_c : jsval;
  q_o : jsval;
  q_h : jsval;
  q_l : jsval;
  q_pc : jsval
}.

(** The body of a Finnhub candle response: status, daily closes and daily
    volumes, oldest first, each an array of numbers as the provider
    documents them; [None] for a member that is missing. *)
Record Candles : Type := {
  cd_s : jsval;
  cd_c : option (list float);
  cd_v : option (list float)
}.

(** One entry of [quoteResponse.result] of the Yahoo endpoint. *)
Record YahooQuote : Type := {
  y_symbol : jsval;
  y_regularMarketPrice : jsval;
  y_regularMarketOpen : jsval;
  y_regularMarketDayHigh : jsval;
  y_regularMarketDayLow : jsval;
  y_regularMarketVolume : jsval;
  y_averageDailyVolume3Month : jsval;
  y_fiftyTwoWeekHigh : jsval;
  y_fiftyTwoWeekLow : jsval;
  y_marketCap : jsval;
  y_currency : jsval;
  y_quoteType : jsval;
  y_shortName : jsval;
  y_longName : jsval;
  y_exchange : jsval
}.

(** The quote source and the timer.  A body that is falsy (no object at
    all) is [None]. *)
Class Provider (W : Type) : Type := {
  fetchQuote : string -> M W (Fetched (option RawQuote));
  fetchCandles : string -> M W (Fetched (option Candles));
  fetchYahoo : list string -> M W (Fetched (option (list YahooQuote)));
  delay : nat -> M W unit
}.

(** The answers of [POST /screen]. *)
Record ScreenBody : Type := {
  count : nat;
  universe_size : nat;
  screened_size : option nat;
  valid_data : nat;
  note : option string;
  results : list obj
}.

Inductive Response : Type :=
| Status400 (error : string)
| Json200 (body : ScreenBody).

(* ================================================================== *)
(** * The revision with trend analysis                                  *)
(* ================================================================== *)

Module Trend.
Section Service.
Context {rt : JSRuntime} {W : Type} {P : Provider W}.
Local Open Scope screen_scope.

(** [slice.reduce((a, b) => a + b, 0)]. *)
Definition sum (l : list float) : float := fold_left PrimFloat.add l zero.

Definition calculateSMA (prices : list float) (period : nat) : option float :=
  if (List.length prices <? period)%nat then None
  else
    let slice := slice_from prices (- Z.of_nat period) in
    Some (PrimFloat.div (sum slice) (Z2F (Z.of_nat period))).

(** [Number(x)] for a number or [null]: [null] counts as [0]. *)
Definition num (o : option float) : float :=
  match o with
  | Some x => x
  | None => zero
  end.

Definition calculateTrend (prices : list float) (period : nat) : string :=
  if (List.length prices <? period + 5)%nat then "unknown"
  else
    let recentMA := calculateSMA (slice_from prices (-5)) 5 in
    let olderMA :=
      calculateSMA (slice prices (- (Z.of_nat period + 5)) (-5)) 5 in
    if PrimFloat.ltb (PrimFloat.mul (num olderMA) 1.02%float) (num recentMA)
    then "up"
    else if PrimFloat.ltb (num recentMA) (PrimFloat.mul (num olderMA) 0.98%float)
    then "down"
    else "sideways".

(** The loop [for (i = 0; i < closePrices.length; i += 5)]. *)
Definition weeklyPrices (closePrices : list float) : list float :=
  map (fun i => nth (5 * i) closePrices nan)
      (seq 0 ((List.length closePrices + 4) / 5)).

Definition etf_symbols : list string :=
  [ "SPY"; "QQQ"; "IWM"; "DIA"; "XLF"; "XLE"; "XLK"; "XLV"; "XLI"; "XLP";
    "XLY"; "XLB"; "XLU"; "XLRE"; "XLC"; "VTI"; "VOO"; "EWG"; "EWQ"; "FEZ";
    "VGK" ].

(** [m ? quote.c > m : null]. *)
Definition above (c : jsval) (ma : option float) : jsval :=
  match ma with
  | Some m => if truthy_num m then JBool (PrimFloat.ltb m (ToNumber c)) else JNull
  | None => JNull
  end.

(** [m ? m.toFixed(d) : null]. *)
Definition fixed_or_null (ma : option float) (d : nat) : jsval :=
  match ma with
  | Some m => if truthy_num m then JStr (toFixed m d) else JNull
  | None => JNull
  end.

(** [m ? e : null] for a number or [null] [m]. *)
Definition when_truthy (m : option float) (e : float -> jsval) : jsval :=
  match m with
  | Some x => if truthy_num x then e x else JNull
  | None => JNull
  end.

(** The part of [getStockDataWithTrend] after the two requests: the
    record built from the quote and the candles. *)
Definition enrich (symbol : string) (quote : RawQuote)
           (candles : option Candles) : obj :=
  let history :=
    match candles with
    | Some cd =>
        match cd_c cd with
        | Some closePrices =>
            if strict_equal (cd_s cd) (JStr "ok")
               && (0 <? List.length closePrices)%nat
            then Some closePrices else None
        | None => None
        end
    | None => None
    end in
  let ma20 := match history with Some cp => calculateSMA cp 20 | None => None end in
  let ma50 := match history with Some cp => calculateSMA cp 50 | None => None end in
  let ma200 := match history with Some cp => calculateSMA cp 200 | None => None end in
  let dailyTrend :=
    match history with Some cp => calculateTrend cp 20 | None => "unknown" end in
  let weeklyTrend :=
    match history with
    | Some cp =>
        if (25 <=? List.length cp)%nat then calculateTrend (weeklyPrices cp) 4
        else "unknown"
    | None => "unknown"
    end in
  let aboveMA20 := match history with Some _ => above (q_c quote) ma20 | None => JNull end in
  let aboveMA50 := match history with Some _ => above (q_c quote) ma50 | None => JNull end in
  let aboveMA200 := match history with Some _ => above (q_c quote) ma200 | None => JNull end in
  let week52High := match history with Some cp => Some (Math_max cp) | None => None end in
  let week52Low := match history with Some cp => Some (Math_min cp) | None => None end in
  let volumes :=
    match candles with
    | Some cd =>
        match cd_v cd with
        | Some v => if (0 <? List.length v)%nat then Some v else None
        | None => None
        end
    | None => None
    end in
  let volume :=
    match volumes with
    | Some v => nth (List.length v - 1) (map JNum v) JUndefined
    | None => JNull
    end in
  let avgVolume := match volumes with Some v => calculateSMA v 20 | None => None end in
  let close := q_c quote in
  [ ("symbol", JStr symbol);
    ("close", close);
    ("open", q_o quote);
    ("high", q_h quote);
    ("low", q_l quote);
    ("prevClose", q_pc quote);
    ("change", JNum (PrimFloat.sub (ToNumber close) (ToNumber (q_pc quote))));
    ("changePercent",
      if ToBoolean (q_pc quote)
      then JStr (toFixed
                   (PrimFloat.mul
                      (PrimFloat.div
                         (PrimFloat.sub (ToNumber close) (ToNumber (q_pc quote)))
                         (ToNumber (q_pc quote)))
                      100%float) 2)
      else JNum zero);
    ("volume", volume);
    ("avgVolume", nullable avgVolume);
    ("volumeRatio",
      when_truthy avgVolume (fun a =>
        JStr (toFixed (PrimFloat.div (ToNumber volume) a) 2)));
    ("volumeContraction",
      when_truthy avgVolume (fun a =>
        JBool (PrimFloat.ltb (ToNumber volume) (PrimFloat.mul a 0.7%float))));
    ("week52High", nullable week52High);
    ("week52Low", nullable week52Low);
    ("pctFrom52High",
      when_truthy week52High (fun h =>
        JStr (toFixed (PrimFloat.mul (PrimFloat.div (ToNumber close) h) 100%float) 1)));
    ("pctFrom52Low",
      when_truthy week52Low (fun l =>
        JStr (toFixed
                (PrimFloat.mul
                   (PrimFloat.sub (PrimFloat.div (ToNumber close) l) one)
                   100%float) 1)));
    ("nearWeek52High",
      when_truthy week52High (fun h =>
        JBool (PrimFloat.leb (PrimFloat.mul h 0.95%float) (ToNumber close))));
    ("nearWeek52Low",
      when_truthy week52Low (fun l =>
        JBool (PrimFloat.leb (ToNumber close) (PrimFloat.mul l 1.05%float))));
    ("ma20", fixed_or_null ma20 2);
    ("ma50", fixed_or_null ma50 2);
    ("ma200", fixed_or_null ma200 2);
    ("aboveMA20", aboveMA20);
    ("aboveMA50", aboveMA50);
    ("aboveMA200", aboveMA200);
    ("dailyTrend", JStr dailyTrend);
    ("weeklyTrend", JStr weeklyTrend);
    ("trendAlignment",
      if String.eqb dailyTrend "up" && String.eqb weeklyTrend "up"
      then JStr "bullish"
      else if String.eqb dailyTrend "down" && String.eqb weeklyTrend "down"
      then JStr "bearish"
      else JStr "mixed");
    ("currency", JStr "USD");
    ("is_etf", JBool (includes_str etf_symbols symbol));
    ("tradable_on_t212_cfd", JBool true);
    ("name", JStr symbol) ].

(** The guard [!quote || quote.c === 0 || quote.c === null]. *)
Definition no_quote_data (quote : option RawQuote) : bool :=
  match quote with
  | None => true
  | Some q => strict_equal (q_c q) (JNum zero) || strict_equal (q_c q) JNull
  end.

(** Any exception of a request is caught and turned into [null]. *)
Definition getStockDataWithTrend (symbol : string) : M W (option obj) :=
  quoteRes <- fetchQuote symbol ;;
  match quoteRes with
  | HttpError => ret None
  | HttpOk quote =>
      match quote with
      | None => ret None
      | Some q =>
          if no_quote_data quote then ret None
          else
            candleRes <- fetchCandles symbol ;;
            match candleRes with
            | HttpError => ret None
            | HttpOk candles => ret (Some (enrich symbol q candles))
            end
      end
  end.

(** The body of the loop of [getStockDataBatch], from symbol [i] on. *)
Fixpoint batch_loop (symbols : list string) (results : list obj)
  : M W (list obj) :=
  match symbols with
  | [] => ret results
  | symbol :: rest =>
      data <- getStockDataWithTrend symbol ;;
      let results' :=
        match data with
        | Some d => results ++ [d]
        | None => results
        end in
      (match rest with
       | [] => ret tt
       | _ :: _ => delay 2000
       end) ;;;
      batch_loop rest results'
  end.

Definition getStockDataBatch (symbols : list string) : M W (list obj) :=
  batch_loop symbols [].

(** The predicate given to [conditions.every]. *)
Definition evalCondition (item : obj) (c : Condition) : bool :=
  let left := get_prop item (c_left c) in
  if is_nullish left then
    if includes_str ["close"; "open"; "high"; "low"] (c_left c) then false
    else true
  else if String.eqb (c_operation c) "equal" then
    strict_equal left (c_right c)
  else if String.eqb (c_operation c) "greater" then
    PrimFloat.ltb (ToNumber (c_right c)) (ToNumber left)
  else if String.eqb (c_operation c) "less" then
    PrimFloat.ltb (ToNumber left) (ToNumber (c_right c))
  else if String.eqb (c_operation c) "in" then
    match c_right c with
    | JArr elems => includes elems left
    | _ => false
    end
  else if String.eqb (c_operation c) "near" then
    if String.eqb (c_left c) "52_week_high" then
      strict_equal (get_prop item "nearWeek52High") (JBool true)
    else if String.eqb (c_left c) "52_week_low" then
      strict_equal (get_prop item "nearWeek52Low") (JBool true)
    else false
  else true.

Definition applyConditions (universe : list obj) (conditions : list Condition)
  : list obj :=
  match conditions with
  | [] => universe
  | _ :: _ => filter (fun item => forallb (evalCondition item) conditions) universe
  end.

Definition truncation_note : string :=
  "Limited to 25 stocks due to API rate limits. For more stocks, consider Finnhub premium.".

(** The handler of [POST /screen]. *)
Definition screen (req : Request) : M W Response :=
  if negb (strict_equal (action req) (JStr "screen")) then
    ret (Status400 "Invalid action")
  else
    match universe req with
    | None | Some [] => ret (Status400 "Universe must be a non-empty array")
    | Some universe =>
        let limitedUniverse := slice universe 0 25 in
        stockData <- getStockDataBatch limitedUniverse ;;
        let results :=
          applyConditions stockData
            (match conditions req with Some cs => cs | None => [] end) in
        ret (Json200
               {| count := List.length results;
                  universe_size := List.length universe;
                  screened_size := Some (List.length limitedUniverse);
                  valid_data := List.length stockData;
                  note := if (25 <? List.length universe)%nat
                          then Some truncation_note else None;
                  results := results |})
    end.

End Service.
End Trend.

(* ================================================================== *)
(** * The quote-only revision                                           *)
(* ================================================================== *)

Module Finnhub.
Section Service.
Context {rt : JSRuntime} {W : Type} {P : Provider W}.
Local Open Scope screen_scope.

Definition etf_symbols : list string :=
  [ "SPY"; "QQQ"; "IWM"; "DIA"; "XLF"; "XLE"; "XLK"; "XLV"; "XLI"; "XLP";
    "XLY"; "XLB"; "XLU"; "XLRE"; "XLC"; "VTI"; "VOO"; "VEA"; "VWO"; "BND";
    "GLD"; "SLV"; "USO"; "TLT"; "HYG"; "LQD"; "EEM"; "EFA"; "ARKK"; "ARKG" ].

(** The record built by [getStockDataFinnhub] from a quote. *)
Definition enrich (symbol : string) (quote : RawQuote) : obj :=
  let close := q_c quote in
  let open := q_o quote in
  let high := q_h quote in
  let low := q_l quote in
  let prevClose := q_pc quote in
  [ ("symbol", JStr symbol);
    ("close", close);
    ("open", open);
    ("high", high);
    ("low", low);
    ("prevClose", prevClose);
    ("change", JNum (PrimFloat.sub (ToNumber close) (ToNumber prevClose)));
    ("changePercent",
      if ToBoolean prevClose
      then JStr (toFixed
                   (PrimFloat.mul
                      (PrimFloat.div
                         (PrimFloat.sub (ToNumber close) (ToNumber prevClose))
                         (ToNumber prevClose))
                      100%float) 2)
      else JNum zero);
    ("volume", JNull);
    ("avgVolume", JNull);
    ("week52High", JNull);
    ("week52Low", JNull);
    ("marketCap", JNull);
    ("currency", JStr "USD");
    ("is_etf",
      JBool ((String.length symbol <=? 4)%nat && includes_str etf_symbols symbol));
    ("asset_type", JStr "equity");
    ("tradable_on_t212_cfd", JBool true);
    ("name", JStr symbol) ].

(** The guard [!quote || quote.c === 0 || quote.c === null]. *)
Definition no_quote_data (quote : option RawQuote) : bool :=
  match quote with
  | None => true
  | Some q => strict_equal (q_c q) (JNum zero) || strict_equal (q_c q) JNull
  end.

Definition getStockDataFinnhub (symbol : string) : M W (option obj) :=
  quoteRes <- fetchQuote symbol ;;
  match quoteRes with
  | HttpError => ret None
  | HttpOk quote =>
      match quote with
      | None => ret None
      | Some q =>
          if no_quote_data quote then ret None
          else ret (Some (enrich symbol q))
      end
  end.

Fixpoint batch_loop (symbols : list string) (results : list obj)
  : M W (list obj) :=
  match symbols with
  | [] => ret results
  | symbol :: rest =>
      data <- getStockDataFinnhub symbol ;;
      let results' :=
        match data with
        | Some d => results ++ [d]
        | None => results
        end in
      (match rest with
       | [] => ret tt
       | _ :: _ => delay 50
       end) ;;;
      batch_loop rest results'
  end.

Definition getStockDataBatch (symbols : list string) : M W (list obj) :=
  batch_loop symbols [].

Definition evalCondition (item : obj) (c : Condition) : bool :=
  let left := get_prop item (c_left c) in
  if is_nullish left then
    if includes_str ["close"; "open"; "high"; "low"] (c_left c) then false
    else true
  else if String.eqb (c_operation c) "equal" then
    strict_equal left (c_right c)
  else if String.eqb (c_operation c) "greater" then
    PrimFloat.ltb (ToNumber (c_right c)) (ToNumber left)
  else if String.eqb (c_operation c) "less" then
    PrimFloat.ltb (ToNumber left) (ToNumber (c_right c))
  else if String.eqb (c_operation c) "in" then
    match c_right c with
    | JArr elems => includes elems left
    | _ => false
    end
  else if String.eqb (c_operation c) "near" then
    if String.eqb (c_left c) "52_week_high"
       || String.eqb (c_left c) "52_week_low"
    then true
    else false
  else true.

Definition applyConditions (universe : list obj) (conditions : list Condition)
  : list obj :=
  match conditions with
  | [] => universe
  | _ :: _ => filter (fun item => forallb (evalCondition item) conditions) universe
  end.

Definition screen (req : Request) : M W Response :=
  if negb (strict_equal (action req) (JStr "screen")) then
    ret (Status400 "Invalid action")
  else
    match universe req with
    | None | Some [] => ret (Status400 "Universe must be a non-empty array")
    | Some universe =>
        stockData <- getStockDataBatch universe ;;
        let results :=
          applyConditions stockData
            (match conditions req with Some cs => cs | None => [] end) in
        ret (Json200
               {| count := List.length results;
                  universe_size := List.length universe;
                  screened_size := None;
                  valid_data := List.length stockData;
                  note := None;
                  results := results |})
    end.

End Service.
End Finnhub.

(* ================================================================== *)
(** * [server.js]: quotes in batches from Yahoo                         *)
(* ================================================================== *)

Module Yahoo.
Section Service.
Context {rt : JSRuntime} {W : Type} {P : Provider W}.
Local Open Scope screen_scope.

(** [den ? (num / den).toFixed(2) : null], with a factor where given. *)
Definition ratio_fixed (numer den : jsval) (scale : option float) : jsval :=
  if ToBoolean den then
    let q := PrimFloat.div (ToNumber numer) (ToNumber den) in
    JStr (toFixed (match scale with
                   | Some k => PrimFloat.mul q k
                   | None => q
                   end) 2)
  else JNull.

(** The arrow function mapped over the quotes of a response. *)
Definition enrich (quote : YahooQuote) : obj :=
  [ ("symbol", y_symbol quote);
    ("close", js_or (y_regularMarketPrice quote) JNull);
    ("open", js_or (y_regularMarketOpen quote) JNull);
    ("high", js_or (y_regularMarketDayHigh quote) JNull);
    ("low", js_or (y_regularMarketDayLow quote) JNull);
    ("volume", js_or (y_regularMarketVolume quote) (JNum zero));
    ("avgVolume", js_or (y_averageDailyVolume3Month quote) (JNum zero));
    ("week52High", js_or (y_fiftyTwoWeekHigh quote) JNull);
    ("week52Low", js_or (y_fiftyTwoWeekLow quote) JNull);
    ("marketCap", js_or (y_marketCap quote) (JNum zero));
    ("currency", js_or (y_currency quote) (JStr "USD"));
    ("is_etf", JBool (strict_equal (y_quoteType quote) (JStr "ETF")));
    ("asset_type",
      if strict_equal (y_quoteType quote) (JStr "ETF")
      then JStr "etf" else JStr "equity");
    ("pct_from_52w_high",
      ratio_fixed (y_regularMarketPrice quote) (y_fiftyTwoWeekHigh quote)
                  (Some 100%float));
    ("pct_from_52w_low",
      ratio_fixed (y_regularMarketPrice quote) (y_fiftyTwoWeekLow quote)
                  (Some 100%float));
    ("volume_vs_avg",
      ratio_fixed (y_regularMarketVolume quote)
                  (y_averageDailyVolume3Month quote) None);
    ("volume_contraction",
      if ToBoolean (y_averageDailyVolume3Month quote)
      then JBool (PrimFloat.ltb
                    (ToNumber (y_regularMarketVolume quote))
                    (PrimFloat.mul (ToNumber (y_averageDailyVolume3Month quote))
                                   0.7%float))
      else JBool false);
    ("name", js_or (js_or (y_shortName quote) (y_longName quote)) (y_symbol quote));
    ("exchange", y_exchange quote);
    ("tradable_on_t212_cfd",
      JBool (includes [JStr "USD"; JStr "EUR"; JStr "GBP"]
                      (js_or (y_currency quote) (JStr "USD")))) ].

(** One request for a whole batch; every exception yields [[]]. *)
Definition getStockData (symbols : list string) : M W (list obj) :=
  response <- fetchYahoo symbols ;;
  match response with
  | HttpError => ret []
  | HttpOk None => ret []
  | HttpOk (Some results) => ret (map enrich results)
  end.

Definition evalCondition (item : obj) (c : Condition) : bool :=
  let left := get_prop item (c_left c) in
  if is_nullish left then
    if includes_str ["volume"; "close"; "week52High"; "week52Low"] (c_left c)
    then false
    else true
  else if String.eqb (c_operation c) "equal" then
    strict_equal left (c_right c)
  else if String.eqb (c_operation c) "greater" then
    PrimFloat.ltb (ToNumber (c_right c)) (ToNumber left)
  else if String.eqb (c_operation c) "less" then
    PrimFloat.ltb (ToNumber left) (ToNumber (c_right c))
  else if String.eqb (c_operation c) "in" then
    match c_right c with
    | JArr elems => includes elems left
    | _ => false
    end
  else if String.eqb (c_operation c) "near" then
    if String.eqb (c_left c) "52_week_high" then
      ToBoolean (get_prop item "close")
      && ToBoolean (get_prop item "week52High")
      && PrimFloat.leb
           (PrimFloat.mul (ToNumber (get_prop item "week52High")) 0.95%float)
           (ToNumber (get_prop item "close"))
    else if String.eqb (c_left c) "52_week_low" then
      ToBoolean (get_prop item "close")
      && ToBoolean (get_prop item "week52Low")
      && PrimFloat.leb
           (ToNumber (get_prop item "close"))
           (PrimFloat.mul (ToNumber (get_prop item "week52Low")) 1.05%float)
    else false
  else true.

Definition applyConditions (universe : list obj) (conditions : list Condition)
  : list obj :=
  match conditions with
  | [] => universe
  | _ :: _ => filter (fun item => forallb (evalCondition item) conditions) universe
  end.

Definition batchSize : nat := 100.

(** The loop [for (i = 0; i < universe.length; i += batchSize)], given
    the values [i] takes. *)
Fixpoint fetch_batches (starts : list nat) (universe : list string)
         (allStockData : list obj) : M W (list obj) :=
  match starts with
  | [] => ret allStockData
  | i :: rest =>
      let batch := slice universe (Z.of_nat i) (Z.of_nat (i + batchSize)) in
      batchData <- getStockData batch ;;
      fetch_batches rest universe (allStockData ++ batchData)
  end.

Definition batch_starts (len : nat) : list nat :=
  map (fun k => k * batchSize) (seq 0 ((len + (batchSize - 1)) / batchSize)).

(** [x.close !== null]. *)
Definition has_price (x : obj) : bool :=
  negb (strict_equal (get_prop x "close") JNull).

Definition screen (req : Request) : M W Response :=
  if negb (strict_equal (action req) (JStr "screen")) then
    ret (Status400 "Invalid action")
  else
    match universe req with
    | None | Some [] => ret (Status400 "Universe must be a non-empty array")
    | Some universe =>
        allStockData <-
          fetch_batches (batch_starts (List.length universe)) universe [] ;;
        let valid := filter has_price allStockData in
        let results :=
          applyConditions valid
            (match conditions req with Some cs => cs | None => [] end) in
        ret (Json200
               {| count := List.length results;
                  universe_size := List.length universe;
                  screened_size := None;
                  valid_data := List.length valid;
                  note := None;
                  results := results |})
    end.

End Service.
End Yahoo.

(* ================================================================== *)
(** * Vocabulary of the statements                                      *)
(* ================================================================== *)

(** The last [n] elements of a list. *)
Definition lastn {A : Type} (n : nat) (l : list A) : list A :=
  skipn (List.length l - n) l.

(** The arithmetic mean of a list of numbers, in the arithmetic of the
    language: the sum from the left, divided by the number of elements. *)
Definition mean (l : list float) : float :=
  PrimFloat.div (fold_left PrimFloat.add l zero) (Z2F (Z.of_nat (List.length l))).

(** The classification of a recent average against a baseline. *)
Definition classify (recent baseline : float) : string :=
  if PrimFloat.ltb (PrimFloat.mul baseline 1.02%float) recent then "up"
  else if PrimFloat.ltb recent (PrimFloat.mul baseline 0.98%float) then "down"
  else "sideways".

(** The trend as the specification words it: the baseline is the average
    of the five points that end [period] points before the most recent
    one. *)
Definition spec_Trend (s : list float) (period : nat) : string :=
  if (List.length s <? period + 5)%nat then "unknown"
  else classify (mean (lastn 5 s))
                (mean (firstn 5 (skipn (List.length s - period - 5) s))).

(** [r.close !== null]. *)
Definition priced (r : obj) : Prop :=
  strict_equal (get_prop r "close") JNull = false.

(** The names whose absence fails a condition, per revision. *)
Definition price_fields : list string := ["close"; "open"; "high"; "low"].
Definition yahoo_required_fields : list string :=
  ["volume"; "close"; "week52High"; "week52Low"].

(** The operations the evaluator knows. *)
Definition known_operations : list string :=
  ["equal"; "greater"; "less"; "in"; "near"].


(** ** Concrete inputs for the examples *)

(** A runtime for the examples.  The statements below hold for every
    runtime; the examples only read members of records that involve no
    conversion between strings and numbers. *)
Definition example_runtime : JSRuntime :=
  {| StringToNumber := fun _ => nan;
     NumberToString := fun _ => "";
     toFixed := fun _ _ => "" |}.

Definition quote_of (c pc : jsval) : RawQuote :=
  {| q_c := c; q_o := c; q_h := c; q_l := c; q_pc := pc |}.

(** A Yahoo quote that carries a price of 50 and nothing else. *)
Definition bare_yahoo_quote : YahooQuote :=
  {| y_symbol := JStr "AAA";
     y_regularMarketPrice := JNum 50%float;
     y_regularMarketOpen := JUndefined;
     y_regularMarketDayHigh := JUndefined;
     y_regularMarketDayLow := JUndefined;
     y_regularMarketVolume := JUndefined;
     y_averageDailyVolume3Month := JUndefined;
     y_fiftyTwoWeekHigh := JUndefined;
     y_fiftyTwoWeekLow := JUndefined;
     y_marketCap := JUndefined;
     y_currency := JUndefined;
     y_quoteType := JUndefined;
     y_shortName := JUndefined;
     y_longName := JUndefined;
     y_exchange := JUndefined |}.

(** A provider whose every Finnhub quote has the current price [c] and
    the previous close [pc], whose candles are the closes [closes], and
    whose Yahoo quotes all carry a price of 50. *)
Definition constant_provider (c pc : jsval) (closes : list float)
  : Provider unit :=
  {| fetchQuote := fun _ w => (HttpOk (Some (quote_of c pc)), w);
     fetchCandles := fun _ w =>
       (HttpOk (Some {| cd_s := JStr "ok"; cd_c := Some closes; cd_v := None |}), w);
     fetchYahoo := fun symbols w =>
       (HttpOk (Some (map (fun _ => bare_yahoo_quote) symbols)), w);
     delay := fun _ w => (tt, w) |}.

(** Five closes at 100 followed by twenty at 200. *)
Definition step_series : list float :=
  repeat 100%float 5 ++ repeat 200%float 20.

Definition near_high : Condition :=
  {| c_left := "52_week_high"; c_operation := "near"; c_right := JNull |}.

Definition near_low : Condition :=
  {| c_left := "52_week_low"; c_operation := "near"; c_right := JNull |}.

Definition greater_zero (field : string) : Condition :=
  {| c_left := field; c_operation := "greater"; c_right := JNum zero |}.

(** Candles with the single close 100. *)
Definition one_close : option Candles :=
  Some {| cd_s := JStr "ok"; cd_c := Some [100%float]; cd_v := None |}.

(** The record of the trend revision for a quote at 50 whose history
    peaked at 100: the price is not within 5% of the high. *)
Definition far_from_high {rt : JSRuntime} : obj :=
  Trend.enrich "AAA" (quote_of (JNum 50%float) JNull) one_close.

(** The record for a quote at 200 whose history bottomed at 100: the
    price is not within 5% of the low. *)
Definition far_from_low {rt : JSRuntime} : obj :=
  Trend.enrich "AAA" (quote_of (JNum 200%float) JNull) one_close.

(** A record without price data. *)
Definition unpriced_record : obj :=
  [ ("symbol", JStr "AAA"); ("close", JNull) ].

(** The current prices on which the guard of the two Finnhub revisions
    gives up: [null] and the number zero of either sign. *)
Definition zero_or_null (v : jsval) : Prop :=
  v = JNull \/ exists x, v = JNum x /\ PrimFloat.eqb x zero = true.

Definition option_to_list {A : Type} (o : option A) : list A :=
  match o with
  | Some a => [a]
  | None => []
  end.

(** The conditions a handler evaluates: [conditions || []]. *)
Definition conditions_of (req : Request) : list Condition :=
  match conditions req with
  | Some cs => cs
  | None => []
  end.

Section Pipeline.
Context {rt : JSRuntime} {W : Type} {P : Provider W}.

(** The world in which the rest of a batch runs, after a first symbol. *)
Definition trend_after (symbol : string) (rest : list string) (w : W) : W :=
  let w1 := snd (Trend.getStockDataWithTrend symbol w) in
  match rest with
  | [] => w1
  | _ :: _ => snd (delay 2000 w1)
  end.

(** The records that the handler of the trend revision hands to
    [applyConditions]. *)
Definition trend_evaluated (u : list string) (w : W) : list obj :=
  fst (Trend.getStockDataBatch (slice u 0 25) w).

(** The records that the handler of [server.js] hands to
    [applyConditions]. *)
Definition yahoo_evaluated (u : list string) (w : W) : list obj :=
  filter Yahoo.has_price
    (fst (Yahoo.fetch_batches (Yahoo.batch_starts (List.length u)) u [] w)).
End Pipeline.

Definition screen_request (u : list string) (cs : list Condition) : Request :=
  {| action := JStr "screen"; universe := Some u; conditions := Some cs |}.

(** The provider and the answers of the examples on the pipeline. *)
Definition fifty : Provider unit :=
  constant_provider (JNum 50%float) JNull [100%float].

Definition trend_answer {rt : JSRuntime} : ScreenBody :=
  {| count := 1; universe_size := 1; screened_size := Some 1;
     valid_data := 1; note := None; results := [far_from_high] |}.

Definition yahoo_answer : ScreenBody :=
  {| count := 1; universe_size := 1; screened_size := None;
     valid_data := 1; note := None;
     results := [@Yahoo.enrich example_runtime bare_yahoo_quote] |}.

Definition thirty_symbols : list string := repeat "AAA" 30.

(* ================================================================== *)
(** * The first revision: one price per symbol                          *)
(* ================================================================== *)

(** The relational comparison of the language on two arbitrary values,
    [IsLessThan a b] for [a < b]: a built-in that compares two strings by
    their code units and everything else as numbers. *)
Class JSRelational : Type := {
  IsLessThan : jsval -> jsval -> bool
}.

Module Basic.

Record Body : Type := {
  count : nat;
  results : list obj
}.

(** The answers of the handler; [Status500] is the answer of its [catch]. *)
Inductive Response : Type :=
| Status400 (error : string)
| Status500
| Json200 (body : Body).

Section Service.
Context {rt : JSRuntime} {rel : JSRelational} {W : Type} {P : Provider W}.
Local Open Scope screen_scope.

(** The Finnhub price when the quote carries a truthy one, else the price
    of the first Yahoo quote or [null]; [null] when a request throws, also
    on reading [result[0]] of a body without [result]. *)
Definition getPrice (symbol : string) : M W jsval :=
  r1 <- fetchQuote symbol ;;
  match r1 with
  | HttpError => ret JNull
  | HttpOk data =>
      let c := match data with
               | Some q => q_c q
               | None => JUndefined
               end in
      if match data with Some _ => ToBoolean c | None => false end
      then ret c
      else
        r2 <- fetchYahoo [symbol] ;;
        match r2 with
        | HttpError => ret JNull
        | HttpOk None => ret JNull
        | HttpOk (Some []) => ret JNull
        | HttpOk (Some (q :: _)) => ret (js_or (y_regularMarketPrice q) JNull)
        end
  end.

(** The predicate given to [conditions.every]: no guard on absent
    members, and comparisons without [Number(..)]. *)
Definition evalCondition (item : obj) (c : Condition) : bool :=
  let left := get_prop item (c_left c) in
  if String.eqb (c_operation c) "equal" then
    strict_equal left (c_right c)
  else if String.eqb (c_operation c) "greater" then
    IsLessThan (c_right c) left
  else if String.eqb (c_operation c) "less" then
    IsLessThan left (c_right c)
  else if String.eqb (c_operation c) "in" then
    match c_right c with
    | JArr elems => includes elems left
    | _ => false
    end
  else if String.eqb (c_operation c) "near" then
    if String.eqb (c_left c) "52_week_high" then
      PrimFloat.leb
        (PrimFloat.mul (ToNumber (get_prop item "week52High")) 0.95%float)
        (ToNumber (get_prop item "close"))
    else if String.eqb (c_left c) "52_week_low" then
      PrimFloat.leb
        (ToNumber (get_prop item "close"))
        (PrimFloat.mul (ToNumber (get_prop item "week52Low")) 1.05%float)
    else false
  else true.

(** [universe.filter(item => conditions.every(..))].  The handler passes
    [conditions] as it arrives: when it is not an array, the first call of
    the callback throws, which is [None]; without a record to filter the
    callback is never called. *)
Definition applyConditions (universe : list obj)
           (conditions : option (list Condition)) : option (list obj) :=
  match conditions with
  | Some cs =>
      Some (filter (fun item => forallb (evalCondition item) cs) universe)
  | None =>
      match universe with
      | [] => Some []
      | _ :: _ => None
      end
  end.

(** The record of a symbol and its price. *)
Definition priced (symbol : string) (price : jsval) : obj :=
  [ ("symbol", JStr symbol); ("close", price); ("currency", JStr "USD") ].

(** The handler of [POST /screen].  Its requests run concurrently under
    [Promise.all], which keeps the order of the universe: [price_of i s]
    is what [getPrice] resolves to for the symbol [s] at index [i]. *)
Definition screen (price_of : nat -> string -> jsval) (req : Request)
  : Response :=
  if negb (strict_equal (action req) (JStr "screen")) then
    Status400 "Invalid action"
  else
    match universe req with
    | None | Some [] => Status400 "Universe must be a non-empty array"
    | Some universe =>
        let priced :=
          map (fun p => priced (snd p) (price_of (fst p) (snd p)))
              (combine (seq 0 (List.length universe)) universe) in
        let valid :=
          filter (fun x => negb (strict_equal (get_prop x "close") JNull))
                 priced in
        match applyConditions valid (conditions req) with
        | Some results =>
            Json200 {| count := List.length results; results := results |}
        | None => Status500
        end
    end.

End Service.
End Basic.

(* ================================================================== *)
(** * The API key check                                                 *)
(* ================================================================== *)

Module Middleware.

(** What the chain of middlewares answers: 403 by the key check, or the
    answer of the route. *)
Inductive Reply (A : Type) : Type :=
| Status403 (error : string)
| Next (answer : A).
Arguments Status403 {A} error.
Arguments Next {A} answer.

(** The condition of [next()]: the negation of
    [!provided || provided !== process.env.API_KEY].  [provided] is the
    header [x-api-key], [None] when the request has none; [API_KEY] is the
    variable of the environment, [None] when it is not set. *)
Definition key_accepted (provided API_KEY : option string) : bool :=
  match provided with
  | None => false
  | Some p =>
      if String.eqb p "" then false
      else match API_KEY with
           | Some k => String.eqb p k
           | None => false
           end
  end.

(** A route behind the check. *)
Definition guarded {W A : Type} (provided API_KEY : option string)
           (route : M W A) : M W (Reply A) :=
  if key_accepted provided API_KEY
  then bind route (fun answer => ret (Next answer))
  else ret (Status403 "Invalid API Key").

End Middleware.

(* ================================================================== *)
(** * Vocabulary of the further statements                              *)
(* ================================================================== *)

(** The calls a handler makes on its provider. *)
Inductive Call : Type :=
| QuoteCall (symbol : string)
| CandleCall (symbol : string)
| YahooCall (symbols : list string)
| Pause (ms : nat).

(** A provider that also notes every call, in order. *)
Definition tracing {W : Type} (P : Provider W) : Provider (W * list Call) :=
  {| fetchQuote := fun symbol s =>
       let (r, w') := fetchQuote symbol (fst s) in
       (r, (w', snd s ++ [QuoteCall symbol]));
     fetchCandles := fun symbol s =>
       let (r, w') := fetchCandles symbol (fst s) in
       (r, (w', snd s ++ [CandleCall symbol]));
     fetchYahoo := fun symbols s =>
       let (r, w') := fetchYahoo symbols (fst s) in
       (r, (w', snd s ++ [YahooCall symbols]));
     delay := fun ms s =>
       let (r, w') := delay ms (fst s) in
       (r, (w', snd s ++ [Pause ms])) |}.

Definition quote_calls (t : list Call) : list string :=
  flat_map (fun c => match c with QuoteCall s => [s] | _ => [] end) t.

Definition candle_calls (t : list Call) : list string :=
  flat_map (fun c => match c with CandleCall s => [s] | _ => [] end) t.

Definition yahoo_calls (t : list Call) : list (list string) :=
  flat_map (fun c => match c with YahooCall l => [l] | _ => [] end) t.

Definition pauses (t : list Call) : list nat :=
  flat_map (fun c => match c with Pause ms => [ms] | _ => [] end) t.

(** The calls of a batch of the trend revision: for each symbol its quote,
    then possibly its candles, and a pause of two seconds between two
    symbols. *)
Inductive trend_pattern : list string -> list Call -> Prop :=
| trend_pattern_nil : trend_pattern [] []
| trend_pattern_last (s : string) (cs : list Call) :
    cs = [] \/ cs = [CandleCall s] ->
    trend_pattern [s] (QuoteCall s :: cs)
| trend_pattern_cons (s s' : string) (rest : list string) (cs t : list Call) :
    cs = [] \/ cs = [CandleCall s] ->
    trend_pattern (s' :: rest) t ->
    trend_pattern (s :: s' :: rest) (QuoteCall s :: cs ++ Pause 2000 :: t).

(** The calls of a batch of the quote-only revision. *)
Fixpoint finnhub_calls (symbols : list string) : list Call :=
  match symbols with
  | [] => []
  | s :: rest =>
      QuoteCall s :: match rest with
                     | [] => []
                     | _ :: _ => Pause 50 :: finnhub_calls rest
                     end
  end.

(** The batches [server.js] cuts a universe into. *)
Definition yahoo_batches (u : list string) : list (list string) :=
  map (fun i => slice u (Z.of_nat i) (Z.of_nat (i + Yahoo.batchSize)))
      (Yahoo.batch_starts (List.length u)).

(** [l1] is [l2] with some elements left out. *)
Inductive subseq {A : Type} : list A -> list A -> Prop :=
| subseq_nil : subseq [] []
| subseq_skip (x : A) (l1 l2 : list A) : subseq l1 l2 -> subseq l1 (x :: l2)
| subseq_keep (x : A) (l1 l2 : list A) :
    subseq l1 l2 -> subseq (x :: l1) (x :: l2).

(** [r.symbol]. *)
Definition symbol_of (r : obj) : jsval := get_prop r "symbol".

(** A value that is [null] or truthy. *)
Definition null_or_truthy (v : jsval) : Prop :=
  v = JNull \/ ToBoolean v = true.

(** Candles from which the trend revision derives nothing: no body, a
    status other than "ok", or no close. *)
Definition no_history (candles : option Candles) : Prop :=
  match candles with
  | None => True
  | Some cd =>
      strict_equal (cd_s cd) (JStr "ok") = false
      \/ cd_c cd = None \/ cd_c cd = Some []
  end.

(** Candles with the status "ok", the closes [cp] and the volumes [v]. *)
Definition candles_ok (cp : list float) (v : option (list float))
  : option Candles :=
  Some {| cd_s := JStr "ok"; cd_c := Some cp; cd_v := v |}.

(** The members of a record of the trend revision that need history. *)
Definition history_members : list string :=
  [ "week52High"; "week52Low"; "pctFrom52High"; "pctFrom52Low";
    "nearWeek52High"; "nearWeek52Low"; "ma20"; "ma50"; "ma200";
    "aboveMA20"; "aboveMA50"; "aboveMA200" ].

(** The members that are always [null] in the quote-only revision. *)
Definition finnhub_null_members : list string :=
  [ "volume"; "avgVolume"; "week52High"; "week52Low"; "marketCap" ].

(** A request the handlers answer with 400: the action is not "screen",
    or the universe is not a non-empty array. *)
Definition malformed (req : Request) : Prop :=
  strict_equal (action req) (JStr "screen") = false
  \/ universe req = None \/ universe req = Some [].

(** The message of the 400 answer to a malformed request. *)
Definition rejection (req : Request) : string :=
  if strict_equal (action req) (JStr "screen")
  then "Universe must be a non-empty array"
  else "Invalid action".

(** The records the first revision hands to its conditions: those of the
    symbols with a price. *)
Definition basic_valid (price_of : nat -> string -> jsval) (u : list string)
  : list obj :=
  filter (fun x => negb (strict_equal (get_prop x "close") JNull))
         (map (fun p => Basic.priced (snd p) (price_of (fst p) (snd p)))
              (combine (seq 0 (List.length u)) u)).

(** A [near] condition on one of the two names it knows. *)
Definition near_condition (c : Condition) : Prop :=
  c_operation c = "near"
  /\ (c_left c = "52_week_high" \/ c_left c = "52_week_low").

(** ** Further concrete inputs *)

(** A provider whose every request fails. *)
Definition failing_provider : Provider unit :=
  {| fetchQuote := fun _ w => (HttpError, w);
     fetchCandles := fun _ w => (HttpError, w);
     fetchYahoo := fun _ w => (HttpError, w);
     delay := fun _ w => (tt, w) |}.

(** A comparison for the examples; the statements hold for every one. *)
Definition example_relational : JSRelational :=
  {| IsLessThan := fun _ _ => false |}.

(** ** Price data of the records, and what a batch leaves out *)

(** [r.close] is neither [null] nor [undefined]: the record carries price
    data. *)
Definition carries_price (r : obj) : Prop :=
  is_nullish (get_prop r "close") = false.

(** The record is that of one of [symbols]: its close is the current
    price of a quote the provider has for that symbol, and that price is
    neither [null] nor zero. *)
Definition quoted_among {W : Type} {P : Provider W} (symbols : list string)
           (r : obj) : Prop :=
  exists symbol w q,
    In symbol symbols
    /\ fst (fetchQuote symbol w) = HttpOk (Some q)
    /\ ~ zero_or_null (q_c q)
    /\ get_prop r "symbol" = JStr symbol
    /\ get_prop r "close" = q_c q.

(** The records [server.js] has fetched, before it filters them. *)
Definition yahoo_fetched {rt : JSRuntime} {W : Type} {P : Provider W}
           (u : list string) (w : W) : list obj :=
  fst (Yahoo.fetch_batches (Yahoo.batch_starts (List.length u)) u [] w).

(** The world in which the rest of a quote-only batch runs, after a first
    symbol. *)
Definition finnhub_after {rt : JSRuntime} {W : Type} {P : Provider W}
           (symbol : string) (rest : list string) (w : W) : W :=
  let w1 := snd (Finnhub.getStockDataFinnhub symbol w) in
  match rest with
  | [] => w1
  | _ :: _ => snd (delay 50 w1)
  end.

(** What the provider answers when the quote-only revision has no record
    for a symbol: the quote request fails, its body is missing, or the
    current price is [null] or zero. *)
Definition finnhub_gives_up {W : Type} {P : Provider W}
           (symbol : string) (w : W) : Prop :=
  match fst (fetchQuote symbol w) with
  | HttpError | HttpOk None => True
  | HttpOk (Some q) => zero_or_null (q_c q)
  end.

(** The same for the trend revision, whose candle request may fail as
    well. *)
Definition trend_gives_up {W : Type} {P : Provider W}
           (symbol : string) (w : W) : Prop :=
  match fetchQuote symbol w with
  | (HttpError, _) | (HttpOk None, _) => True
  | (HttpOk (Some q), w1) =>
      zero_or_null (q_c q) \/ fst (fetchCandles symbol w1) = HttpError
  end.

(** The candle request asks for the daily candles of the last 300 days
    ([from = now - 300 * 24 * 60 * 60], [resolution=D]). *)
Definition requested_days : nat := 300.

(** The candle response for a symbol holds no more closes than were
    asked for. *)
Definition candles_as_requested {W : Type} {P : Provider W}
           (symbol : string) (w : W) : Prop :=
  match fst (fetchCandles symbol (snd (fetchQuote symbol w))) with
  | HttpOk (Some cd) =>
      match cd_c cd with
      | Some closePrices => List.length closePrices <= requested_days + 1
      | None => True
      end
  | _ => True
  end.

(** A Yahoo quote for "BBB" that carries no price. *)
Definition unpriced_yahoo_quote : YahooQuote :=
  {| y_symbol := JStr "BBB";
     y_regularMarketPrice := JUndefined;
     y_regularMarketOpen := JUndefined;
     y_regularMarketDayHigh := JUndefined;
     y_regularMarketDayLow := JUndefined;
     y_regularMarketVolume := JUndefined;
     y_averageDailyVolume3Month := JUndefined;
     y_fiftyTwoWeekHigh := JUndefined;
     y_fiftyTwoWeekLow := JUndefined;
     y_marketCap := JUndefined;
     y_currency := JUndefined;
     y_quoteType := JUndefined;
     y_shortName := JUndefined;
     y_longName := JUndefined;
     y_exchange := JUndefined |}.

(** A provider with a price of 50 for every symbol but "BBB": the Finnhub
    quote of "BBB" has the current price [null], its Yahoo quote has
    none.  The candles are the single close 100. *)
Definition mixed_provider : Provider unit :=
  {| fetchQuote := fun symbol w =>
       (HttpOk (Some (quote_of (if String.eqb symbol "BBB" then JNull
                                else JNum 50%float) JNull)), w);
     fetchCandles := fun _ w => (HttpOk one_close, w);
     fetchYahoo := fun symbols w =>
       (HttpOk (Some (map (fun s => if String.eqb s "BBB"
                                    then unpriced_yahoo_quote
                                    else bare_yahoo_quote) symbols)), w);
     delay := fun _ w => (tt, w) |}.

(** The answers to a request for "AAA" and "BBB" with that provider. *)
Definition mixed_yahoo_answer : ScreenBody :=
  {| count := 1; universe_size := 2; screened_size := None;
     valid_data := 1; note := None;
     results := [@Yahoo.enrich example_runtime bare_yahoo_quote] |}.

Definition mixed_trend_answer : ScreenBody :=
  {| count := 1; universe_size := 2; screened_size := Some 2;
     valid_data := 1; note := None;
     results := [@far_from_high example_runtime] |}.

(** A condition on the symbol of a record. *)
Definition symbol_is (symbol : string) : Condition :=
  {| c_left := "symbol"; c_operation := "equal"; c_right := JStr symbol |}.

(* ================================================================== *)
(** * Facts about slices                                                *)
(* ================================================================== *)

Section SliceFacts.
Context {A : Type}.
Implicit Types l : list A.

Lemma rel_index_neg (len n : nat) :
  1 <= n <= len -> rel_index len (- Z.of_nat n) = len - n.
Proof.
  intros Hn. unfold rel_index.
  destruct (Z.ltb_spec (- Z.of_nat n) 0); lia.
Qed.

Lemma rel_index_nat (len n : nat) :
  rel_index len (Z.of_nat n) = Nat.min n len.
Proof.
  unfold rel_index.
  destruct (Z.ltb_spec (Z.of_nat n) 0); lia.
Qed.

Lemma lastn_length l n : n <= List.length l -> List.length (lastn n l) = n.
Proof. intros Hn. unfold lastn. rewrite length_skipn. lia. Qed.

Lemma lastn_all l : lastn (List.length l) l = l.
Proof. unfold lastn. now rewrite Nat.sub_diag. Qed.

(** [l.slice(-n)] is the last [n] elements, for [n] between 1 and the
    length. *)
Lemma slice_from_last l n :
  1 <= n <= List.length l -> slice_from l (- Z.of_nat n) = lastn n l.
Proof.
  intros Hn. unfold slice_from, slice, lastn.
  rewrite rel_index_neg by exact Hn.
  rewrite rel_index_nat, Nat.min_id.
  apply firstn_all2. rewrite length_skipn. lia.
Qed.

(** [l.slice(0, n)] is the first [n] elements. *)
Lemma slice_prefix l n : slice l 0 (Z.of_nat n) = firstn n l.
Proof.
  unfold slice.
  change 0%Z with (Z.of_nat 0). rewrite !rel_index_nat.
  cbn [Nat.min skipn]. rewrite Nat.sub_0_r.
  destruct (Nat.le_ge_cases n (List.length l)) as [Hle | Hge].
  - now rewrite Nat.min_l.
  - rewrite Nat.min_r by exact Hge.
    now rewrite !firstn_all2 by lia.
Qed.

(** [l.slice(-a, -b)] is a window of [a - b] elements. *)
Lemma slice_window l a b :
  1 <= b <= a -> a <= List.length l ->
  slice l (- Z.of_nat a) (- Z.of_nat b)
  = firstn (a - b) (skipn (List.length l - a) l).
Proof.
  intros Hb Ha. unfold slice.
  rewrite !rel_index_neg by lia.
  f_equal. lia.
Qed.

Lemma slice_length_le l i j : List.length (slice l i j) <= List.length l.
Proof.
  unfold slice. rewrite length_firstn, length_skipn. lia.
Qed.
End SliceFacts.

(* ================================================================== *)
(** * Moving average and trend                                          *)
(* ================================================================== *)

Lemma calculateSMA_short (s : list float) (p : nat) :
  List.length s < p -> Trend.calculateSMA s p = None.
Proof.
  intros Hlt. unfold Trend.calculateSMA.
  destruct (Nat.ltb_spec (List.length s) p); [reflexivity | lia].
Qed.

Lemma calculateSMA_mean (s : list float) (p : nat) :
  1 <= p <= List.length s ->
  Trend.calculateSMA s p = Some (mean (lastn p s)).
Proof.
  intros Hp. unfold Trend.calculateSMA.
  destruct (Nat.ltb_spec (List.length s) p); [lia |].
  rewrite slice_from_last by exact Hp.
  unfold mean, Trend.sum. now rewrite lastn_length by lia.
Qed.

(** A period of zero is degenerate: [slice(-0)] is the whole series and
    its sum is divided by zero. *)
Lemma calculateSMA_zero_period :
  Trend.calculateSMA [1%float] 0 = Some infinity.
Proof. reflexivity. Qed.

(** C5. The simple moving average is [null] on a series shorter than the
    period; on a series of at least [p >= 1] elements it is the arithmetic
    mean of the last [p] elements; and the average of [10, 20, 30] over
    three points is [20]. *)
Theorem C5_simple_moving_average (s : list float) (p : nat) :
  (List.length s < p -> Trend.calculateSMA s p = None)
  /\ (1 <= p <= List.length s ->
      Trend.calculateSMA s p = Some (mean (lastn p s)))
  /\ Trend.calculateSMA [10; 20; 30]%float 3 = Some 20%float.
Proof.
  split; [apply calculateSMA_short |].
  split; [apply calculateSMA_mean | reflexivity].
Qed.

Lemma C5_simple_moving_average_witness :
  (1 <= 2 <= List.length [10; 20; 30; 40]%float)
  /\ Trend.calculateSMA [10; 20; 30; 40]%float 2 = Some 35%float
  /\ (List.length [10; 20]%float < 3)
  /\ Trend.calculateSMA [10; 20]%float 3 = None.
Proof.
  assert (H1 : 1 <= 2 <= List.length [10; 20; 30; 40]%float) by (simpl; lia).
  assert (H2 : List.length [10; 20]%float < 3) by (simpl; lia).
  split; [exact H1 |].
  split; [exact (proj1 (proj2 (C5_simple_moving_average _ 2)) H1) |].
  split; [exact H2 |].
  exact (proj1 (C5_simple_moving_average _ 3) H2).
Defined.

Lemma calculateTrend_unknown (s : list float) (p : nat) :
  List.length s < p + 5 -> Trend.calculateTrend s p = "unknown".
Proof.
  intros Hlt. unfold Trend.calculateTrend.
  destruct (Nat.ltb_spec (List.length s) (p + 5)); [reflexivity | lia].
Qed.

(** The recent average of [calculateTrend]. *)
Lemma recent_average (s : list float) :
  5 <= List.length s ->
  Trend.calculateSMA (slice_from s (-5)) 5 = Some (mean (lastn 5 s)).
Proof.
  intros Hlen.
  change (-5)%Z with (- Z.of_nat 5)%Z.
  rewrite slice_from_last by lia.
  rewrite calculateSMA_mean by (rewrite lastn_length; lia).
  replace 5 with (List.length (lastn 5 s)) at 1 by (apply lastn_length; lia).
  now rewrite lastn_all.
Qed.

(** The older average of [calculateTrend], for a period of at least five
    points: the sliced window has [p] elements and [calculateSMA] averages
    its last five, which are the five points just before the last five of
    the series, whatever [p] is. *)
Lemma older_average (s : list float) (p : nat) :
  5 <= p -> p + 5 <= List.length s ->
  Trend.calculateSMA (slice s (- (Z.of_nat p + 5)) (-5)) 5
  = Some (mean (firstn 5 (skipn (List.length s - 10) s))).
Proof.
  intros Hp Hlen.
  replace (- (Z.of_nat p + 5))%Z with (- Z.of_nat (p + 5))%Z by lia.
  change (-5)%Z with (- Z.of_nat 5)%Z.
  rewrite slice_window by lia.
  replace (p + 5 - 5) with p by lia.
  set (w := firstn p (skipn (List.length s - (p + 5)) s)).
  assert (Hw : List.length w = p).
  { unfold w. rewrite length_firstn, length_skipn. lia. }
  rewrite calculateSMA_mean by lia.
  do 2 f_equal. unfold lastn. rewrite Hw. unfold w.
  rewrite skipn_firstn_comm, skipn_skipn.
  f_equal; [lia | f_equal; lia].
Qed.

(** For a period below five the sliced window is too short for a
    five-point average: the older average is [null]. *)
Lemma older_average_null (s : list float) (p : nat) :
  p < 5 -> p + 5 <= List.length s ->
  Trend.calculateSMA (slice s (- (Z.of_nat p + 5)) (-5)) 5 = None.
Proof.
  intros Hp Hlen. apply calculateSMA_short.
  replace (- (Z.of_nat p + 5))%Z with (- Z.of_nat (p + 5))%Z by lia.
  change (-5)%Z with (- Z.of_nat 5)%Z.
  rewrite slice_window by lia.
  rewrite length_firstn, length_skipn. lia.
Qed.

(** What [calculateTrend] computes on a long enough series. *)
Lemma calculateTrend_windows (s : list float) (p : nat) :
  5 <= p -> p + 5 <= List.length s ->
  Trend.calculateTrend s p
  = classify (mean (lastn 5 s)) (mean (firstn 5 (skipn (List.length s - 10) s))).
Proof.
  intros Hp Hlen. unfold Trend.calculateTrend.
  destruct (Nat.ltb_spec (List.length s) (p + 5)); [lia |].
  rewrite recent_average by lia.
  rewrite older_average by assumption.
  reflexivity.
Qed.

(** The period has no influence on the classification. *)
Lemma calculateTrend_period_irrelevant (s : list float) (p : nat) :
  5 <= p -> p + 5 <= List.length s ->
  Trend.calculateTrend s p = Trend.calculateTrend s 5.
Proof.
  intros Hp Hlen.
  rewrite (calculateTrend_windows s p) by assumption.
  now rewrite (calculateTrend_windows s 5) by lia.
Qed.

(** With a period below five (the weekly call uses four) the baseline is
    [null], which counts as [0]. *)
Lemma calculateTrend_short_period (s : list float) (p : nat) :
  p < 5 -> p + 5 <= List.length s ->
  Trend.calculateTrend s p = classify (mean (lastn 5 s)) zero.
Proof.
  intros Hp Hlen. unfold Trend.calculateTrend.
  destruct (Nat.ltb_spec (List.length s) (p + 5)); [lia |].
  rewrite recent_average by lia.
  rewrite older_average_null by assumption.
  reflexivity.
Qed.

(** With a period of five the two windows coincide, and the code computes
    the trend as specified. *)
Lemma calculateTrend_spec_period_5 (s : list float) :
  Trend.calculateTrend s 5 = spec_Trend s 5.
Proof.
  unfold spec_Trend.
  destruct (Nat.ltb_spec (List.length s) (5 + 5)) as [Hlt | Hge].
  - now apply calculateTrend_unknown.
  - rewrite calculateTrend_windows by lia.
    now replace (List.length s - 5 - 5) with (List.length s - 10) by lia.
Qed.

(** The thresholds are strict: a recent average of exactly 1.02 times the
    baseline is "sideways", 1.03 times is "up". *)
Lemma calculateTrend_boundary :
  Trend.calculateTrend (repeat 100%float 20 ++ repeat 102%float 5) 5 = "sideways"
  /\ Trend.calculateTrend (repeat 100%float 20 ++ repeat 103%float 5) 5 = "up"
  /\ Trend.calculateTrend (repeat 100%float 20 ++ repeat 97%float 5) 5 = "down".
Proof. repeat split; reflexivity. Qed.

(** C4. On twenty-five closes, five at 100 followed by twenty at 200, the
    five points that end twenty points before the most recent one average
    100 and the last five average 200, so the trend as specified is "up";
    [calculateTrend] answers "sideways", because its baseline is the
    average of the five points just before the last five. *)
Theorem C4_trend_baseline_window :
  Trend.calculateTrend step_series 20 = "sideways"
  /\ spec_Trend step_series 20 = "up"
  /\ mean (firstn 5 (skipn (List.length step_series - 20 - 5) step_series))
     = 100%float
  /\ mean (firstn 5 (skipn (List.length step_series - 10) step_series))
     = 200%float.
Proof. repeat split; reflexivity. Qed.

(* ================================================================== *)
(** * The condition evaluator                                           *)
(* ================================================================== *)

Lemma includes_str_In (l : list string) (s : string) :
  includes_str l s = true <-> In s l.
Proof.
  unfold includes_str. rewrite existsb_exists. split.
  - intros (e & Hin & Heq). apply String.eqb_eq in Heq. now subst.
  - intros Hin. exists s. split; [exact Hin | apply String.eqb_refl].
Qed.

Lemma includes_str_not_In (l : list string) (s : string) :
  includes_str l s = false <-> ~ In s l.
Proof.
  rewrite <- includes_str_In. now destruct (includes_str l s).
Qed.

Lemma is_nullish_inv (v : jsval) :
  is_nullish v = true -> v = JUndefined \/ v = JNull.
Proof. destruct v; cbn; auto; discriminate. Qed.

Lemma unknown_operation (op : string) :
  ~ In op known_operations ->
  String.eqb op "equal" = false /\ String.eqb op "greater" = false
  /\ String.eqb op "less" = false /\ String.eqb op "in" = false
  /\ String.eqb op "near" = false.
Proof.
  intros Hnot.
  repeat split; apply String.eqb_neq; intros ->; apply Hnot; cbn; tauto.
Qed.

Section Evaluator.
Context {rt : JSRuntime}.

(** The guard on an absent member comes before the operation is looked
    at. *)
Lemma trend_absent (item : obj) (c : Condition) :
  is_nullish (get_prop item (c_left c)) = true ->
  Trend.evalCondition item c = negb (includes_str price_fields (c_left c)).
Proof.
  intros H. unfold Trend.evalCondition, price_fields. rewrite H.
  now destruct (includes_str _ _).
Qed.

Lemma finnhub_absent (item : obj) (c : Condition) :
  is_nullish (get_prop item (c_left c)) = true ->
  Finnhub.evalCondition item c = negb (includes_str price_fields (c_left c)).
Proof.
  intros H. unfold Finnhub.evalCondition, price_fields. rewrite H.
  now destruct (includes_str _ _).
Qed.

Lemma yahoo_absent (item : obj) (c : Condition) :
  is_nullish (get_prop item (c_left c)) = true ->
  Yahoo.evalCondition item c
  = negb (includes_str yahoo_required_fields (c_left c)).
Proof.
  intros H. unfold Yahoo.evalCondition, yahoo_required_fields. rewrite H.
  now destruct (includes_str _ _).
Qed.

(** C1, as the code has it.  When the member named by a condition is
    [undefined] or [null] on the record, the condition fails in the trend
    and quote-only revisions exactly when the name is one of close, open,
    high, low, and in [server.js] exactly when it is one of volume, close,
    week52High, week52Low; for every other name it passes. *)
Theorem C1_absent_field_policy (item : obj) (c : Condition) :
  is_nullish (get_prop item (c_left c)) = true ->
  (In (c_left c) price_fields ->
     Trend.evalCondition item c = false /\ Finnhub.evalCondition item c = false)
  /\ (~ In (c_left c) price_fields ->
     Trend.evalCondition item c = true /\ Finnhub.evalCondition item c = true)
  /\ (In (c_left c) yahoo_required_fields -> Yahoo.evalCondition item c = false)
  /\ (~ In (c_left c) yahoo_required_fields -> Yahoo.evalCondition item c = true).
Proof.
  intros H.
  rewrite (trend_absent item c H), (finnhub_absent item c H),
    (yahoo_absent item c H).
  split; [| split; [| split]]; intros Hin.
  - apply includes_str_In in Hin. now rewrite Hin.
  - apply includes_str_not_In in Hin. now rewrite Hin.
  - apply includes_str_In in Hin. now rewrite Hin.
  - apply includes_str_not_In in Hin. now rewrite Hin.
Qed.

(** A record whose close is [null] fails "close greater 0" and, when it has
    no market capitalisation either, passes "marketCap greater 0", in every
    revision. *)
Lemma absent_close_and_marketCap (item : obj) :
  (is_nullish (get_prop item "close") = true ->
   Trend.evalCondition item (greater_zero "close") = false
   /\ Finnhub.evalCondition item (greater_zero "close") = false
   /\ Yahoo.evalCondition item (greater_zero "close") = false)
  /\ (is_nullish (get_prop item "marketCap") = true ->
     Trend.evalCondition item (greater_zero "marketCap") = true
     /\ Finnhub.evalCondition item (greater_zero "marketCap") = true
     /\ Yahoo.evalCondition item (greater_zero "marketCap") = true).
Proof.
  split; intros H.
  - now rewrite (trend_absent item (greater_zero "close") H),
      (finnhub_absent item (greater_zero "close") H),
      (yahoo_absent item (greater_zero "close") H).
  - now rewrite (trend_absent item (greater_zero "marketCap") H),
      (finnhub_absent item (greater_zero "marketCap") H),
      (yahoo_absent item (greater_zero "marketCap") H).
Qed.

(** C9. A condition whose operation is none of equal, greater, less, in,
    near, on a member that is present, passes in every revision. *)
Theorem C9_unknown_operation_passes (item : obj) (c : Condition) :
  ~ In (c_operation c) known_operations ->
  is_nullish (get_prop item (c_left c)) = false ->
  Trend.evalCondition item c = true
  /\ Finnhub.evalCondition item c = true
  /\ Yahoo.evalCondition item c = true.
Proof.
  intros Hop Hleft.
  destruct (unknown_operation _ Hop) as (He & Hg & Hl & Hi & Hn).
  unfold Trend.evalCondition, Finnhub.evalCondition, Yahoo.evalCondition.
  now rewrite Hleft, He, Hg, Hl, Hi, Hn.
Qed.

(** No record of the trend revision has a member named 52_week_high or
    52_week_low, so the guard on absent members answers for [near]
    conditions on these names before the operation is looked at: they
    pass whatever the proximity flags are. *)
Lemma near_guard_preempts (symbol : string) (quote : RawQuote)
      (candles : option Candles) (right : jsval) :
  let item := Trend.enrich symbol quote candles in
  Trend.evalCondition item
    {| c_left := "52_week_high"; c_operation := "near"; c_right := right |} = true
  /\ Trend.evalCondition item
    {| c_left := "52_week_low"; c_operation := "near"; c_right := right |} = true.
Proof. split; reflexivity. Qed.

(** A [near] condition on a name that the record lacks passes too, when
    the name is not a price field. *)
Lemma near_other_absent_passes (item : obj) (c : Condition) :
  c_operation c = "near" ->
  is_nullish (get_prop item (c_left c)) = true ->
  ~ In (c_left c) price_fields ->
  Trend.evalCondition item c = true.
Proof.
  intros _ H Hnot. rewrite (trend_absent item c H).
  apply includes_str_not_In in Hnot. now rewrite Hnot.
Qed.

(** On a member that is present, [near] reads the flag for the two
    names and fails for every other name. *)
Lemma near_on_present_member (item : obj) (c : Condition) :
  c_operation c = "near" ->
  is_nullish (get_prop item (c_left c)) = false ->
  Trend.evalCondition item c
  = if String.eqb (c_left c) "52_week_high"
    then strict_equal (get_prop item "nearWeek52High") (JBool true)
    else if String.eqb (c_left c) "52_week_low"
    then strict_equal (get_prop item "nearWeek52Low") (JBool true)
    else false.
Proof.
  intros Hop H. unfold Trend.evalCondition. now rewrite H, Hop.
Qed.
End Evaluator.

Lemma C1_absent_field_policy_witness :
  is_nullish (get_prop unpriced_record "close") = true
  /\ is_nullish (get_prop unpriced_record "marketCap") = true
  /\ @Trend.evalCondition example_runtime unpriced_record (greater_zero "close") = false
  /\ @Trend.evalCondition example_runtime unpriced_record (greater_zero "marketCap") = true
  /\ @Finnhub.evalCondition example_runtime unpriced_record (greater_zero "close") = false
  /\ @Finnhub.evalCondition example_runtime unpriced_record (greater_zero "marketCap") = true
  /\ @Yahoo.evalCondition example_runtime unpriced_record (greater_zero "close") = false
  /\ @Yahoo.evalCondition example_runtime unpriced_record (greater_zero "marketCap") = true.
Proof.
  assert (Hc : is_nullish (get_prop unpriced_record (c_left (greater_zero "close"))) = true)
    by reflexivity.
  assert (Hm : is_nullish (get_prop unpriced_record (c_left (greater_zero "marketCap"))) = true)
    by reflexivity.
  pose proof (@C1_absent_field_policy example_runtime unpriced_record
                (greater_zero "close") Hc) as (Hc1 & _ & Hc3 & _).
  pose proof (@C1_absent_field_policy example_runtime unpriced_record
                (greater_zero "marketCap") Hm) as (_ & Hm2 & _ & Hm4).
  assert (Hin : In "close" price_fields) by (cbn; tauto).
  assert (Hout : ~ In "marketCap" price_fields) by (cbn; intuition discriminate).
  split; [exact Hc |]. split; [exact Hm |].
  split; [exact (proj1 (Hc1 Hin)) |].
  split; [exact (proj1 (Hm2 Hout)) |].
  split; [exact (proj2 (Hc1 Hin)) |].
  split; [exact (proj2 (Hm2 Hout)) |].
  split; [apply Hc3; cbn; tauto |].
  apply Hm4; cbn; intuition discriminate.
Defined.

(** C1, as stated, fails on [server.js]: the record built from a quote
    without an open price has [open: null], and a condition on open
    passes. *)
Lemma C1_counterexample :
  let item := @Yahoo.enrich example_runtime bare_yahoo_quote in
  let c := greater_zero "open" in
  is_nullish (get_prop item (c_left c)) = true
  /\ In (c_left c) price_fields
  /\ @Yahoo.evalCondition example_runtime item c = true.
Proof. cbn zeta. repeat split. cbn. tauto. Qed.

Lemma C9_unknown_operation_passes_witness :
  let c := {| c_left := "close"; c_operation := "between"; c_right := JNum zero |} in
  ~ In (c_operation c) known_operations
  /\ is_nullish (get_prop (@far_from_high example_runtime) (c_left c)) = false
  /\ @Trend.evalCondition example_runtime (@far_from_high example_runtime) c = true
  /\ @Finnhub.evalCondition example_runtime (@far_from_high example_runtime) c = true
  /\ @Yahoo.evalCondition example_runtime (@far_from_high example_runtime) c = true.
Proof.
  cbn zeta.
  assert (Hop : ~ In "between" known_operations) by (cbn; intuition discriminate).
  assert (Hl : is_nullish (get_prop (@far_from_high example_runtime) "close") = false)
    by reflexivity.
  split; [exact Hop |]. split; [exact Hl |].
  exact (@C9_unknown_operation_passes example_runtime (@far_from_high example_runtime)
           {| c_left := "close"; c_operation := "between"; c_right := JNum zero |}
           Hop Hl).
Defined.

(** C2. For every runtime, the record of a quote at 50 whose history
    peaked at 100 has the flag nearWeek52High false and no member named
    52_week_high; the condition "near 52_week_high" passes on it all the
    same, alone and through the whole request.  Likewise for the record of
    a quote at 200 whose history bottomed at 100 and "near 52_week_low".
    A [near] condition on another name the record lacks passes as well. *)
Theorem C2_near_ignores_flag {rt : JSRuntime} :
  get_prop far_from_high "nearWeek52High" = JBool false
  /\ get_prop far_from_high "52_week_high" = JUndefined
  /\ Trend.evalCondition far_from_high near_high = true
  /\ get_prop far_from_low "nearWeek52Low" = JBool false
  /\ get_prop far_from_low "52_week_low" = JUndefined
  /\ Trend.evalCondition far_from_low near_low = true
  /\ Trend.evalCondition far_from_high
       {| c_left := "marketCap"; c_operation := "near"; c_right := JNull |} = true
  /\ fst (Trend.screen (P := fifty) (screen_request ["AAA"] [near_high]) tt)
     = Json200 trend_answer.
Proof. repeat split; reflexivity. Qed.

(* ================================================================== *)
(** * Enrichment                                                        *)
(* ================================================================== *)

Lemma zero_or_null_iff (v : jsval) :
  strict_equal v (JNum zero) || strict_equal v JNull = true <-> zero_or_null v.
Proof.
  unfold zero_or_null. split.
  - destruct v; cbn; try discriminate; eauto.
    rewrite orb_false_r. eauto.
  - intros [-> | (x & -> & Hx)]; [reflexivity |].
    cbn. now rewrite Hx.
Qed.

Lemma trend_no_quote_data_iff (q : RawQuote) :
  Trend.no_quote_data (Some q) = true <-> zero_or_null (q_c q).
Proof. apply zero_or_null_iff. Qed.

Lemma finnhub_no_quote_data_iff (q : RawQuote) :
  Finnhub.no_quote_data (Some q) = true <-> zero_or_null (q_c q).
Proof. apply zero_or_null_iff. Qed.

(** Neither a negative number nor [undefined] is caught by the guard. *)
Lemma negative_not_caught (x : float) :
  PrimFloat.ltb x zero = true -> ~ zero_or_null (JNum x).
Proof.
  intros Hlt [H | (y & H & Hy)]; [discriminate |].
  injection H as <-.
  rewrite FloatAxioms.ltb_spec in Hlt. rewrite FloatAxioms.eqb_spec in Hy.
  unfold SFltb in Hlt. unfold SFeqb in Hy.
  destruct (SFcompare (Prim2SF x) (Prim2SF zero)) as [[| |] |]; discriminate.
Qed.

Lemma undefined_not_caught : ~ zero_or_null JUndefined.
Proof. intros [H | (x & H & _)]; discriminate. Qed.

(** A close the guard lets pass is absent exactly when it is
    [undefined]. *)
Lemma passed_close_absent (v : jsval) :
  ~ zero_or_null v -> (is_nullish v = false <-> v <> JUndefined).
Proof.
  intros Hz. destruct v; cbn; split; try congruence; try discriminate.
  intros _. exfalso. apply Hz. now left.
Qed.

Section Enrichment.
Context {rt : JSRuntime}.

(** C7, as the code has it.  When the previous close of a quote is
    [null] or [undefined], the percent-change member of the record is the
    number 0 in both Finnhub revisions; no division takes place. *)
Theorem C7_percent_change_guard (symbol : string) (quote : RawQuote)
        (candles : option Candles) :
  is_nullish (q_pc quote) = true ->
  get_prop (Trend.enrich symbol quote candles) "changePercent" = JNum zero
  /\ get_prop (Finnhub.enrich symbol quote) "changePercent" = JNum zero.
Proof.
  intros H.
  assert (Hf : ToBoolean (q_pc quote) = false).
  { destruct (is_nullish_inv _ H) as [-> | ->]; reflexivity. }
  split.
  - change (get_prop (Trend.enrich symbol quote candles) "changePercent")
      with (if ToBoolean (q_pc quote)
            then JStr (toFixed
                         (PrimFloat.mul
                            (PrimFloat.div
                               (PrimFloat.sub (ToNumber (q_c quote))
                                              (ToNumber (q_pc quote)))
                               (ToNumber (q_pc quote)))
                            100%float) 2)
            else JNum zero).
    now rewrite Hf.
  - change (get_prop (Finnhub.enrich symbol quote) "changePercent")
      with (if ToBoolean (q_pc quote)
            then JStr (toFixed
                         (PrimFloat.mul
                            (PrimFloat.div
                               (PrimFloat.sub (ToNumber (q_c quote))
                                              (ToNumber (q_pc quote)))
                               (ToNumber (q_pc quote)))
                            100%float) 2)
            else JNum zero).
    now rewrite Hf.
Qed.

(** The guarded division: a previous close of zero is falsy as well, so
    the quotient by zero is never formed. *)
Lemma percent_change_zero_prev_close (symbol : string) (quote : RawQuote)
      (candles : option Candles) :
  ToBoolean (q_pc quote) = false ->
  get_prop (Trend.enrich symbol quote candles) "changePercent" = JNum zero.
Proof.
  intros Hf.
  change (get_prop (Trend.enrich symbol quote candles) "changePercent")
    with (if ToBoolean (q_pc quote)
          then JStr (toFixed
                       (PrimFloat.mul
                          (PrimFloat.div
                             (PrimFloat.sub (ToNumber (q_c quote))
                                            (ToNumber (q_pc quote)))
                             (ToNumber (q_pc quote)))
                          100%float) 2)
          else JNum zero).
  now rewrite Hf.
Qed.

Lemma trend_record_close (symbol : string) (quote : RawQuote)
      (candles : option Candles) :
  get_prop (Trend.enrich symbol quote candles) "close" = q_c quote.
Proof. reflexivity. Qed.

Lemma finnhub_record_close (symbol : string) (quote : RawQuote) :
  get_prop (Finnhub.enrich symbol quote) "close" = q_c quote.
Proof. reflexivity. Qed.
End Enrichment.

Lemma C7_percent_change_guard_witness :
  is_nullish (q_pc (quote_of (JNum 50%float) JUndefined)) = true
  /\ get_prop (@Trend.enrich example_runtime "AAA"
                 (quote_of (JNum 50%float) JUndefined) one_close)
              "changePercent" = JNum zero
  /\ get_prop (@Finnhub.enrich example_runtime "AAA"
                 (quote_of (JNum 50%float) JUndefined))
              "changePercent" = JNum zero.
Proof.
  assert (H : is_nullish (q_pc (quote_of (JNum 50%float) JUndefined)) = true)
    by reflexivity.
  split; [exact H |].
  exact (@C7_percent_change_guard example_runtime "AAA"
           (quote_of (JNum 50%float) JUndefined) one_close H).
Defined.

(** C7, as stated, fails: with a previous close of [null] the
    percent-change member is a number, not [null]. *)
Lemma C7_counterexample :
  let quote := quote_of (JNum 50%float) JNull in
  q_pc quote = JNull
  /\ get_prop (@Trend.enrich example_runtime "AAA" quote one_close)
              "changePercent" <> JNull
  /\ get_prop (@Finnhub.enrich example_runtime "AAA" quote)
              "changePercent" <> JNull.
Proof. cbn zeta. repeat split; discriminate. Qed.

(* ================================================================== *)
(** * Fetching                                                          *)
(* ================================================================== *)

Section Fetching.
Context {rt : JSRuntime} {W : Type} {P : Provider W}.

(** When the quote-only revision gives up on a symbol. *)
Lemma finnhub_no_record (symbol : string) (w : W) :
  fst (Finnhub.getStockDataFinnhub symbol w) = None
  <-> match fst (fetchQuote symbol w) with
      | HttpError | HttpOk None => True
      | HttpOk (Some q) => zero_or_null (q_c q)
      end.
Proof.
  unfold Finnhub.getStockDataFinnhub, bind, ret.
  destruct (fetchQuote symbol w) as [[| [q |]] w1]; cbn [fst];
    try tauto.
  rewrite <- finnhub_no_quote_data_iff.
  destruct (Finnhub.no_quote_data (Some q)); cbn [fst];
    split; intros; congruence.
Qed.

(** When the trend revision gives up on a symbol: as above, and also
    when the candle request fails. *)
Lemma trend_no_record (symbol : string) (w : W) :
  fst (Trend.getStockDataWithTrend symbol w) = None
  <-> match fetchQuote symbol w with
      | (HttpError, _) | (HttpOk None, _) => True
      | (HttpOk (Some q), w1) =>
          zero_or_null (q_c q) \/ fst (fetchCandles symbol w1) = HttpError
      end.
Proof.
  unfold Trend.getStockDataWithTrend, bind, ret.
  destruct (fetchQuote symbol w) as [[| [q |]] w1]; cbn [fst];
    try tauto.
  rewrite <- trend_no_quote_data_iff.
  destruct (Trend.no_quote_data (Some q)); cbn [fst].
  - tauto.
  - destruct (fetchCandles symbol w1) as [[| cd] w2]; cbn [fst].
    + tauto.
    + split; [discriminate | intros [? | ?]; discriminate].
Qed.

(** The records of a batch: the accumulator is only appended to. *)
Lemma trend_batch_loop_acc (symbols : list string) :
  forall (acc : list obj) (w : W),
    Trend.batch_loop symbols acc w
    = (acc ++ fst (Trend.batch_loop symbols [] w),
       snd (Trend.batch_loop symbols [] w)).
Proof.
  induction symbols as [| symbol rest IH]; intros acc w; cbn [Trend.batch_loop].
  - unfold ret. cbn. now rewrite app_nil_r.
  - unfold bind.
    destruct (Trend.getStockDataWithTrend symbol w) as [data w1].
    destruct (match rest with [] => ret tt | _ :: _ => delay 2000 end w1)
      as [u w2].
    rewrite IH.
    rewrite (IH (match data with Some d => [] ++ [d] | None => [] end)).
    cbn [fst snd]. f_equal.
    destruct data; [| reflexivity].
    now rewrite app_assoc.
Qed.

Lemma finnhub_batch_loop_acc (symbols : list string) :
  forall (acc : list obj) (w : W),
    Finnhub.batch_loop symbols acc w
    = (acc ++ fst (Finnhub.batch_loop symbols [] w),
       snd (Finnhub.batch_loop symbols [] w)).
Proof.
  induction symbols as [| symbol rest IH]; intros acc w; cbn [Finnhub.batch_loop].
  - unfold ret. cbn. now rewrite app_nil_r.
  - unfold bind.
    destruct (Finnhub.getStockDataFinnhub symbol w) as [data w1].
    destruct (match rest with [] => ret tt | _ :: _ => delay 50 end w1)
      as [u w2].
    rewrite IH.
    rewrite (IH (match data with Some d => [] ++ [d] | None => [] end)).
    cbn [fst snd]. f_equal.
    destruct data; [| reflexivity].
    now rewrite app_assoc.
Qed.

(** A batch yields the record of its first symbol, if there is one,
    followed by the records of the rest. *)
Lemma trend_batch_cons (symbol : string) (rest : list string) (w : W) :
  fst (Trend.getStockDataBatch (symbol :: rest) w)
  = option_to_list (fst (Trend.getStockDataWithTrend symbol w))
    ++ fst (Trend.getStockDataBatch rest (trend_after symbol rest w)).
Proof.
  unfold Trend.getStockDataBatch, trend_after.
  cbn [Trend.batch_loop]. unfold bind.
  destruct (Trend.getStockDataWithTrend symbol w) as [data w1].
  cbn [fst snd].
  destruct rest as [| s' rest'].
  - unfold ret. cbn. destruct data; cbn; now rewrite ?app_nil_r.
  - destruct (delay 2000 w1) as [u w2]. cbn [snd].
    rewrite trend_batch_loop_acc. cbn [fst].
    destruct data; reflexivity.
Qed.

Lemma finnhub_batch_cons (symbol : string) (rest : list string) (w : W) :
  fst (Finnhub.getStockDataBatch (symbol :: rest) w)
  = option_to_list (fst (Finnhub.getStockDataFinnhub symbol w))
    ++ fst (Finnhub.getStockDataBatch rest (finnhub_after symbol rest w)).
Proof.
  unfold Finnhub.getStockDataBatch, finnhub_after.
  cbn [Finnhub.batch_loop]. unfold bind.
  destruct (Finnhub.getStockDataFinnhub symbol w) as [data w1].
  cbn [fst snd].
  destruct rest as [| s' rest'].
  - unfold ret. cbn. destruct data; cbn; now rewrite ?app_nil_r.
  - destruct (delay 50 w1) as [u w2]. cbn [snd].
    rewrite finnhub_batch_loop_acc. cbn [fst].
    destruct data; reflexivity.
Qed.

Lemma trend_batch_length (symbols : list string) :
  forall w : W,
    List.length (fst (Trend.getStockDataBatch symbols w)) <= List.length symbols.
Proof.
  induction symbols as [| symbol rest IH]; intros w.
  - cbn. lia.
  - rewrite trend_batch_cons, length_app.
    specialize (IH (trend_after symbol rest w)).
    destruct (fst (Trend.getStockDataWithTrend symbol w)); cbn in *; lia.
Qed.

(** Every record of the trend revision carries, as its close, the current
    price of the quote fetched for its symbol. *)
Lemma trend_record_quoted (symbol : string) (w : W) (r : obj) :
  fst (Trend.getStockDataWithTrend symbol w) = Some r ->
  exists q, fst (fetchQuote symbol w) = HttpOk (Some q)
            /\ ~ zero_or_null (q_c q)
            /\ get_prop r "symbol" = JStr symbol
            /\ get_prop r "close" = q_c q.
Proof.
  unfold Trend.getStockDataWithTrend, bind, ret.
  destruct (fetchQuote symbol w) as [[| [q |]] w1]; cbn [fst];
    try discriminate.
  destruct (Trend.no_quote_data (Some q)) eqn:Hguard; cbn [fst];
    [discriminate |].
  destruct (fetchCandles symbol w1) as [[| cd] w2]; cbn [fst];
    [discriminate |].
  intros [= <-]. exists q. split; [reflexivity |]. split.
  - intros Hz. apply trend_no_quote_data_iff in Hz. congruence.
  - split; [reflexivity | apply trend_record_close].
Qed.

Lemma trend_batch_quoted (symbols : list string) :
  forall w : W,
    Forall (quoted_among symbols) (fst (Trend.getStockDataBatch symbols w)).
Proof.
  induction symbols as [| symbol rest IH]; intros w.
  - constructor.
  - rewrite trend_batch_cons. apply Forall_app. split.
    + destruct (fst (Trend.getStockDataWithTrend symbol w)) as [r |] eqn:Hr;
        cbn; constructor; [| constructor].
      destruct (trend_record_quoted symbol w r Hr) as (q & Hq & Hz & Hs & Hc).
      exists symbol, w, q.
      split; [now left |]. split; [exact Hq |]. split; [exact Hz |].
      split; assumption.
    + eapply Forall_impl; [| apply IH].
      intros r (s & w' & q & Hin & H).
      exists s, w', q. split; [now right | exact H].
Qed.
End Fetching.

(** C8, as the code has it.  The two Finnhub revisions have no record for
    a symbol when the quote request fails, its body is missing, or the
    current price is [null] or the number zero, and the trend revision
    also when the candle request fails; they give up in no other case
    (for the trend revision: on a candle response of the size asked for,
    whose closes any engine spreads into one call of [Math.max] and
    [Math.min]).  A batch of any length holds the record of its first
    symbol, unless there is none, followed by the records of the rest of
    the batch: a symbol is left out exactly when the revision has no
    record for it, and no record is lost otherwise.  A negative or
    [undefined] current price is no reason to give up. *)
Theorem C8_no_usable_quote {rt : JSRuntime} {W : Type} {P : Provider W}
        (symbol : string) (rest : list string) (w : W) :
  (fst (Finnhub.getStockDataFinnhub symbol w) = None
   <-> finnhub_gives_up symbol w)
  /\ (trend_gives_up symbol w ->
      fst (Trend.getStockDataWithTrend symbol w) = None)
  /\ (candles_as_requested symbol w ->
      fst (Trend.getStockDataWithTrend symbol w) = None ->
      trend_gives_up symbol w)
  /\ fst (Finnhub.getStockDataBatch (symbol :: rest) w)
     = option_to_list (fst (Finnhub.getStockDataFinnhub symbol w))
       ++ fst (Finnhub.getStockDataBatch rest (finnhub_after symbol rest w))
  /\ fst (Trend.getStockDataBatch (symbol :: rest) w)
     = option_to_list (fst (Trend.getStockDataWithTrend symbol w))
       ++ fst (Trend.getStockDataBatch rest (trend_after symbol rest w))
  /\ fst (Finnhub.getStockDataBatch [] w) = []
  /\ fst (Trend.getStockDataBatch [] w) = []
  /\ (forall x, PrimFloat.ltb x zero = true -> ~ zero_or_null (JNum x))
  /\ ~ zero_or_null JUndefined.
Proof.
  split; [apply finnhub_no_record |].
  split; [apply trend_no_record |].
  split; [intros _; apply trend_no_record |].
  split; [apply finnhub_batch_cons |].
  split; [apply trend_batch_cons |].
  split; [reflexivity |]. split; [reflexivity |].
  split; [apply negative_not_caught | apply undefined_not_caught].
Qed.

Lemma C8_no_usable_quote_witness :
  @candles_as_requested unit mixed_provider "BBB" tt
  /\ fst (@Trend.getStockDataWithTrend example_runtime unit mixed_provider
            "BBB" tt) = None
  /\ @trend_gives_up unit mixed_provider "BBB" tt
  /\ @trend_gives_up unit failing_provider "AAA" tt
  /\ fst (@Trend.getStockDataWithTrend example_runtime unit failing_provider
            "AAA" tt) = None
  /\ map symbol_of
         (fst (@Trend.getStockDataBatch example_runtime unit mixed_provider
                 ["BBB"; "AAA"; "CCC"] tt))
     = [JStr "AAA"; JStr "CCC"]
  /\ map symbol_of
         (fst (@Finnhub.getStockDataBatch example_runtime unit mixed_provider
                 ["BBB"; "AAA"; "CCC"] tt))
     = [JStr "AAA"; JStr "CCC"].
Proof.
  assert (Hreq : @candles_as_requested unit mixed_provider "BBB" tt)
    by (cbn; unfold requested_days; lia).
  assert (Hnone : fst (@Trend.getStockDataWithTrend example_runtime unit
                         mixed_provider "BBB" tt) = None)
    by reflexivity.
  assert (Hfail : @trend_gives_up unit failing_provider "AAA" tt)
    by exact I.
  destruct (@C8_no_usable_quote example_runtime unit mixed_provider
              "BBB" ["AAA"; "CCC"] tt)
    as (_ & _ & Hcause & Hfinnhub & Htrend & _).
  destruct (@C8_no_usable_quote example_runtime unit failing_provider
              "AAA" [] tt)
    as (_ & Hgiven & _).
  split; [exact Hreq |]. split; [exact Hnone |].
  split; [exact (Hcause Hreq Hnone) |].
  split; [exact Hfail |]. split; [exact (Hgiven Hfail) |].
  rewrite Htrend, Hfinnhub. split; reflexivity.
Defined.

(** C8, as stated, fails: a quote with a negative current price, and one
    whose current price is [undefined], both yield a record, and a batch
    keeps the record of every such symbol. *)
Lemma C8_counterexample :
  let negative := constant_provider (JNum (-5)%float) JNull [100%float] in
  let missing := constant_provider JUndefined JNull [100%float] in
  fst (@Trend.getStockDataWithTrend example_runtime unit negative "AAA" tt) <> None
  /\ fst (@Finnhub.getStockDataFinnhub example_runtime unit negative "AAA" tt) <> None
  /\ fst (@Trend.getStockDataWithTrend example_runtime unit missing "AAA" tt) <> None
  /\ fst (@Finnhub.getStockDataFinnhub example_runtime unit missing "AAA" tt) <> None
  /\ map (fun r => (symbol_of r, get_prop r "close"))
         (fst (@Trend.getStockDataBatch example_runtime unit negative
                 ["AAA"; "BBB"; "CCC"] tt))
     = [ (JStr "AAA", JNum (-5)%float); (JStr "BBB", JNum (-5)%float);
         (JStr "CCC", JNum (-5)%float) ]
  /\ map (fun r => (symbol_of r, get_prop r "close"))
         (fst (@Finnhub.getStockDataBatch example_runtime unit missing
                 ["AAA"; "BBB"; "CCC"] tt))
     = [ (JStr "AAA", JUndefined); (JStr "BBB", JUndefined);
         (JStr "CCC", JUndefined) ].
Proof.
  cbn zeta.
  split; [discriminate |]. split; [discriminate |].
  split; [discriminate |]. split; [discriminate |].
  split; reflexivity.
Qed.

(* ================================================================== *)
(** * The screening pipeline                                            *)
(* ================================================================== *)

Section Screening.
Context {rt : JSRuntime} {W : Type} {P : Provider W}.

Lemma trend_applyConditions_incl (l : list obj) (cs : list Condition) (r : obj) :
  In r (Trend.applyConditions l cs) -> In r l.
Proof.
  destruct cs; cbn; [trivial |]. intros H. now apply filter_In in H.
Qed.

Lemma trend_applyConditions_length (l : list obj) (cs : list Condition) :
  List.length (Trend.applyConditions l cs) <= List.length l.
Proof. destruct cs; cbn; [lia | apply filter_length_le]. Qed.

Lemma yahoo_applyConditions_incl (l : list obj) (cs : list Condition) (r : obj) :
  In r (Yahoo.applyConditions l cs) -> In r l.
Proof.
  destruct cs; cbn; [trivial |]. intros H. now apply filter_In in H.
Qed.

(** The answer of the trend handler to a well-formed request. *)
Lemma trend_screen_ok (req : Request) (u : list string) (w : W) :
  strict_equal (action req) (JStr "screen") = true ->
  universe req = Some u -> u <> [] ->
  Trend.screen req w
  = (Json200
       {| count := List.length (Trend.applyConditions (trend_evaluated u w)
                                                      (conditions_of req));
          universe_size := List.length u;
          screened_size := Some (List.length (slice u 0 25));
          valid_data := List.length (trend_evaluated u w);
          note := if (25 <? List.length u)%nat
                  then Some Trend.truncation_note else None;
          results := Trend.applyConditions (trend_evaluated u w)
                                           (conditions_of req) |},
     snd (Trend.getStockDataBatch (slice u 0 25) w)).
Proof.
  intros Hact Hu Hne. unfold Trend.screen, trend_evaluated, conditions_of.
  rewrite Hact, Hu. cbn [negb].
  destruct u as [| s u']; [contradiction |].
  unfold bind, ret.
  now destruct (Trend.getStockDataBatch (slice (s :: u') 0 25) w).
Qed.

Lemma trend_screen_inv (req : Request) (w : W) (body : ScreenBody) :
  fst (Trend.screen req w) = Json200 body ->
  exists u, strict_equal (action req) (JStr "screen") = true
            /\ universe req = Some u /\ u <> [].
Proof.
  unfold Trend.screen.
  destruct (strict_equal (action req) (JStr "screen")); cbn [negb];
    [| discriminate].
  destruct (universe req) as [[| s u'] |]; try discriminate.
  intros _. exists (s :: u'). repeat split. discriminate.
Qed.

Lemma yahoo_screen_inv (req : Request) (w : W) (body : ScreenBody) :
  fst (Yahoo.screen req w) = Json200 body ->
  exists u, universe req = Some u
            /\ results body = Yahoo.applyConditions (yahoo_evaluated u w)
                                                    (conditions_of req).
Proof.
  unfold Yahoo.screen.
  destruct (strict_equal (action req) (JStr "screen")); cbn [negb];
    [| discriminate].
  destruct (universe req) as [[| s u'] |]; try discriminate.
  intros H. exists (s :: u'). split; [reflexivity |].
  unfold yahoo_evaluated, conditions_of.
  unfold bind, ret in H.
  rewrite (surjective_pairing
             (Yahoo.fetch_batches (Yahoo.batch_starts (List.length (s :: u')))
                                  (s :: u') [] w)) in H.
  cbn [fst] in H. now injection H as <-.
Qed.

Lemma yahoo_evaluated_priced (u : list string) (w : W) :
  Forall priced (yahoo_evaluated u w).
Proof.
  apply Forall_forall. intros r Hr. apply filter_In in Hr as [_ Hr].
  unfold Yahoo.has_price in Hr. unfold priced.
  now destruct (strict_equal _ _).
Qed.

Lemma yahoo_getStockData_enriched (batch : list string) (w : W) :
  Forall (fun r => exists q, r = Yahoo.enrich q)
         (fst (Yahoo.getStockData batch w)).
Proof.
  unfold Yahoo.getStockData, bind, ret.
  destruct (fetchYahoo batch w) as [[| [results |]] w1]; cbn [fst];
    try constructor.
  apply Forall_forall. intros r Hr.
  apply in_map_iff in Hr as (q & <- & _). now exists q.
Qed.

Lemma yahoo_fetch_batches_enriched (u : list string) (starts : list nat) :
  forall (acc : list obj) (w : W),
    Forall (fun r => exists q, r = Yahoo.enrich q) acc ->
    Forall (fun r => exists q, r = Yahoo.enrich q)
           (fst (Yahoo.fetch_batches starts u acc w)).
Proof.
  induction starts as [| i rest IH]; intros acc w Hacc; [exact Hacc |].
  cbn [Yahoo.fetch_batches]. unfold bind.
  pose proof (yahoo_getStockData_enriched
                (slice u (Z.of_nat i) (Z.of_nat (i + Yahoo.batchSize))) w) as Hb.
  destruct (Yahoo.getStockData _ w) as [batchData w1]. cbn [fst] in Hb.
  apply IH. apply Forall_app. now split.
Qed.

Lemma yahoo_evaluated_enriched (u : list string) (w : W) :
  Forall (fun r => exists q, r = Yahoo.enrich q) (yahoo_evaluated u w).
Proof.
  unfold yahoo_evaluated.
  pose proof (yahoo_fetch_batches_enriched u
                (Yahoo.batch_starts (List.length u)) [] w (Forall_nil _)) as H.
  rewrite Forall_forall in *. intros r Hr.
  apply filter_In in Hr as [Hr _]. now apply H.
Qed.

Lemma yahoo_close_member (q : YahooQuote) :
  get_prop (Yahoo.enrich q) "close" = js_or (y_regularMarketPrice q) JNull.
Proof. reflexivity. Qed.

Lemma js_or_null_truthy (a : jsval) :
  js_or a JNull <> JNull -> ToBoolean (js_or a JNull) = true.
Proof.
  unfold js_or. destruct (ToBoolean a) eqn:Ha; [intros _; exact Ha | congruence].
Qed.

Lemma yahoo_screen_valid (req : Request) (w : W) (body : ScreenBody) :
  fst (Yahoo.screen req w) = Json200 body ->
  exists u, universe req = Some u
            /\ valid_data body = List.length (yahoo_evaluated u w).
Proof.
  unfold Yahoo.screen.
  destruct (strict_equal (action req) (JStr "screen")); cbn [negb];
    [| discriminate].
  destruct (universe req) as [[| s u'] |]; try discriminate.
  intros H. exists (s :: u'). split; [reflexivity |].
  unfold yahoo_evaluated.
  unfold bind, ret in H.
  rewrite (surjective_pairing
             (Yahoo.fetch_batches (Yahoo.batch_starts (List.length (s :: u')))
                                  (s :: u') [] w)) in H.
  cbn [fst] in H. now injection H as <-.
Qed.

Lemma has_price_iff (r : obj) :
  Yahoo.has_price r = true <-> get_prop r "close" <> JNull.
Proof.
  unfold Yahoo.has_price.
  destruct (get_prop r "close"); cbn; split; congruence.
Qed.

Lemma truthy_present (v : jsval) : ToBoolean v = true -> is_nullish v = false.
Proof. destruct v; cbn; congruence. Qed.

(** C3, as the code has it.  In [server.js] the handler drops, of the
    records it has fetched, exactly those whose close is [null], before
    it applies the conditions; as the record builder turns every missing
    or falsy price into [null], each record that is evaluated or returned
    carries a close that is present, and even truthy.  The handler of the
    trend revision drops nothing: it evaluates the batch as it is.  Each
    record of that batch carries as its close the current price of a
    quote for one of the first 25 symbols, a price that is neither [null]
    nor zero; the record lacks price data exactly when that price is
    [undefined]. *)
Theorem C3_dropping_unpriced_records (req : Request) (w : W)
        (body : ScreenBody) :
  (fst (Yahoo.screen req w) = Json200 body ->
   exists u, universe req = Some u
     /\ results body
        = Yahoo.applyConditions (filter Yahoo.has_price (yahoo_fetched u w))
                                (conditions_of req)
     /\ valid_data body
        = List.length (filter Yahoo.has_price (yahoo_fetched u w))
     /\ (forall r, Yahoo.has_price r = true <-> get_prop r "close" <> JNull)
     /\ Forall (fun r => carries_price r
                         /\ ToBoolean (get_prop r "close") = true)
               (filter Yahoo.has_price (yahoo_fetched u w))
     /\ Forall (fun r => carries_price r
                         /\ ToBoolean (get_prop r "close") = true)
               (results body))
  /\ (fst (Trend.screen req w) = Json200 body ->
      exists u, universe req = Some u
        /\ results body
           = Trend.applyConditions
               (fst (Trend.getStockDataBatch (firstn 25 u) w))
               (conditions_of req)
        /\ valid_data body
           = List.length (fst (Trend.getStockDataBatch (firstn 25 u) w))
        /\ Forall (quoted_among (firstn 25 u))
                  (fst (Trend.getStockDataBatch (firstn 25 u) w))
        /\ Forall (quoted_among (firstn 25 u)) (results body)
        /\ (forall r, quoted_among (firstn 25 u) r ->
                      (carries_price r <-> get_prop r "close" <> JUndefined))).
Proof.
  split; intros H.
  - destruct (yahoo_screen_inv req w body H) as (u & Hu & Hres).
    destruct (yahoo_screen_valid req w body H) as (u' & Hu' & Hvalid).
    assert (u' = u) by congruence. subst u'.
    change (yahoo_evaluated u w)
      with (filter Yahoo.has_price (yahoo_fetched u w)) in *.
    exists u. split; [exact Hu |]. split; [exact Hres |].
    split; [exact Hvalid |]. split; [exact has_price_iff |].
    assert (Hall : Forall (fun r => carries_price r
                                    /\ ToBoolean (get_prop r "close") = true)
                          (filter Yahoo.has_price (yahoo_fetched u w))).
    { pose proof (yahoo_evaluated_enriched u w) as He.
      change (yahoo_evaluated u w)
        with (filter Yahoo.has_price (yahoo_fetched u w)) in He.
      rewrite Forall_forall in *. intros r Hr.
      destruct (He r Hr) as (q & ->).
      apply filter_In in Hr as [_ Hp]. apply has_price_iff in Hp.
      rewrite yahoo_close_member in Hp.
      assert (Ht : ToBoolean (get_prop (Yahoo.enrich q) "close") = true)
        by (rewrite yahoo_close_member; now apply js_or_null_truthy).
      split; [now apply truthy_present | exact Ht]. }
    split; [exact Hall |].
    rewrite Hres. rewrite Forall_forall in *. intros r Hr.
    apply Hall. now apply yahoo_applyConditions_incl in Hr.
  - destruct (trend_screen_inv req w body H) as (u & Hact & Hu & Hne).
    rewrite (trend_screen_ok req u w Hact Hu Hne) in H.
    cbn [fst] in H. injection H as <-. cbn [results valid_data].
    unfold trend_evaluated.
    assert (Hslice : slice u 0 25 = firstn 25 u) by apply (slice_prefix u 25).
    rewrite Hslice.
    exists u. split; [exact Hu |]. split; [reflexivity |].
    split; [reflexivity |].
    pose proof (trend_batch_quoted (firstn 25 u) w) as Hq.
    split; [exact Hq |]. split.
    + rewrite Forall_forall in *. intros r Hr.
      apply Hq. now apply trend_applyConditions_incl in Hr.
    + intros r (s & w' & q & _ & _ & Hz & _ & Hc).
      unfold carries_price. rewrite Hc. now apply passed_close_absent.
Qed.

(** C10. In an answer of the trend handler, [count] is the number of
    results, and count <= valid_data <= screened_size <= universe_size. *)
Theorem C10_count_consistency (req : Request) (w : W) (body : ScreenBody) :
  fst (Trend.screen req w) = Json200 body ->
  count body = List.length (results body)
  /\ exists screened,
      screened_size body = Some screened
      /\ count body <= valid_data body
      /\ valid_data body <= screened
      /\ screened <= universe_size body.
Proof.
  intros H.
  destruct (trend_screen_inv req w body H) as (u & Hact & Hu & Hne).
  rewrite (trend_screen_ok req u w Hact Hu Hne) in H.
  cbn [fst] in H. injection H as <-. cbn.
  split; [reflexivity |].
  exists (List.length (slice u 0 25)). split; [reflexivity |].
  split; [apply trend_applyConditions_length |].
  split; [apply trend_batch_length | apply slice_length_le].
Qed.


End Screening.



Lemma C3_dropping_unpriced_records_witness :
  fst (@Yahoo.screen example_runtime unit mixed_provider
         (screen_request ["AAA"; "BBB"] []) tt)
  = Json200 mixed_yahoo_answer
  /\ map (fun r => (symbol_of r, get_prop r "close"))
         (@yahoo_fetched example_runtime unit mixed_provider ["AAA"; "BBB"] tt)
     = [ (JStr "AAA", JNum 50%float); (JStr "BBB", JNull) ]
  /\ Forall (fun r => carries_price r /\ ToBoolean (get_prop r "close") = true)
            (results mixed_yahoo_answer)
  /\ fst (@Trend.screen example_runtime unit mixed_provider
            (screen_request ["AAA"; "BBB"] []) tt)
     = Json200 mixed_trend_answer
  /\ Forall (@quoted_among unit mixed_provider ["AAA"; "BBB"])
            (results mixed_trend_answer).
Proof.
  assert (Hy : fst (@Yahoo.screen example_runtime unit mixed_provider
                      (screen_request ["AAA"; "BBB"] []) tt)
               = Json200 mixed_yahoo_answer)
    by reflexivity.
  assert (Ht : fst (@Trend.screen example_runtime unit mixed_provider
                      (screen_request ["AAA"; "BBB"] []) tt)
               = Json200 mixed_trend_answer)
    by reflexivity.
  split; [exact Hy |]. split; [reflexivity |].
  split.
  { destruct (proj1 (@C3_dropping_unpriced_records example_runtime unit
                       mixed_provider (screen_request ["AAA"; "BBB"] []) tt
                       mixed_yahoo_answer) Hy)
      as (u & _ & _ & _ & _ & _ & Hall).
    exact Hall. }
  split; [exact Ht |].
  destruct (proj2 (@C3_dropping_unpriced_records example_runtime unit
                     mixed_provider (screen_request ["AAA"; "BBB"] []) tt
                     mixed_trend_answer) Ht)
    as (u & Hu & _ & _ & _ & Hall & _).
  cbn in Hu. injection Hu as <-. exact Hall.
Defined.

(** C3, as stated, fails in the trend revision: a quote without a current
    price yields a record whose close is [undefined]; the handler drops
    nothing, evaluates the condition on that record and returns it. *)
Lemma C3_counterexample :
  let missing := constant_provider JUndefined JNull [100%float] in
  exists r,
    fst (@Trend.screen example_runtime unit missing
           (screen_request ["AAA"] [symbol_is "AAA"]) tt)
    = Json200 {| count := 1; universe_size := 1; screened_size := Some 1;
                 valid_data := 1; note := None; results := [r] |}
    /\ get_prop r "close" = JUndefined
    /\ ~ carries_price r
    /\ @Trend.evalCondition example_runtime r (symbol_is "AAA") = true
    /\ @Trend.evalCondition example_runtime r (symbol_is "BBB") = false.
Proof.
  cbn zeta. eexists. split; [reflexivity |].
  split; [reflexivity |]. split; [discriminate |].
  split; reflexivity.
Qed.

Lemma C10_count_consistency_witness :
  fst (@Trend.screen example_runtime unit fifty (screen_request ["AAA"] []) tt)
  = Json200 (@trend_answer example_runtime)
  /\ count (@trend_answer example_runtime)
     = List.length (results (@trend_answer example_runtime))
  /\ exists screened,
      screened_size (@trend_answer example_runtime) = Some screened
      /\ count (@trend_answer example_runtime)
         <= valid_data (@trend_answer example_runtime)
      /\ valid_data (@trend_answer example_runtime) <= screened
      /\ screened <= universe_size (@trend_answer example_runtime).
Proof.
  assert (Ht : fst (@Trend.screen example_runtime unit fifty
                      (screen_request ["AAA"] []) tt)
               = Json200 (@trend_answer example_runtime))
    by reflexivity.
  split; [exact Ht |].
  exact (@C10_count_consistency example_runtime unit fifty
           (screen_request ["AAA"] []) tt (@trend_answer example_runtime) Ht).
Defined.


(* ================================================================== *)
(** * Further facts: numbers                                            *)
(* ================================================================== *)

Lemma leb_nan_l (x : float) : PrimFloat.leb nan x = false.
Proof. rewrite FloatAxioms.leb_spec. reflexivity. Qed.

Lemma leb_nan_r (x : float) : PrimFloat.leb x nan = false.
Proof.
  rewrite FloatAxioms.leb_spec. change (Prim2SF nan) with S754_nan.
  destruct (Prim2SF x) as [[|] | [|] | | [|] m e]; reflexivity.
Qed.

Lemma ltb_neg_infinity_r (x : float) : PrimFloat.ltb x neg_infinity = false.
Proof.
  rewrite FloatAxioms.ltb_spec.
  change (Prim2SF neg_infinity) with (S754_infinity true).
  destruct (Prim2SF x) as [[|] | [|] | | [|] m e]; reflexivity.
Qed.

Lemma ltb_infinity_l (x : float) : PrimFloat.ltb infinity x = false.
Proof.
  rewrite FloatAxioms.ltb_spec.
  change (Prim2SF infinity) with (S754_infinity false).
  destruct (Prim2SF x) as [[|] | [|] | | [|] m e]; reflexivity.
Qed.

Lemma max2_cases (a b : float) : max2 a b = nan \/ max2 a b = a \/ max2 a b = b.
Proof.
  unfold max2.
  destruct (is_nan a || is_nan b); [tauto |].
  destruct (PrimFloat.ltb a b); [tauto |].
  destruct (PrimFloat.ltb b a); [tauto |].
  destruct (get_sign a); tauto.
Qed.

Lemma min2_cases (a b : float) : min2 a b = nan \/ min2 a b = a \/ min2 a b = b.
Proof.
  unfold min2.
  destruct (is_nan a || is_nan b); [tauto |].
  destruct (PrimFloat.ltb a b); [tauto |].
  destruct (PrimFloat.ltb b a); [tauto |].
  destruct (get_sign a); tauto.
Qed.

Lemma max2_neg_infinity (x : float) :
  max2 neg_infinity x = nan \/ max2 neg_infinity x = x.
Proof.
  unfold max2.
  destruct (is_nan neg_infinity || is_nan x); [tauto |].
  destruct (PrimFloat.ltb neg_infinity x); [tauto |].
  rewrite ltb_neg_infinity_r. tauto.
Qed.

Lemma min2_infinity (x : float) :
  min2 infinity x = nan \/ min2 infinity x = x.
Proof.
  unfold min2.
  destruct (is_nan infinity || is_nan x); [tauto |].
  rewrite ltb_infinity_l.
  destruct (PrimFloat.ltb x infinity); tauto.
Qed.

Lemma fold_max2_cases (l : list float) :
  forall a, fold_left max2 l a = nan \/ fold_left max2 l a = a
            \/ In (fold_left max2 l a) l.
Proof.
  induction l as [| x l IH]; intros a; cbn [fold_left].
  - tauto.
  - destruct (IH (max2 a x)) as [H | [H | H]].
    + tauto.
    + rewrite H. destruct (max2_cases a x) as [E | [E | E]]; rewrite E;
        cbn; tauto.
    + cbn. tauto.
Qed.

Lemma fold_min2_cases (l : list float) :
  forall a, fold_left min2 l a = nan \/ fold_left min2 l a = a
            \/ In (fold_left min2 l a) l.
Proof.
  induction l as [| x l IH]; intros a; cbn [fold_left].
  - tauto.
  - destruct (IH (min2 a x)) as [H | [H | H]].
    + tauto.
    + rewrite H. destruct (min2_cases a x) as [E | [E | E]]; rewrite E;
        cbn; tauto.
    + cbn. tauto.
Qed.

(** The maximum of a non-empty series is one of its elements, or [NaN]. *)
Lemma Math_max_in (l : list float) :
  l <> [] -> Math_max l = nan \/ In (Math_max l) l.
Proof.
  destruct l as [| x l]; [contradiction |]. intros _.
  unfold Math_max. cbn [fold_left].
  destruct (fold_max2_cases l (max2 neg_infinity x)) as [H | [H | H]].
  - tauto.
  - rewrite H. destruct (max2_neg_infinity x) as [E | E]; rewrite E;
      cbn; tauto.
  - cbn. tauto.
Qed.

Lemma Math_min_in (l : list float) :
  l <> [] -> Math_min l = nan \/ In (Math_min l) l.
Proof.
  destruct l as [| x l]; [contradiction |]. intros _.
  unfold Math_min. cbn [fold_left].
  destruct (fold_min2_cases l (min2 infinity x)) as [H | [H | H]].
  - tauto.
  - rewrite H. destruct (min2_infinity x) as [E | E]; rewrite E;
      cbn; tauto.
  - cbn. tauto.
Qed.

(* ================================================================== *)
(** * Further facts: moving average and trend                           *)
(* ================================================================== *)

Lemma lastn_app_r {A : Type} (pre l : list A) (n : nat) :
  n <= List.length l -> lastn n (pre ++ l) = lastn n l.
Proof.
  intros Hn. unfold lastn. rewrite length_app, skipn_app.
  rewrite skipn_all2 by lia. cbn [app]. f_equal. lia.
Qed.

Lemma lastn_lastn {A : Type} (l : list A) (n m : nat) :
  n <= m -> m <= List.length l -> lastn n (lastn m l) = lastn n l.
Proof.
  intros Hnm Hm. unfold lastn at 1. rewrite lastn_length by exact Hm.
  unfold lastn. rewrite skipn_skipn. f_equal. lia.
Qed.

(** X1. The moving average looks at the last [p] values only: what comes
    before them in the series does not change it. *)
Theorem sma_ignores_older_values (older s : list float) (p : nat) :
  1 <= p <= List.length s ->
  Trend.calculateSMA (older ++ s) p = Trend.calculateSMA s p.
Proof.
  intros Hp.
  rewrite (calculateSMA_mean s p Hp).
  rewrite calculateSMA_mean by (rewrite length_app; lia).
  now rewrite lastn_app_r by lia.
Qed.

Lemma sma_ignores_older_values_witness :
  (1 <= 2 <= List.length [30; 40]%float)
  /\ Trend.calculateSMA ([10; 20] ++ [30; 40])%float 2
     = Trend.calculateSMA [30; 40]%float 2.
Proof.
  assert (H : 1 <= 2 <= List.length [30; 40]%float) by (cbn; lia).
  split; [exact H |].
  exact (sma_ignores_older_values [10; 20]%float [30; 40]%float 2 H).
Defined.

Lemma classify_values (recent baseline : float) :
  classify recent baseline = "up" \/ classify recent baseline = "down"
  \/ classify recent baseline = "sideways".
Proof.
  unfold classify.
  destruct (PrimFloat.ltb _ recent); [tauto |].
  destruct (PrimFloat.ltb recent _); tauto.
Qed.

Lemma calculateTrend_classify (s : list float) (p : nat) :
  p + 5 <= List.length s ->
  exists baseline, Trend.calculateTrend s p = classify (mean (lastn 5 s)) baseline.
Proof.
  intros Hlen.
  destruct (Nat.le_gt_cases 5 p) as [Hp | Hp].
  - eexists. now apply calculateTrend_windows.
  - eexists. now apply calculateTrend_short_period.
Qed.

(** X2. [calculateTrend] answers one of the four labels, and "unknown"
    exactly when the series has fewer than [period + 5] points. *)
Theorem trend_labels (s : list float) (p : nat) :
  In (Trend.calculateTrend s p) ["unknown"; "up"; "down"; "sideways"]
  /\ (Trend.calculateTrend s p = "unknown" <-> List.length s < p + 5).
Proof.
  destruct (Nat.lt_ge_cases (List.length s) (p + 5)) as [Hlt | Hge].
  - rewrite (calculateTrend_unknown s p Hlt). cbn. tauto.
  - destruct (calculateTrend_classify s p Hge) as (b & ->).
    destruct (classify_values (mean (lastn 5 s)) b) as [E | [E | E]];
      rewrite E; (split; [cbn; tauto | split; [discriminate | lia]]).
Qed.

(** X3. For periods of at least five, the classification is determined by
    the last ten points: two series that end in the same ten points are
    classified alike, whatever the two periods are. *)
Theorem trend_reads_last_ten (s s' : list float) (p p' : nat) :
  5 <= p -> 5 <= p' ->
  p + 5 <= List.length s -> p' + 5 <= List.length s' ->
  lastn 10 s = lastn 10 s' ->
  Trend.calculateTrend s p = Trend.calculateTrend s' p'.
Proof.
  intros Hp Hp' Hs Hs' Hten.
  rewrite calculateTrend_windows by assumption.
  rewrite (calculateTrend_windows s' p') by assumption.
  change (skipn (List.length s - 10) s) with (lastn 10 s).
  change (skipn (List.length s' - 10) s') with (lastn 10 s').
  rewrite <- (lastn_lastn s 5 10) by lia.
  rewrite <- (lastn_lastn s' 5 10) by lia.
  now rewrite Hten.
Qed.

Lemma trend_reads_last_ten_witness :
  5 <= 20 /\ 5 <= 5
  /\ 20 + 5 <= List.length step_series
  /\ 5 + 5 <= List.length (repeat 200%float 10)
  /\ lastn 10 step_series = lastn 10 (repeat 200%float 10)
  /\ Trend.calculateTrend step_series 20
     = Trend.calculateTrend (repeat 200%float 10) 5.
Proof.
  assert (H1 : 5 <= 20) by lia.
  assert (H2 : 5 <= 5) by lia.
  assert (H3 : 20 + 5 <= List.length step_series) by (cbn; lia).
  assert (H4 : 5 + 5 <= List.length (repeat 200%float 10)) by (cbn; lia).
  assert (H5 : lastn 10 step_series = lastn 10 (repeat 200%float 10))
    by reflexivity.
  repeat (split; [assumption |]).
  exact (trend_reads_last_ten _ _ 20 5 H1 H2 H3 H4 H5).
Defined.

Lemma weeklyPrices_length (cp : list float) :
  List.length (Trend.weeklyPrices cp) = (List.length cp + 4) / 5.
Proof. unfold Trend.weeklyPrices. now rewrite length_map, length_seq. Qed.

(** Against a baseline of zero the classification is the sign of the
    recent average. *)
Lemma classify_zero (m : float) :
  classify m zero
  = if PrimFloat.ltb zero m then "up"
    else if PrimFloat.ltb m zero then "down" else "sideways".
Proof. reflexivity. Qed.

Section TrendRecord.
Context {rt : JSRuntime}.

Lemma record_weeklyTrend (symbol : string) (quote : RawQuote)
      (cp : list float) (v : option (list float)) :
  get_prop (Trend.enrich symbol quote (candles_ok cp v)) "weeklyTrend"
  = JStr (if (25 <=? List.length cp)%nat
          then Trend.calculateTrend (Trend.weeklyPrices cp) 4
          else "unknown").
Proof. destruct cp; reflexivity. Qed.

(** The alignment label is computed from the two trend members. *)
Lemma record_alignment (symbol : string) (quote : RawQuote)
      (candles : option Candles) :
  exists d w,
    get_prop (Trend.enrich symbol quote candles) "dailyTrend" = JStr d
    /\ get_prop (Trend.enrich symbol quote candles) "weeklyTrend" = JStr w
    /\ get_prop (Trend.enrich symbol quote candles) "trendAlignment"
       = JStr (if String.eqb d "up" && String.eqb w "up" then "bullish"
               else if String.eqb d "down" && String.eqb w "down" then "bearish"
               else "mixed").
Proof.
  eexists. eexists. split; [reflexivity |]. split; [reflexivity |].
  cbn [get_prop own_prop Trend.enrich String.eqb Ascii.eqb Bool.eqb].
  match goal with
  | |- (if ?c then _ else _) = _ => destruct c; [reflexivity |]
  end.
  match goal with
  | |- (if ?c then _ else _) = _ => destruct c; reflexivity
  end.
Qed.

Lemma alignment_mixed_when_weekly_unknown (symbol : string) (quote : RawQuote)
      (candles : option Candles) :
  get_prop (Trend.enrich symbol quote candles) "weeklyTrend" = JStr "unknown" ->
  get_prop (Trend.enrich symbol quote candles) "trendAlignment" = JStr "mixed".
Proof.
  intros Hw.
  destruct (record_alignment symbol quote candles) as (d & w & _ & Hw' & Ha).
  rewrite Hw in Hw'. injection Hw' as <-.
  rewrite Ha. cbn. now rewrite !andb_false_r.
Qed.

(** X4. With a history of at most forty closes the weekly trend of a record
    is "unknown" and its trend alignment is "mixed". *)
Theorem weekly_trend_needs_41_closes (symbol : string) (quote : RawQuote)
        (cp : list float) (v : option (list float)) :
  List.length cp <= 40 ->
  get_prop (Trend.enrich symbol quote (candles_ok cp v)) "weeklyTrend"
  = JStr "unknown"
  /\ get_prop (Trend.enrich symbol quote (candles_ok cp v)) "trendAlignment"
     = JStr "mixed".
Proof.
  intros Hlen.
  assert (Hw : get_prop (Trend.enrich symbol quote (candles_ok cp v)) "weeklyTrend"
               = JStr "unknown").
  { rewrite record_weeklyTrend.
    destruct (25 <=? List.length cp)%nat; [| reflexivity].
    rewrite calculateTrend_unknown; [reflexivity |].
    rewrite weeklyPrices_length.
    apply Nat.Div0.div_lt_upper_bound. lia. }
  split; [exact Hw | now apply alignment_mixed_when_weekly_unknown].
Qed.

(** X5. With a history of at least forty-one closes the weekly trend of a
    record is the sign of the average of the last five weekly points: "up"
    when it is positive, "down" when it is negative, "sideways" otherwise.
    No older average enters it. *)
Theorem weekly_trend_is_a_sign (symbol : string) (quote : RawQuote)
        (cp : list float) (v : option (list float)) :
  41 <= List.length cp ->
  let m := mean (lastn 5 (Trend.weeklyPrices cp)) in
  get_prop (Trend.enrich symbol quote (candles_ok cp v)) "weeklyTrend"
  = JStr (if PrimFloat.ltb zero m then "up"
          else if PrimFloat.ltb m zero then "down" else "sideways").
Proof.
  intros Hlen m. rewrite record_weeklyTrend.
  destruct (Nat.leb_spec 25 (List.length cp)); [| lia].
  rewrite calculateTrend_short_period.
  - now rewrite classify_zero.
  - lia.
  - rewrite weeklyPrices_length.
    apply Nat.div_le_lower_bound; lia.
Qed.

(** X6. Without usable candles (no body, a status other than "ok", or no
    close) every member of the record that needs history is [null], both
    trends are "unknown" and the alignment is "mixed". *)
Theorem record_without_history (symbol : string) (quote : RawQuote)
        (candles : option Candles) :
  no_history candles ->
  (forall k, In k history_members ->
             get_prop (Trend.enrich symbol quote candles) k = JNull)
  /\ get_prop (Trend.enrich symbol quote candles) "dailyTrend" = JStr "unknown"
  /\ get_prop (Trend.enrich symbol quote candles) "weeklyTrend" = JStr "unknown"
  /\ get_prop (Trend.enrich symbol quote candles) "trendAlignment" = JStr "mixed".
Proof.
  intros Hno.
  assert (Hmembers : forall k : string,
             In k history_members ->
             forall r : obj,
               (get_prop r "week52High" = JNull) ->
               (get_prop r "week52Low" = JNull) ->
               (get_prop r "pctFrom52High" = JNull) ->
               (get_prop r "pctFrom52Low" = JNull) ->
               (get_prop r "nearWeek52High" = JNull) ->
               (get_prop r "nearWeek52Low" = JNull) ->
               (get_prop r "ma20" = JNull) ->
               (get_prop r "ma50" = JNull) ->
               (get_prop r "ma200" = JNull) ->
               (get_prop r "aboveMA20" = JNull) ->
               (get_prop r "aboveMA50" = JNull) ->
               (get_prop r "aboveMA200" = JNull) ->
               get_prop r k = JNull).
  { intros k Hk r. cbn in Hk.
    repeat (destruct Hk as [<- | Hk]; [tauto |]). contradiction. }
  destruct candles as [[s c v] |]; cbn in Hno.
  - destruct (strict_equal s (JStr "ok")) eqn:Hs;
      destruct c as [[| x cp] |];
      try (exfalso; destruct Hno as [H | [H | H]]; discriminate);
      unfold Trend.enrich; cbn [cd_s cd_c cd_v]; rewrite ?Hs; cbn [andb];
      (repeat split;
       [intros k Hk; apply (Hmembers k Hk); reflexivity | ..]; reflexivity).
  - repeat split; [intros k Hk; apply (Hmembers k Hk); reflexivity | ..];
      reflexivity.
Qed.

(** X7. With usable candles the 52-week high and low of a record are
    closes of the series, or [NaN]. *)
Theorem week52_extremes_are_closes (symbol : string) (quote : RawQuote)
        (cp : list float) (v : option (list float)) :
  cp <> [] ->
  exists high low,
    get_prop (Trend.enrich symbol quote (candles_ok cp v)) "week52High" = JNum high
    /\ get_prop (Trend.enrich symbol quote (candles_ok cp v)) "week52Low" = JNum low
    /\ (high = nan \/ In high cp)
    /\ (low = nan \/ In low cp).
Proof.
  intros Hne. exists (Math_max cp), (Math_min cp).
  split; [destruct cp; [contradiction | reflexivity] |].
  split; [destruct cp; [contradiction | reflexivity] |].
  split; [now apply Math_max_in | now apply Math_min_in].
Qed.

End TrendRecord.

(** Forty-five closes that fall from 200 to 156. *)
Lemma weekly_trend_is_a_sign_witness :
  let falling := map (fun n => Z2F (200 - Z.of_nat n)) (seq 0 45) in
  41 <= List.length falling
  /\ get_prop (@Trend.enrich example_runtime "AAA"
                 (quote_of (JNum 156%float) JNull) (candles_ok falling None))
              "weeklyTrend" = JStr "up".
Proof.
  cbn zeta.
  assert (H : 41 <= List.length (map (fun n => Z2F (200 - Z.of_nat n)) (seq 0 45)))
    by (cbn; lia).
  split; [exact H |].
  exact (@weekly_trend_is_a_sign example_runtime "AAA"
           (quote_of (JNum 156%float) JNull) _ None H).
Defined.

Lemma weekly_trend_needs_41_closes_witness :
  List.length (repeat 100%float 40) <= 40
  /\ get_prop (@Trend.enrich example_runtime "AAA"
                 (quote_of (JNum 100%float) JNull)
                 (candles_ok (repeat 100%float 40) None))
              "weeklyTrend" = JStr "unknown"
  /\ get_prop (@Trend.enrich example_runtime "AAA"
                 (quote_of (JNum 100%float) JNull)
                 (candles_ok (repeat 100%float 40) None))
              "trendAlignment" = JStr "mixed".
Proof.
  assert (H : List.length (repeat 100%float 40) <= 40) by (cbn; lia).
  split; [exact H |].
  exact (@weekly_trend_needs_41_closes example_runtime "AAA"
           (quote_of (JNum 100%float) JNull) _ None H).
Defined.

Lemma record_without_history_witness :
  no_history (Some {| cd_s := JStr "no_data"; cd_c := None; cd_v := None |})
  /\ get_prop (@Trend.enrich example_runtime "AAA"
                 (quote_of (JNum 100%float) JNull)
                 (Some {| cd_s := JStr "no_data"; cd_c := None; cd_v := None |}))
              "ma20" = JNull.
Proof.
  assert (H : no_history (Some {| cd_s := JStr "no_data"; cd_c := None;
                                  cd_v := None |})) by (cbn; tauto).
  split; [exact H |].
  apply (proj1 (@record_without_history example_runtime "AAA"
                  (quote_of (JNum 100%float) JNull) _ H)).
  cbn. tauto.
Defined.

Lemma week52_extremes_are_closes_witness :
  [100%float; 120%float; 90%float] <> []
  /\ exists high low,
      get_prop (@Trend.enrich example_runtime "AAA"
                  (quote_of (JNum 100%float) JNull)
                  (candles_ok [100%float; 120%float; 90%float] None))
               "week52High" = JNum high
      /\ get_prop (@Trend.enrich example_runtime "AAA"
                  (quote_of (JNum 100%float) JNull)
                  (candles_ok [100%float; 120%float; 90%float] None))
               "week52Low" = JNum low
      /\ (high = nan \/ In high [100%float; 120%float; 90%float])
      /\ (low = nan \/ In low [100%float; 120%float; 90%float]).
Proof.
  assert (H : [100%float; 120%float; 90%float] <> []) by discriminate.
  split; [exact H |].
  exact (@week52_extremes_are_closes example_runtime "AAA"
           (quote_of (JNum 100%float) JNull) _ None H).
Defined.

(* ================================================================== *)
(** * Further facts: records and conditions                             *)
(* ================================================================== *)

Lemma finnhub_etf_symbols_short (symbol : string) :
  includes_str Finnhub.etf_symbols symbol = true -> String.length symbol <= 4.
Proof.
  intros H. apply includes_str_In in H. cbn in H.
  repeat (destruct H as [<- | H]; [cbn; lia |]). contradiction.
Qed.

Lemma filter_true {A : Type} (l : list A) : filter (fun _ => true) l = l.
Proof. induction l as [| a l IH]; cbn; [reflexivity | now rewrite IH]. Qed.

Lemma filter_forallb_app {A B : Type} (f : A -> B -> bool) (l : list A)
      (cs1 cs2 : list B) :
  filter (fun x => forallb (f x) (cs1 ++ cs2)) l
  = filter (fun x => forallb (f x) cs2) (filter (fun x => forallb (f x) cs1) l).
Proof.
  induction l as [| a l IH]; cbn; [reflexivity |].
  rewrite forallb_app.
  destruct (forallb (f a) cs1); cbn; [| exact IH].
  destruct (forallb (f a) cs2); now rewrite IH.
Qed.

Lemma forallb_permutation {B : Type} (g : B -> bool) (cs cs' : list B) :
  Permutation.Permutation cs cs' -> forallb g cs = forallb g cs'.
Proof.
  induction 1 as [| x l l' _ IH | x y l | l l' l'' _ IH1 _ IH2]; cbn.
  - reflexivity.
  - now rewrite IH.
  - now destruct (g x), (g y).
  - now rewrite IH1.
Qed.

Section Conjunction.
Context {rt : JSRuntime}.

(** X8. In the quote-only revision the test on the length of the symbol
    changes nothing: a record is flagged as an ETF exactly when its symbol
    is in the list. *)
Theorem finnhub_etf_flag (symbol : string) (quote : RawQuote) :
  get_prop (Finnhub.enrich symbol quote) "is_etf"
  = JBool (includes_str Finnhub.etf_symbols symbol).
Proof.
  change (get_prop (Finnhub.enrich symbol quote) "is_etf")
    with (JBool ((String.length symbol <=? 4)%nat
                 && includes_str Finnhub.etf_symbols symbol)).
  destruct (includes_str Finnhub.etf_symbols symbol) eqn:Hin.
  - apply finnhub_etf_symbols_short in Hin.
    destruct (Nat.leb_spec (String.length symbol) 4); [reflexivity | lia].
  - now rewrite andb_false_r.
Qed.

(** X9. In the quote-only revision a condition on volume, avgVolume,
    week52High, week52Low or marketCap passes on every record the revision
    builds, whatever its operation and its right-hand side: these members
    are always [null]. *)
Theorem finnhub_conditions_on_null_members (symbol : string) (quote : RawQuote)
        (c : Condition) :
  In (c_left c) finnhub_null_members ->
  Finnhub.evalCondition (Finnhub.enrich symbol quote) c = true.
Proof.
  destruct c as [l op r]. cbn [c_left]. intros Hin. cbn in Hin.
  repeat (destruct Hin as [<- | Hin]; [reflexivity |]). contradiction.
Qed.

Lemma trend_applyConditions_filter (l : list obj) (cs : list Condition) :
  Trend.applyConditions l cs
  = filter (fun item => forallb (Trend.evalCondition item) cs) l.
Proof. destruct cs; cbn [Trend.applyConditions]; [now rewrite filter_true | reflexivity]. Qed.

Lemma finnhub_applyConditions_filter (l : list obj) (cs : list Condition) :
  Finnhub.applyConditions l cs
  = filter (fun item => forallb (Finnhub.evalCondition item) cs) l.
Proof. destruct cs; cbn [Finnhub.applyConditions]; [now rewrite filter_true | reflexivity]. Qed.

Lemma yahoo_applyConditions_filter (l : list obj) (cs : list Condition) :
  Yahoo.applyConditions l cs
  = filter (fun item => forallb (Yahoo.evalCondition item) cs) l.
Proof. destruct cs; cbn [Yahoo.applyConditions]; [now rewrite filter_true | reflexivity]. Qed.

(** X10. Conditions combine by conjunction, the shortcut for an empty list
    included: filtering by [cs1 ++ cs2] is filtering by [cs1] and then
    filtering the survivors by [cs2], in each of the three revisions. *)
Theorem conditions_compose (l : list obj) (cs1 cs2 : list Condition) :
  Trend.applyConditions l (cs1 ++ cs2)
  = Trend.applyConditions (Trend.applyConditions l cs1) cs2
  /\ Finnhub.applyConditions l (cs1 ++ cs2)
     = Finnhub.applyConditions (Finnhub.applyConditions l cs1) cs2
  /\ Yahoo.applyConditions l (cs1 ++ cs2)
     = Yahoo.applyConditions (Yahoo.applyConditions l cs1) cs2.
Proof.
  rewrite !trend_applyConditions_filter, !finnhub_applyConditions_filter,
    !yahoo_applyConditions_filter.
  repeat split; apply filter_forallb_app.
Qed.

(** X11. The order of the conditions of a request is irrelevant. *)
Theorem conditions_order_irrelevant (l : list obj) (cs cs' : list Condition) :
  Permutation.Permutation cs cs' ->
  Trend.applyConditions l cs = Trend.applyConditions l cs'
  /\ Finnhub.applyConditions l cs = Finnhub.applyConditions l cs'
  /\ Yahoo.applyConditions l cs = Yahoo.applyConditions l cs'.
Proof.
  intros Hperm.
  rewrite !trend_applyConditions_filter, !finnhub_applyConditions_filter,
    !yahoo_applyConditions_filter.
  repeat split; apply filter_ext; intros item;
    now apply forallb_permutation.
Qed.

(** Every record of [server.js] passes a [near] condition on 52_week_high
    or 52_week_low: it has no member of that name. *)
Lemma yahoo_near_passes (quote : YahooQuote) (c : Condition) :
  c_operation c = "near" ->
  c_left c = "52_week_high" \/ c_left c = "52_week_low" ->
  Yahoo.evalCondition (Yahoo.enrich quote) c = true.
Proof.
  destruct c as [l op r]. cbn [c_left c_operation].
  intros -> [-> | ->]; reflexivity.
Qed.

Lemma trend_near_passes (symbol : string) (quote : RawQuote)
      (candles : option Candles) (c : Condition) :
  c_operation c = "near" ->
  c_left c = "52_week_high" \/ c_left c = "52_week_low" ->
  Trend.evalCondition (Trend.enrich symbol quote candles) c = true.
Proof.
  destruct c as [l op r]. cbn [c_left c_operation].
  intros -> [-> | ->]; reflexivity.
Qed.

End Conjunction.

Lemma finnhub_conditions_on_null_members_witness :
  In (c_left (greater_zero "volume")) finnhub_null_members
  /\ @Finnhub.evalCondition example_runtime
       (@Finnhub.enrich example_runtime "AAA" (quote_of (JNum 50%float) JNull))
       (greater_zero "volume") = true.
Proof.
  assert (H : In (c_left (greater_zero "volume")) finnhub_null_members)
    by (cbn; tauto).
  split; [exact H |].
  exact (@finnhub_conditions_on_null_members example_runtime "AAA"
           (quote_of (JNum 50%float) JNull) (greater_zero "volume") H).
Defined.

Lemma conditions_order_irrelevant_witness :
  Permutation.Permutation [greater_zero "close"; near_high]
                          [near_high; greater_zero "close"]
  /\ @Trend.applyConditions example_runtime [unpriced_record]
       [greater_zero "close"; near_high]
     = @Trend.applyConditions example_runtime [unpriced_record]
         [near_high; greater_zero "close"].
Proof.
  assert (H : Permutation.Permutation [greater_zero "close"; near_high]
                                      [near_high; greater_zero "close"])
    by apply Permutation.perm_swap.
  split; [exact H |].
  exact (proj1 (@conditions_order_irrelevant example_runtime
                  [unpriced_record] _ _ H)).
Defined.

(* ================================================================== *)
(** * Further facts: the calls of a request                             *)
(* ================================================================== *)

Lemma trend_pattern_calls (symbols : list string) (t : list Call) :
  trend_pattern symbols t ->
  quote_calls t = symbols
  /\ pauses t = repeat 2000 (List.length symbols - 1)
  /\ yahoo_calls t = []
  /\ subseq (candle_calls t) symbols.
Proof.
  induction 1 as [| s cs Hcs | s s' rest cs t Hcs _ IH].
  - repeat split. constructor.
  - destruct Hcs as [-> | ->]; repeat split; cbn.
    + apply subseq_skip, subseq_nil.
    + apply subseq_keep, subseq_nil.
  - destruct IH as (Hq & Hp & Hy & Hc).
    unfold quote_calls, pauses, yahoo_calls, candle_calls in *.
    cbn [flat_map]. rewrite !flat_map_app. cbn [flat_map].
    rewrite Hq, Hp, Hy.
    destruct Hcs as [-> | ->]; cbn [flat_map app List.length Nat.sub repeat];
      rewrite ?Nat.sub_0_r; repeat split.
    + now apply subseq_skip.
    + now apply subseq_keep.
Qed.

Section Calls.
Context {rt : JSRuntime} {W : Type} {P : Provider W}.

Lemma tracing_trend_step (symbol : string) (w : W) (log : list Call) :
  exists cs,
    (cs = [] \/ cs = [CandleCall symbol])
    /\ @Trend.getStockDataWithTrend rt _ (tracing P) symbol (w, log)
       = (fst (Trend.getStockDataWithTrend symbol w),
          (snd (Trend.getStockDataWithTrend symbol w),
           log ++ QuoteCall symbol :: cs)).
Proof.
  unfold Trend.getStockDataWithTrend, bind, ret. cbn [fetchQuote tracing fst snd].
  destruct (fetchQuote symbol w) as [[| [q |]] w1].
  - exists []. split; [tauto | reflexivity].
  - destruct (Trend.no_quote_data (Some q)).
    + exists []. split; [tauto | reflexivity].
    + cbn [fetchCandles tracing fst snd].
      destruct (fetchCandles symbol w1) as [[| cd] w2];
        exists [CandleCall symbol]; (split; [tauto |]);
        cbn [fst snd]; now rewrite <- app_assoc.
  - exists []. split; [tauto | reflexivity].
Qed.

Lemma tracing_trend_batch (symbols : list string) :
  forall (acc : list obj) (w : W) (log : list Call),
  exists t,
    trend_pattern symbols t
    /\ @Trend.batch_loop rt _ (tracing P) symbols acc (w, log)
       = (fst (Trend.batch_loop symbols acc w),
          (snd (Trend.batch_loop symbols acc w), log ++ t)).
Proof.
  induction symbols as [| s rest IH]; intros acc w log.
  - exists []. split; [constructor |]. cbn. now rewrite app_nil_r.
  - destruct (tracing_trend_step s w log) as (cs & Hcs & Hstep).
    cbn [Trend.batch_loop]. unfold bind. rewrite Hstep.
    destruct (Trend.getStockDataWithTrend s w) as [data w1]. cbn [fst snd].
    destruct rest as [| s' rest'].
    + exists (QuoteCall s :: cs). split; [now constructor |]. reflexivity.
    + cbn [delay tracing fst snd].
      destruct (delay 2000 w1) as [u w2].
      destruct (IH (match data with Some d => acc ++ [d] | None => acc end)
                   w2 ((log ++ QuoteCall s :: cs) ++ [Pause 2000]))
        as (t & Ht & Heq).
      exists (QuoteCall s :: cs ++ Pause 2000 :: t).
      split; [now constructor |].
      unfold bind in Heq. rewrite Heq.
      do 2 f_equal. rewrite <- !app_assoc. reflexivity.
Qed.

(** X12. The calls of a batch of the trend revision, in order: for each
    symbol its quote, then at most its candles, and a pause of 2000 ms
    between two symbols, none after the last.  Noting the calls changes
    neither the records nor the world. *)
Theorem trend_batch_calls (symbols : list string) (w : W) :
  exists t,
    @Trend.getStockDataBatch rt _ (tracing P) symbols (w, [])
    = (fst (Trend.getStockDataBatch symbols w),
       (snd (Trend.getStockDataBatch symbols w), t))
    /\ trend_pattern symbols t
    /\ quote_calls t = symbols
    /\ subseq (candle_calls t) symbols
    /\ pauses t = repeat 2000 (List.length symbols - 1)
    /\ yahoo_calls t = [].
Proof.
  destruct (tracing_trend_batch symbols [] w []) as (t & Ht & Heq).
  exists t. split; [exact Heq |]. split; [exact Ht |].
  destruct (trend_pattern_calls symbols t Ht) as (Hq & Hp & Hy & Hc).
  tauto.
Qed.

Lemma finnhub_tracing_step (symbol : string) (w : W) (log : list Call) :
  @Finnhub.getStockDataFinnhub rt _ (tracing P) symbol (w, log)
  = (fst (Finnhub.getStockDataFinnhub symbol w),
     (snd (Finnhub.getStockDataFinnhub symbol w), log ++ [QuoteCall symbol])).
Proof.
  unfold Finnhub.getStockDataFinnhub, bind, ret. cbn [fetchQuote tracing fst snd].
  destruct (fetchQuote symbol w) as [[| [q |]] w1]; try reflexivity.
  destruct (Finnhub.no_quote_data (Some q)); reflexivity.
Qed.

Lemma finnhub_tracing_batch (symbols : list string) :
  forall (acc : list obj) (w : W) (log : list Call),
    @Finnhub.batch_loop rt _ (tracing P) symbols acc (w, log)
    = (fst (Finnhub.batch_loop symbols acc w),
       (snd (Finnhub.batch_loop symbols acc w), log ++ finnhub_calls symbols)).
Proof.
  induction symbols as [| s rest IH]; intros acc w log.
  - cbn. now rewrite app_nil_r.
  - cbn [Finnhub.batch_loop finnhub_calls]. unfold bind.
    rewrite finnhub_tracing_step.
    destruct (Finnhub.getStockDataFinnhub s w) as [data w1]. cbn [fst snd].
    destruct rest as [| s' rest'].
    + reflexivity.
    + cbn [delay tracing fst snd].
      destruct (delay 50 w1) as [u w2].
      unfold bind in IH. rewrite IH.
      do 2 f_equal. rewrite <- !app_assoc. reflexivity.
Qed.

(** X13. The calls of a batch of the quote-only revision are determined
    by the symbols alone: one quote per symbol, in order, and a pause of
    50 ms between two symbols; never a candle or a Yahoo request. *)
Theorem finnhub_batch_calls (symbols : list string) (w : W) :
  @Finnhub.getStockDataBatch rt _ (tracing P) symbols (w, [])
  = (fst (Finnhub.getStockDataBatch symbols w),
     (snd (Finnhub.getStockDataBatch symbols w), finnhub_calls symbols))
  /\ quote_calls (finnhub_calls symbols) = symbols
  /\ pauses (finnhub_calls symbols) = repeat 50 (List.length symbols - 1)
  /\ candle_calls (finnhub_calls symbols) = []
  /\ yahoo_calls (finnhub_calls symbols) = [].
Proof.
  split; [apply (finnhub_tracing_batch symbols [] w []) |].
  induction symbols as [| s [| s' rest] IH]; [repeat split .. |].
  destruct IH as (Hq & Hp & Hc & Hy).
  change (finnhub_calls (s :: s' :: rest))
    with (QuoteCall s :: Pause 50 :: finnhub_calls (s' :: rest)).
  unfold quote_calls, pauses, candle_calls, yahoo_calls in *.
  cbn [flat_map app]. rewrite Hq, Hp, Hc, Hy.
  cbn [List.length Nat.sub repeat]. rewrite Nat.sub_0_r.
  now repeat split.
Qed.

End Calls.

Lemma subseq_length {A : Type} (l1 l2 : list A) :
  subseq l1 l2 -> List.length l1 <= List.length l2.
Proof. induction 1; cbn; lia. Qed.

Lemma request_cases (req : Request) :
  malformed req
  \/ exists u, strict_equal (action req) (JStr "screen") = true
               /\ universe req = Some u /\ u <> [].
Proof.
  unfold malformed.
  destruct (strict_equal (action req) (JStr "screen")); [| tauto].
  destruct (universe req) as [[| s u] |]; [tauto | | tauto].
  right. exists (s :: u). repeat split. discriminate.
Qed.

Lemma not_both_cases (req : Request) (u : list string) :
  malformed req ->
  strict_equal (action req) (JStr "screen") = true ->
  universe req = Some u -> u <> [] -> False.
Proof.
  intros [H | [H | H]] Hact Hu Hne; try congruence.
Qed.

Section Validation.
Context {rt : JSRuntime} {W : Type} {P : Provider W}.

Lemma trend_screen_400 (req : Request) (w : W) :
  malformed req -> Trend.screen req w = (Status400 (rejection req), w).
Proof.
  unfold malformed, Trend.screen, rejection.
  destruct (strict_equal (action req) (JStr "screen")); cbn [negb].
  - intros [H | [-> | ->]]; [discriminate | reflexivity ..].
  - reflexivity.
Qed.

Lemma finnhub_screen_400 (req : Request) (w : W) :
  malformed req -> Finnhub.screen req w = (Status400 (rejection req), w).
Proof.
  unfold malformed, Finnhub.screen, rejection.
  destruct (strict_equal (action req) (JStr "screen")); cbn [negb].
  - intros [H | [-> | ->]]; [discriminate | reflexivity ..].
  - reflexivity.
Qed.

Lemma yahoo_screen_400 (req : Request) (w : W) :
  malformed req -> Yahoo.screen req w = (Status400 (rejection req), w).
Proof.
  unfold malformed, Yahoo.screen, rejection.
  destruct (strict_equal (action req) (JStr "screen")); cbn [negb].
  - intros [H | [-> | ->]]; [discriminate | reflexivity ..].
  - reflexivity.
Qed.

Lemma finnhub_screen_ok (req : Request) (u : list string) (w : W) :
  strict_equal (action req) (JStr "screen") = true ->
  universe req = Some u -> u <> [] ->
  Finnhub.screen req w
  = (Json200
       {| count := List.length
                     (Finnhub.applyConditions
                        (fst (Finnhub.getStockDataBatch u w)) (conditions_of req));
          universe_size := List.length u;
          screened_size := None;
          valid_data := List.length (fst (Finnhub.getStockDataBatch u w));
          note := None;
          results := Finnhub.applyConditions
                       (fst (Finnhub.getStockDataBatch u w)) (conditions_of req) |},
     snd (Finnhub.getStockDataBatch u w)).
Proof.
  intros Hact Hu Hne. unfold Finnhub.screen, conditions_of.
  rewrite Hact, Hu. cbn [negb].
  destruct u as [| s u']; [contradiction |].
  unfold bind, ret.
  now destruct (Finnhub.getStockDataBatch (s :: u') w).
Qed.

Lemma yahoo_screen_ok (req : Request) (u : list string) (w : W) :
  strict_equal (action req) (JStr "screen") = true ->
  universe req = Some u -> u <> [] ->
  Yahoo.screen req w
  = (Json200
       {| count := List.length
                     (Yahoo.applyConditions (yahoo_evaluated u w)
                                            (conditions_of req));
          universe_size := List.length u;
          screened_size := None;
          valid_data := List.length (yahoo_evaluated u w);
          note := None;
          results := Yahoo.applyConditions (yahoo_evaluated u w)
                                           (conditions_of req) |},
     snd (Yahoo.fetch_batches (Yahoo.batch_starts (List.length u)) u [] w)).
Proof.
  intros Hact Hu Hne. unfold Yahoo.screen, yahoo_evaluated, conditions_of.
  rewrite Hact, Hu. cbn [negb].
  destruct u as [| s u']; [contradiction |].
  unfold bind, ret.
  now destruct (Yahoo.fetch_batches _ (s :: u') [] w).
Qed.

End Validation.

(** X14. A request is answered with 400 exactly when its action is not
    "screen" or its universe is not a non-empty array, in each of the three
    revisions; such a request makes no call on the provider and leaves the
    world as it was. *)
Theorem malformed_requests_fetch_nothing {rt : JSRuntime} {W : Type}
        {P : Provider W} (req : Request) (w : W) :
  ((exists msg, fst (Trend.screen req w) = Status400 msg) <-> malformed req)
  /\ ((exists msg, fst (Finnhub.screen req w) = Status400 msg) <-> malformed req)
  /\ ((exists msg, fst (Yahoo.screen req w) = Status400 msg) <-> malformed req)
  /\ (malformed req ->
      snd (@Trend.screen rt _ (tracing P) req (w, [])) = (w, [])
      /\ snd (@Finnhub.screen rt _ (tracing P) req (w, [])) = (w, [])
      /\ snd (@Yahoo.screen rt _ (tracing P) req (w, [])) = (w, [])).
Proof.
  split; [| split; [| split]].
  - split.
    + intros (msg & Hmsg).
      destruct (request_cases req) as [Hbad | (u & Hact & Hu & Hne)];
        [exact Hbad |].
      rewrite (trend_screen_ok req u w Hact Hu Hne) in Hmsg.
      cbn [fst] in Hmsg. discriminate.
    + intros Hbad. rewrite (trend_screen_400 req w Hbad). now eexists.
  - split.
    + intros (msg & Hmsg).
      destruct (request_cases req) as [Hbad | (u & Hact & Hu & Hne)];
        [exact Hbad |].
      rewrite (finnhub_screen_ok req u w Hact Hu Hne) in Hmsg.
      cbn [fst] in Hmsg. discriminate.
    + intros Hbad. rewrite (finnhub_screen_400 req w Hbad). now eexists.
  - split.
    + intros (msg & Hmsg).
      destruct (request_cases req) as [Hbad | (u & Hact & Hu & Hne)];
        [exact Hbad |].
      rewrite (yahoo_screen_ok req u w Hact Hu Hne) in Hmsg.
      cbn [fst] in Hmsg. discriminate.
    + intros Hbad. rewrite (yahoo_screen_400 req w Hbad). now eexists.
  - intros Hbad.
    rewrite (@trend_screen_400 rt _ (tracing P) req (w, []) Hbad).
    rewrite (@finnhub_screen_400 rt _ (tracing P) req (w, []) Hbad).
    rewrite (@yahoo_screen_400 rt _ (tracing P) req (w, []) Hbad).
    repeat split.
Qed.

(** X15. Whatever the request, the handler of the trend revision asks for
    at most 25 quotes and for no more candles than quotes, pauses 2000 ms
    once less than it asks for quotes, and never calls the Yahoo endpoint.
    Noting the calls changes neither the answer nor the world. *)
Theorem trend_request_budget {rt : JSRuntime} {W : Type} {P : Provider W}
        (req : Request) (w : W) :
  exists t,
    @Trend.screen rt _ (tracing P) req (w, [])
    = (fst (Trend.screen req w), (snd (Trend.screen req w), t))
    /\ List.length (quote_calls t) <= 25
    /\ List.length (candle_calls t) <= List.length (quote_calls t)
    /\ pauses t = repeat 2000 (List.length (quote_calls t) - 1)
    /\ yahoo_calls t = [].
Proof.
  destruct (request_cases req) as [Hbad | (u & Hact & Hu & Hne)].
  - exists [].
    rewrite (@trend_screen_400 rt _ (tracing P) req (w, []) Hbad).
    rewrite (trend_screen_400 req w Hbad).
    repeat split; cbn; lia.
  - destruct (tracing_trend_batch (P := P) (slice u 0 25) [] w [])
      as (t & Ht & Heq).
    destruct (trend_pattern_calls _ t Ht) as (Hq & Hp & Hy & Hc).
    exists t.
    rewrite (@trend_screen_ok rt _ (tracing P) req u (w, []) Hact Hu Hne).
    rewrite (trend_screen_ok req u w Hact Hu Hne).
    unfold trend_evaluated, Trend.getStockDataBatch.
    rewrite Heq. cbn [fst snd].
    split; [reflexivity |].
    rewrite Hq.
    assert (Hslice : slice u 0 25 = firstn 25 u) by apply (slice_prefix u 25).
    split; [rewrite Hslice; apply firstn_le_length |].
    split; [now apply subseq_length |].
    split; assumption.
Qed.

(* ================================================================== *)
(** * Further facts: the batches of [server.js]                         *)
(* ================================================================== *)

Lemma firstn_add {A : Type} (a b : nat) :
  forall l : list A, firstn (a + b) l = firstn a l ++ firstn b (skipn a l).
Proof.
  induction a as [| a IH]; intros l; [reflexivity |].
  destruct l as [| x l]; cbn.
  - now rewrite firstn_nil.
  - now rewrite IH.
Qed.

Lemma firstn_min_length {A : Type} (n : nat) (l : list A) :
  firstn (Nat.min n (List.length l)) l = firstn n l.
Proof.
  destruct (Nat.le_ge_cases n (List.length l)) as [H | H].
  - now rewrite Nat.min_l.
  - rewrite Nat.min_r by exact H. now rewrite !firstn_all2 by lia.
Qed.

(** [l.slice(i, i + n)] is the [n] elements from index [i] on. *)
Lemma slice_nat {A : Type} (l : list A) (i n : nat) :
  slice l (Z.of_nat i) (Z.of_nat (i + n)) = firstn n (skipn i l).
Proof.
  unfold slice. rewrite !rel_index_nat.
  destruct (Nat.le_gt_cases i (List.length l)) as [H | H].
  - rewrite (Nat.min_l i) by exact H.
    replace (Nat.min (i + n) (List.length l) - i)
      with (Nat.min n (List.length (skipn i l)))
      by (rewrite length_skipn; lia).
    apply firstn_min_length.
  - rewrite !Nat.min_r by lia. rewrite Nat.sub_diag.
    rewrite (skipn_all2 l (n := i)) by lia.
    now rewrite firstn_nil.
Qed.

Lemma concat_chunks {A : Type} (n : nat) (l : list A) (m : nat) :
  List.concat (map (fun k => firstn n (skipn (k * n) l)) (seq 0 m))
  = firstn (m * n) l.
Proof.
  induction m as [| m IH]; [reflexivity |].
  rewrite seq_S, map_app, concat_app, IH. cbn [map List.concat Nat.add].
  rewrite app_nil_r, Nat.mul_succ_l. symmetry. apply firstn_add.
Qed.

Lemma yahoo_batches_chunks (u : list string) :
  yahoo_batches u
  = map (fun k => firstn 100 (skipn (k * 100) u))
        (seq 0 ((List.length u + 99) / 100)).
Proof.
  unfold yahoo_batches, Yahoo.batch_starts, Yahoo.batchSize.
  rewrite map_map. apply map_ext. intros k. apply slice_nat.
Qed.

Lemma chunk_count_covers (len : nat) : len <= (len + 99) / 100 * 100.
Proof.
  pose proof (Nat.div_mod_eq (len + 99) 100) as Hdiv.
  pose proof (Nat.mod_upper_bound (len + 99) 100) as Hmod.
  lia.
Qed.

Lemma chunk_index_inside (len k : nat) :
  k < (len + 99) / 100 -> k * 100 < len.
Proof.
  intros Hk.
  pose proof (Nat.div_mod_eq (len + 99) 100) as Hdiv.
  pose proof (Nat.mod_upper_bound (len + 99) 100) as Hmod.
  nia.
Qed.

(** The batches cover the universe, once and in order; each has between
    1 and 100 symbols. *)
Lemma yahoo_batches_partition (u : list string) :
  List.concat (yahoo_batches u) = u
  /\ Forall (fun b => 1 <= List.length b <= 100) (yahoo_batches u)
  /\ List.length (yahoo_batches u) = (List.length u + 99) / 100.
Proof.
  rewrite yahoo_batches_chunks. split; [| split].
  - rewrite concat_chunks. apply firstn_all2, chunk_count_covers.
  - apply Forall_forall. intros b Hb.
    apply in_map_iff in Hb as (k & <- & Hk).
    apply in_seq in Hk as [_ Hk]. cbn [Nat.add] in Hk.
    apply chunk_index_inside in Hk.
    rewrite length_firstn, length_skipn. lia.
  - now rewrite length_map, length_seq.
Qed.

Section YahooCalls.
Context {rt : JSRuntime} {W : Type} {P : Provider W}.

Lemma yahoo_tracing_getStockData (batch : list string) (w : W) (log : list Call) :
  @Yahoo.getStockData rt _ (tracing P) batch (w, log)
  = (fst (Yahoo.getStockData batch w),
     (snd (Yahoo.getStockData batch w), log ++ [YahooCall batch])).
Proof.
  unfold Yahoo.getStockData, bind, ret. cbn [fetchYahoo tracing fst snd].
  destruct (fetchYahoo batch w) as [[| [results |]] w1]; reflexivity.
Qed.

Lemma yahoo_tracing_batches (u : list string) (starts : list nat) :
  forall (acc : list obj) (w : W) (log : list Call),
    @Yahoo.fetch_batches rt _ (tracing P) starts u acc (w, log)
    = (fst (Yahoo.fetch_batches starts u acc w),
       (snd (Yahoo.fetch_batches starts u acc w),
        log ++ map YahooCall
                   (map (fun i => slice u (Z.of_nat i)
                                        (Z.of_nat (i + Yahoo.batchSize)))
                        starts))).
Proof.
  induction starts as [| i rest IH]; intros acc w log.
  - cbn. now rewrite app_nil_r.
  - cbn [Yahoo.fetch_batches map]. unfold bind.
    rewrite yahoo_tracing_getStockData.
    destruct (Yahoo.getStockData _ w) as [batchData w1]. cbn [fst snd].
    unfold bind in IH. rewrite IH.
    do 2 f_equal. rewrite <- app_assoc. reflexivity.
Qed.

(** X16. On a well-formed request [server.js] sends one Yahoo request per
    batch and nothing else; the batches, concatenated, are the universe,
    each holds between 1 and 100 symbols, and there are
    ceil(size / 100) of them. *)
Theorem yahoo_request_batches (req : Request) (u : list string) (w : W) :
  strict_equal (action req) (JStr "screen") = true ->
  universe req = Some u -> u <> [] ->
  @Yahoo.screen rt _ (tracing P) req (w, [])
  = (fst (Yahoo.screen req w),
     (snd (Yahoo.screen req w), map YahooCall (yahoo_batches u)))
  /\ List.concat (yahoo_batches u) = u
  /\ Forall (fun b => 1 <= List.length b <= 100) (yahoo_batches u)
  /\ List.length (yahoo_batches u) = (List.length u + 99) / 100.
Proof.
  intros Hact Hu Hne. split; [| apply yahoo_batches_partition].
  rewrite (yahoo_screen_ok req u w Hact Hu Hne). cbn [fst snd].
  unfold Yahoo.screen. rewrite Hact, Hu. cbn [negb].
  destruct u as [| s u']; [contradiction |].
  unfold bind, ret. rewrite yahoo_tracing_batches. cbn [fst snd app].
  unfold yahoo_evaluated, conditions_of, yahoo_batches. reflexivity.
Qed.

(** X17. Every record [server.js] evaluates conditions on, and so every
    record it answers with, has a truthy close: a price that is missing,
    zero, [NaN] or an empty string never gets that far. *)
Theorem yahoo_results_have_truthy_close (req : Request) (w : W)
        (body : ScreenBody) :
  fst (Yahoo.screen req w) = Json200 body ->
  exists u, universe req = Some u
    /\ Forall (fun r => ToBoolean (get_prop r "close") = true)
              (yahoo_evaluated u w)
    /\ Forall (fun r => ToBoolean (get_prop r "close") = true)
              (results body).
Proof.
  intros H. destruct (yahoo_screen_inv req w body H) as (u & Hu & Hres).
  exists u. split; [exact Hu |].
  assert (Hall : Forall (fun r => ToBoolean (get_prop r "close") = true)
                        (yahoo_evaluated u w)).
  { pose proof (yahoo_evaluated_enriched u w) as He.
    pose proof (yahoo_evaluated_priced u w) as Hp.
    rewrite Forall_forall in *. intros r Hr.
    destruct (He r Hr) as (q & ->). specialize (Hp _ Hr).
    unfold priced in Hp. rewrite yahoo_close_member in *.
    apply js_or_null_truthy. intros E. rewrite E in Hp. discriminate. }
  split; [exact Hall |].
  rewrite Hres. rewrite Forall_forall in *. intros r Hr.
  apply Hall. now apply yahoo_applyConditions_incl in Hr.
Qed.

(** X18. The members of a record of [server.js] are normalised: each price
    and each 52-week extreme is [null] or truthy, each volume and the
    market capitalisation is [0] or truthy, the currency is truthy, the
    asset type is "etf" exactly when the ETF flag is set, and a quote
    without a currency counts as tradable. *)
Theorem yahoo_record_members (q : YahooQuote) :
  (forall k, In k ["close"; "open"; "high"; "low"; "week52High"; "week52Low"] ->
             null_or_truthy (get_prop (Yahoo.enrich q) k))
  /\ (forall k, In k ["volume"; "avgVolume"; "marketCap"] ->
                get_prop (Yahoo.enrich q) k = JNum zero
                \/ ToBoolean (get_prop (Yahoo.enrich q) k) = true)
  /\ ToBoolean (get_prop (Yahoo.enrich q) "currency") = true
  /\ (get_prop (Yahoo.enrich q) "asset_type" = JStr "etf"
      <-> get_prop (Yahoo.enrich q) "is_etf" = JBool true)
  /\ (ToBoolean (y_currency q) = false ->
      get_prop (Yahoo.enrich q) "tradable_on_t212_cfd" = JBool true).
Proof.
  assert (Hor : forall a, null_or_truthy (js_or a JNull)).
  { intros a. unfold null_or_truthy, js_or.
    destruct (ToBoolean a) eqn:Ha; tauto. }
  assert (Hzero : forall a, js_or a (JNum zero) = JNum zero
                            \/ ToBoolean (js_or a (JNum zero)) = true).
  { intros a. unfold js_or. destruct (ToBoolean a) eqn:Ha; tauto. }
  split; [| split; [| split; [| split]]].
  - intros k Hk. cbn in Hk.
    repeat (destruct Hk as [<- | Hk]; [apply Hor |]). contradiction.
  - intros k Hk. cbn in Hk.
    repeat (destruct Hk as [<- | Hk]; [apply Hzero |]). contradiction.
  - change (get_prop (Yahoo.enrich q) "currency")
      with (js_or (y_currency q) (JStr "USD")).
    unfold js_or. now destruct (ToBoolean (y_currency q)) eqn:Hc.
  - change (get_prop (Yahoo.enrich q) "asset_type")
      with (if strict_equal (y_quoteType q) (JStr "ETF")
            then JStr "etf" else JStr "equity").
    change (get_prop (Yahoo.enrich q) "is_etf")
      with (JBool (strict_equal (y_quoteType q) (JStr "ETF"))).
    destruct (strict_equal (y_quoteType q) (JStr "ETF"));
      split; intros; congruence.
  - intros Hc.
    change (get_prop (Yahoo.enrich q) "tradable_on_t212_cfd")
      with (JBool (includes [JStr "USD"; JStr "EUR"; JStr "GBP"]
                            (js_or (y_currency q) (JStr "USD")))).
    unfold js_or. now rewrite Hc.
Qed.

End YahooCalls.

(* ================================================================== *)
(** * Further facts: what a request answers                             *)
(* ================================================================== *)

Lemma subseq_refl {A : Type} (l : list A) : subseq l l.
Proof. induction l; [constructor | now apply subseq_keep]. Qed.

Lemma subseq_app {A : Type} (a b c d : list A) :
  subseq a b -> subseq c d -> subseq (a ++ c) (b ++ d).
Proof.
  induction 1 as [| x l1 l2 _ IH | x l1 l2 _ IH]; intros Hcd; cbn.
  - exact Hcd.
  - apply subseq_skip. now apply IH.
  - apply subseq_keep. now apply IH.
Qed.

Lemma subseq_trans {A : Type} (l2 : list A) :
  forall l1 l3, subseq l1 l2 -> subseq l2 l3 -> subseq l1 l3.
Proof.
  intros l1 l3 H12 H23. revert l1 H12.
  induction H23 as [| x l2 l3 _ IH | x l2 l3 _ IH]; intros l1 H12.
  - exact H12.
  - constructor. now apply IH.
  - inversion H12; subst.
    + apply subseq_skip. now apply IH.
    + apply subseq_keep. now apply IH.
Qed.

Lemma subseq_map_filter {A B : Type} (g : A -> B) (f : A -> bool) (l : list A) :
  subseq (map g (filter f l)) (map g l).
Proof.
  induction l as [| a l IH]; cbn; [constructor |].
  destruct (f a); cbn; [now apply subseq_keep | now apply subseq_skip].
Qed.

Section Answers.
Context {rt : JSRuntime} {W : Type} {P : Provider W}.

Lemma trend_step_enriched (symbol : string) (w : W) (r : obj) :
  fst (Trend.getStockDataWithTrend symbol w) = Some r ->
  exists q cd, r = Trend.enrich symbol q cd.
Proof.
  unfold Trend.getStockDataWithTrend, bind, ret.
  destruct (fetchQuote symbol w) as [[| [q |]] w1]; cbn [fst];
    try discriminate.
  destruct (Trend.no_quote_data (Some q)); cbn [fst]; [discriminate |].
  destruct (fetchCandles symbol w1) as [[| cd] w2]; cbn [fst];
    [discriminate |].
  intros [= <-]. now exists q, cd.
Qed.

Lemma trend_batch_enriched (symbols : list string) :
  forall w : W,
    Forall (fun r => exists s q cd, r = Trend.enrich s q cd)
           (fst (Trend.getStockDataBatch symbols w)).
Proof.
  induction symbols as [| symbol rest IH]; intros w.
  - constructor.
  - rewrite trend_batch_cons. apply Forall_app. split; [| apply IH].
    destruct (fst (Trend.getStockDataWithTrend symbol w)) as [r |] eqn:Hr;
      cbn; constructor; [| constructor].
    destruct (trend_step_enriched symbol w r Hr) as (q & cd & ->).
    now exists symbol, q, cd.
Qed.

(** X19. A [near] condition on 52_week_high or 52_week_low removes no
    record from an answer, in the trend revision and in [server.js]: with
    or without it the records that pass are the same. *)
Theorem near_conditions_filter_nothing (u : list string) (w : W)
        (c : Condition) (cs : list Condition) :
  near_condition c ->
  Trend.applyConditions (trend_evaluated u w) (c :: cs)
  = Trend.applyConditions (trend_evaluated u w) cs
  /\ Yahoo.applyConditions (yahoo_evaluated u w) (c :: cs)
     = Yahoo.applyConditions (yahoo_evaluated u w) cs.
Proof.
  intros [Hop Hleft].
  rewrite !trend_applyConditions_filter, !yahoo_applyConditions_filter.
  split; apply filter_ext_in; intros r Hr; cbn [forallb].
  - pose proof (trend_batch_enriched (slice u 0 25) w) as He.
    rewrite Forall_forall in He.
    destruct (He r Hr) as (s & q & cd & ->).
    now rewrite (trend_near_passes s q cd c Hop Hleft).
  - pose proof (yahoo_evaluated_enriched u w) as He.
    rewrite Forall_forall in He.
    destruct (He r Hr) as (q & ->).
    now rewrite (yahoo_near_passes q c Hop Hleft).
Qed.

Lemma trend_batch_empty (symbols : list string) :
  (forall s w, fst (Trend.getStockDataWithTrend s w) = None) ->
  forall w : W, fst (Trend.getStockDataBatch symbols w) = [].
Proof.
  intros Hnone. induction symbols as [| symbol rest IH]; intros w.
  - reflexivity.
  - rewrite trend_batch_cons, Hnone, IH. reflexivity.
Qed.

(** X20. When every quote request fails, or every candle request fails,
    the trend handler still answers a well-formed request with 200: no
    record, count 0, valid_data 0.  The failures are not reported. *)
Theorem trend_provider_failures_are_silent (req : Request) (u : list string)
        (w : W) :
  (forall s w', fst (fetchQuote s w') = HttpError)
  \/ (forall s w', fst (fetchCandles s w') = HttpError) ->
  strict_equal (action req) (JStr "screen") = true ->
  universe req = Some u -> u <> [] ->
  exists body,
    fst (Trend.screen req w) = Json200 body
    /\ results body = [] /\ count body = 0 /\ valid_data body = 0
    /\ universe_size body = List.length u.
Proof.
  intros Hfail Hact Hu Hne.
  assert (Hnone : forall s w', fst (Trend.getStockDataWithTrend s w') = None).
  { intros s w'. apply trend_no_record.
    destruct Hfail as [Hq | Hc].
    - specialize (Hq s w'). destruct (fetchQuote s w') as [r w1].
      cbn [fst] in Hq. now subst r.
    - destruct (fetchQuote s w') as [[| [q |]] w1]; auto. }
  rewrite (trend_screen_ok req u w Hact Hu Hne). cbn [fst].
  eexists. split; [reflexivity |].
  cbn [results count valid_data universe_size].
  unfold trend_evaluated. rewrite (trend_batch_empty _ Hnone).
  now destruct (conditions_of req).
Qed.

Lemma yahoo_fetch_batches_empty (u : list string) (starts : list nat) :
  (forall l w, fst (fetchYahoo l w) = HttpError) ->
  forall (acc : list obj) (w : W),
    fst (Yahoo.fetch_batches starts u acc w) = acc.
Proof.
  intros Hfail. induction starts as [| i rest IH]; intros acc w;
    [reflexivity |].
  cbn [Yahoo.fetch_batches]. unfold Yahoo.getStockData, bind, ret.
  specialize (Hfail (slice u (Z.of_nat i) (Z.of_nat (i + Yahoo.batchSize))) w).
  destruct (fetchYahoo _ w) as [r w1]. cbn [fst] in Hfail. subst r.
  cbv beta iota. rewrite IH. apply app_nil_r.
Qed.

(** X21. When every Yahoo request fails, [server.js] still answers a
    well-formed request with 200: no record, count 0, valid_data 0. *)
Theorem yahoo_provider_failures_are_silent (req : Request) (u : list string)
        (w : W) :
  (forall l w', fst (fetchYahoo l w') = HttpError) ->
  strict_equal (action req) (JStr "screen") = true ->
  universe req = Some u -> u <> [] ->
  exists body,
    fst (Yahoo.screen req w) = Json200 body
    /\ results body = [] /\ count body = 0 /\ valid_data body = 0
    /\ universe_size body = List.length u.
Proof.
  intros Hfail Hact Hu Hne.
  rewrite (yahoo_screen_ok req u w Hact Hu Hne). cbn [fst].
  eexists. split; [reflexivity |].
  cbn [results count valid_data universe_size].
  unfold yahoo_evaluated. rewrite (yahoo_fetch_batches_empty u _ Hfail).
  now destruct (conditions_of req).
Qed.

Lemma trend_step_symbol (symbol : string) (w : W) (r : obj) :
  fst (Trend.getStockDataWithTrend symbol w) = Some r ->
  symbol_of r = JStr symbol.
Proof.
  intros H. destruct (trend_step_enriched symbol w r H) as (q & cd & ->).
  reflexivity.
Qed.

Lemma trend_batch_symbols (symbols : list string) :
  forall w : W,
    subseq (map symbol_of (fst (Trend.getStockDataBatch symbols w)))
           (map JStr symbols).
Proof.
  induction symbols as [| symbol rest IH]; intros w.
  - constructor.
  - rewrite trend_batch_cons, map_app.
    change (map JStr (symbol :: rest)) with ([JStr symbol] ++ map JStr rest).
    apply subseq_app; [| apply IH].
    destruct (fst (Trend.getStockDataWithTrend symbol w)) as [r |] eqn:Hr; cbn.
    + rewrite (trend_step_symbol symbol w r Hr). apply subseq_refl.
    + apply subseq_skip, subseq_nil.
Qed.

(** X22. The records of an answer of the trend handler come in the order
    of the universe: their symbols are the first 25 symbols of the request
    with some left out, none added, none moved. *)
Theorem trend_results_keep_order (req : Request) (w : W) (body : ScreenBody) :
  fst (Trend.screen req w) = Json200 body ->
  exists u, universe req = Some u
    /\ subseq (map symbol_of (results body)) (map JStr (firstn 25 u)).
Proof.
  intros H.
  destruct (trend_screen_inv req w body H) as (u & Hact & Hu & Hne).
  rewrite (trend_screen_ok req u w Hact Hu Hne) in H.
  cbn [fst] in H. injection H as <-. cbn [results].
  exists u. split; [exact Hu |].
  rewrite trend_applyConditions_filter.
  apply (subseq_trans (map symbol_of (trend_evaluated u w))).
  - apply subseq_map_filter.
  - unfold trend_evaluated.
    assert (Hslice : slice u 0 25 = firstn 25 u) by apply (slice_prefix u 25).
    rewrite Hslice. apply trend_batch_symbols.
Qed.

(** X23. The answer of the trend handler depends on the first 25 symbols
    only: two universes that agree on them get the same records, the same
    counts and leave the same world; only universe_size and the note can
    differ. *)
Theorem trend_answer_reads_first_25 (u u' : list string)
        (cs : option (list Condition)) (w : W) :
  u <> [] -> firstn 25 u = firstn 25 u' ->
  exists body body',
    Trend.screen {| action := JStr "screen"; universe := Some u;
                    conditions := cs |} w
    = (Json200 body, snd (Trend.getStockDataBatch (firstn 25 u) w))
    /\ Trend.screen {| action := JStr "screen"; universe := Some u';
                       conditions := cs |} w
       = (Json200 body', snd (Trend.getStockDataBatch (firstn 25 u) w))
    /\ results body = results body'
    /\ count body = count body'
    /\ valid_data body = valid_data body'
    /\ screened_size body = screened_size body'.
Proof.
  intros Hne Hsame.
  assert (Hne' : u' <> []).
  { intros ->. destruct u; [contradiction | discriminate]. }
  assert (Hslice : slice u 0 25 = firstn 25 u) by apply (slice_prefix u 25).
  assert (Hslice' : slice u' 0 25 = firstn 25 u)
    by (rewrite Hsame; apply (slice_prefix u' 25)).
  pose proof (trend_screen_ok
                {| action := JStr "screen"; universe := Some u;
                   conditions := cs |} u w eq_refl eq_refl Hne) as H1.
  pose proof (trend_screen_ok
                {| action := JStr "screen"; universe := Some u';
                   conditions := cs |} u' w eq_refl eq_refl Hne') as H2.
  unfold trend_evaluated, conditions_of in H1, H2.
  cbn [conditions] in H1, H2.
  rewrite Hslice in H1. rewrite Hslice' in H2.
  eexists. eexists.
  split; [exact H1 |]. split; [exact H2 |].
  cbn [results count valid_data screened_size]. repeat split.
Qed.

Lemma finnhub_batch_length (symbols : list string) :
  forall (acc : list obj) (w : W),
    List.length (fst (Finnhub.batch_loop symbols acc w))
    <= List.length acc + List.length symbols.
Proof.
  induction symbols as [| symbol rest IH]; intros acc w;
    cbn [Finnhub.batch_loop].
  - cbn. lia.
  - unfold bind.
    destruct (Finnhub.getStockDataFinnhub symbol w) as [data w1].
    destruct (match rest with [] => ret tt | _ :: _ => delay 50 end w1)
      as [u w2].
    specialize (IH (match data with Some d => acc ++ [d] | None => acc end) w2).
    destruct data; rewrite ?length_app in IH; cbn in *; lia.
Qed.

Lemma finnhub_applyConditions_length (l : list obj) (cs : list Condition) :
  List.length (Finnhub.applyConditions l cs) <= List.length l.
Proof. destruct cs; cbn; [lia | apply filter_length_le]. Qed.

Lemma yahoo_applyConditions_length (l : list obj) (cs : list Condition) :
  List.length (Yahoo.applyConditions l cs) <= List.length l.
Proof. destruct cs; cbn; [lia | apply filter_length_le]. Qed.

(** X24. In an answer of the quote-only revision [count] is the number of
    results and count <= valid_data <= universe_size; the revision has no
    cap, so every symbol of the universe is asked for.  In an answer of
    [server.js], [count] is the number of results and
    count <= valid_data. *)
Theorem other_revisions_count_consistency (req : Request) (w : W)
        (body : ScreenBody) :
  (fst (Finnhub.screen req w) = Json200 body ->
   count body = List.length (results body)
   /\ count body <= valid_data body
   /\ valid_data body <= universe_size body
   /\ screened_size body = None /\ note body = None)
  /\ (fst (Yahoo.screen req w) = Json200 body ->
      count body = List.length (results body)
      /\ count body <= valid_data body
      /\ screened_size body = None /\ note body = None).
Proof.
  split; intros H.
  - destruct (request_cases req) as [Hbad | (u & Hact & Hu & Hne)].
    + rewrite (finnhub_screen_400 req w Hbad) in H. discriminate.
    + rewrite (finnhub_screen_ok req u w Hact Hu Hne) in H.
      cbn [fst] in H. injection H as <-. cbn.
      split; [reflexivity |].
      split; [apply finnhub_applyConditions_length |].
      split; [apply (finnhub_batch_length u [] w) | tauto].
  - destruct (request_cases req) as [Hbad | (u & Hact & Hu & Hne)].
    + rewrite (yahoo_screen_400 req w Hbad) in H. discriminate.
    + rewrite (yahoo_screen_ok req u w Hact Hu Hne) in H.
      cbn [fst] in H. injection H as <-. cbn.
      split; [reflexivity |].
      split; [apply yahoo_applyConditions_length | tauto].
Qed.

End Answers.

(* ================================================================== *)
(** * Further facts: the API key check                                  *)
(* ================================================================== *)

(** X25. A request gets past the key check exactly when it carries a
    non-empty key that equals the configured one.  With no key configured,
    or an empty one, no request gets past.  A request that is turned away
    is answered 403 and its route is not run: the world is untouched. *)
Theorem key_check (provided API_KEY : option string) :
  (Middleware.key_accepted provided API_KEY = true
   <-> exists k, provided = Some k /\ API_KEY = Some k /\ k <> "")
  /\ (API_KEY = None \/ API_KEY = Some "" ->
      Middleware.key_accepted provided API_KEY = false)
  /\ (forall (W A : Type) (route : M W A) (w : W),
        Middleware.key_accepted provided API_KEY = false ->
        Middleware.guarded provided API_KEY route w
        = (Middleware.Status403 "Invalid API Key", w))
  /\ (forall (W A : Type) (route : M W A) (w : W),
        Middleware.key_accepted provided API_KEY = true ->
        Middleware.guarded provided API_KEY route w
        = (Middleware.Next (fst (route w)), snd (route w))).
Proof.
  split; [| split; [| split]].
  - unfold Middleware.key_accepted. split.
    + destruct provided as [p |]; [| discriminate].
      destruct (String.eqb p "") eqn:Hp; [discriminate |].
      destruct API_KEY as [k |]; [| discriminate].
      intros Hk. apply String.eqb_eq in Hk. subst k.
      exists p. repeat split. now apply String.eqb_neq.
    + intros (k & -> & -> & Hk).
      apply String.eqb_neq in Hk. rewrite Hk. apply String.eqb_refl.
  - unfold Middleware.key_accepted.
    destruct provided as [p |]; [| reflexivity].
    destruct (String.eqb p "") eqn:Hp; [reflexivity |].
    intros [-> | ->]; [reflexivity | exact Hp].
  - intros W A route w H. unfold Middleware.guarded. now rewrite H.
  - intros W A route w H. unfold Middleware.guarded, bind, ret. rewrite H.
    now destruct (route w).
Qed.

(* ================================================================== *)
(** * Further facts: the first revision                                 *)
(* ================================================================== *)

Section BasicPrice.
Context {W : Type} {P : Provider W}.

(** X26. [getPrice] resolves to [null] or to a truthy price.  It asks
    Finnhub first and Yahoo at most once after it; when the Finnhub request
    fails the price is [null] and Yahoo is not asked, and when Finnhub
    carries a truthy price that price is the answer and Yahoo is not
    asked. *)
Theorem basic_getPrice (symbol : string) (w : W) :
  null_or_truthy (fst (Basic.getPrice symbol w))
  /\ exists t,
      @Basic.getPrice _ (tracing P) symbol (w, [])
      = (fst (Basic.getPrice symbol w), (snd (Basic.getPrice symbol w), t))
      /\ (t = [QuoteCall symbol] \/ t = [QuoteCall symbol; YahooCall [symbol]])
      /\ (fst (fetchQuote symbol w) = HttpError ->
          fst (Basic.getPrice symbol w) = JNull /\ t = [QuoteCall symbol])
      /\ (forall q, fst (fetchQuote symbol w) = HttpOk (Some q) ->
                    ToBoolean (q_c q) = true ->
                    fst (Basic.getPrice symbol w) = q_c q
                    /\ t = [QuoteCall symbol]).
Proof.
  unfold Basic.getPrice, bind, ret, null_or_truthy.
  cbn [fetchQuote tracing fst snd].
  destruct (fetchQuote symbol w) as [[| [q |]] w1]; cbn [fst snd app].
  - split; [tauto |]. eexists. split; [reflexivity |].
    split; [tauto |]. split; [tauto |]. intros q Hq. discriminate.
  - destruct (ToBoolean (q_c q)) eqn:Hc; cbn [fst snd].
    + split; [tauto |]. eexists. split; [reflexivity |].
      split; [tauto |]. split; [discriminate |].
      intros q' [= <-] _. tauto.
    + cbn [fetchYahoo tracing fst snd app].
      destruct (fetchYahoo [symbol] w1) as [[| [[| y ys] |]] w2];
        cbn [fst snd app];
        (split;
         [try tauto; unfold js_or;
          destruct (ToBoolean (y_regularMarketPrice y)) eqn:Hy; tauto
         | eexists; split; [reflexivity |];
           split; [tauto |]; split; [discriminate |];
           intros q' [= <-] Hq'; congruence]).
  - cbn [fetchYahoo tracing fst snd app].
    destruct (fetchYahoo [symbol] w1) as [[| [[| y ys] |]] w2];
      cbn [fst snd app];
      (split;
       [try tauto; unfold js_or;
        destruct (ToBoolean (y_regularMarketPrice y)) eqn:Hy; tauto
       | eexists; split; [reflexivity |];
         split; [tauto |]; split; [discriminate |];
         intros q' Hq'; discriminate]).
Qed.

End BasicPrice.

Lemma forallb_false_in {B : Type} (g : B -> bool) (cs : list B) (c : B) :
  In c cs -> g c = false -> forallb g cs = false.
Proof.
  intros Hin Hc. destruct (forallb g cs) eqn:Hall; [| reflexivity].
  rewrite forallb_forall in Hall. rewrite (Hall c Hin) in Hc. discriminate.
Qed.

Lemma filter_none {A : Type} (f : A -> bool) (l : list A) :
  (forall x, In x l -> f x = false) -> filter f l = [].
Proof.
  induction l as [| a l IH]; intros H; cbn; [reflexivity |].
  rewrite (H a) by (cbn; tauto). apply IH. intros x Hx. apply H. cbn. tauto.
Qed.

Lemma in_combine_seq {A : Type} (l : list A) :
  forall (start i : nat) (x : A),
    In (i, x) (combine (seq start (List.length l)) l)
    <-> start <= i /\ nth_error l (i - start) = Some x.
Proof.
  induction l as [| a l IH]; intros start i x; cbn [List.length seq combine].
  - split; [contradiction |]. intros [_ H]. now destruct (i - start).
  - cbn [In]. rewrite IH. split.
    + intros [[= <- <-] | [Hle Hnth]].
      * rewrite Nat.sub_diag. cbn. split; [lia | reflexivity].
      * split; [lia |].
        replace (i - start) with (S (i - S start)) by lia. exact Hnth.
    + intros [Hle Hnth].
      destruct (Nat.eq_dec i start) as [-> | Hneq].
      * rewrite Nat.sub_diag in Hnth. cbn in Hnth. injection Hnth as <-.
        now left.
      * right. split; [lia |].
        replace (i - start) with (S (i - S start)) in Hnth by lia.
        exact Hnth.
Qed.

(** The first revision hands a record on exactly for the symbols that have
    a price. *)
Lemma basic_valid_nonempty (price_of : nat -> string -> jsval) (u : list string) :
  basic_valid price_of u <> []
  <-> exists i s, nth_error u i = Some s /\ price_of i s <> JNull.
Proof.
  unfold basic_valid. split.
  - intros Hne.
    destruct (filter _ _) as [| r rest] eqn:Hf; [contradiction |].
    assert (Hin : In r (r :: rest)) by (cbn; tauto).
    rewrite <- Hf in Hin. apply filter_In in Hin as [Hin Hr].
    apply in_map_iff in Hin as ([i s] & <- & Hin).
    apply in_combine_seq in Hin as [_ Hnth]. rewrite Nat.sub_0_r in Hnth.
    exists i, s. split; [exact Hnth |].
    cbn [fst snd] in Hr.
    change (get_prop (Basic.priced s (price_of i s)) "close")
      with (price_of i s) in Hr.
    intros E. rewrite E in Hr. discriminate.
  - intros (i & s & Hnth & Hprice) Hempty.
    assert (Hin : In (Basic.priced s (price_of i s))
                     (filter (fun x => negb (strict_equal (get_prop x "close") JNull))
                        (map (fun p => Basic.priced (snd p) (price_of (fst p) (snd p)))
                           (combine (seq 0 (List.length u)) u)))).
    { apply filter_In. split.
      - apply in_map_iff. exists (i, s). split; [reflexivity |].
        apply in_combine_seq. rewrite Nat.sub_0_r. split; [lia | exact Hnth].
      - change (get_prop (Basic.priced s (price_of i s)) "close")
          with (price_of i s).
        destruct (price_of i s); try reflexivity. congruence. }
    rewrite Hempty in Hin. contradiction.
Qed.

Section BasicConditions.
Context {rt : JSRuntime} {rel : JSRelational}.

(** No record of the first revision has a 52-week extreme, so the products
    a [near] condition compares the close with are [NaN]. *)
Lemma basic_near_fails (symbol : string) (price : jsval) (c : Condition) :
  c_operation c = "near" ->
  Basic.evalCondition (Basic.priced symbol price) c = false.
Proof.
  destruct c as [l op r]. cbn [c_operation]. intros ->.
  unfold Basic.evalCondition. cbn [c_left c_operation c_right].
  change (String.eqb "near" "equal") with false.
  change (String.eqb "near" "greater") with false.
  change (String.eqb "near" "less") with false.
  change (String.eqb "near" "in") with false.
  change (String.eqb "near" "near") with true.
  cbv beta iota.
  change (ToNumber (get_prop (Basic.priced symbol price) "week52High")) with nan.
  change (ToNumber (get_prop (Basic.priced symbol price) "week52Low")) with nan.
  change (PrimFloat.mul nan 0.95%float) with nan.
  change (PrimFloat.mul nan 1.05%float) with nan.
  rewrite leb_nan_l, leb_nan_r.
  destruct (String.eqb l "52_week_high"); [reflexivity |].
  now destruct (String.eqb l "52_week_low").
Qed.

(** X27. In the first revision a request with a [near] condition is
    answered with no record at all, whatever the prices: a record carries
    no 52-week extreme to be near to. *)
Theorem basic_near_matches_nothing (price_of : nat -> string -> jsval)
        (req : Request) (u : list string) (cs : list Condition) (c : Condition) :
  strict_equal (action req) (JStr "screen") = true ->
  universe req = Some u -> u <> [] ->
  conditions req = Some cs -> In c cs -> c_operation c = "near" ->
  Basic.screen price_of req
  = Basic.Json200 {| Basic.count := 0; Basic.results := [] |}.
Proof.
  intros Hact Hu Hne Hcs Hin Hop. unfold Basic.screen.
  rewrite Hact, Hu, Hcs. cbn [negb].
  destruct u as [| s u']; [contradiction |].
  cbn [Basic.applyConditions].
  rewrite filter_none; [reflexivity |].
  intros r Hr. apply filter_In in Hr as [Hr _].
  apply in_map_iff in Hr as ([i s'] & <- & _).
  apply (forallb_false_in _ cs c Hin).
  now apply basic_near_fails.
Qed.

(** X28. The first revision answers 500 exactly when the request is
    well-formed, carries no conditions, and at least one symbol has a
    price; without conditions and without any price it answers 200 with no
    record. *)
Theorem basic_missing_conditions (price_of : nat -> string -> jsval)
        (req : Request) :
  (Basic.screen price_of req = Basic.Status500
   <-> exists u, strict_equal (action req) (JStr "screen") = true
         /\ universe req = Some u /\ conditions req = None
         /\ exists i s, nth_error u i = Some s /\ price_of i s <> JNull)
  /\ (forall u, strict_equal (action req) (JStr "screen") = true ->
                universe req = Some u -> u <> [] -> conditions req = None ->
                (forall i s, nth_error u i = Some s -> price_of i s = JNull) ->
                Basic.screen price_of req
                = Basic.Json200 {| Basic.count := 0; Basic.results := [] |}).
Proof.
  assert (Hshape : forall u, u <> [] ->
             strict_equal (action req) (JStr "screen") = true ->
             universe req = Some u ->
             Basic.screen price_of req
             = match Basic.applyConditions (basic_valid price_of u)
                                           (conditions req) with
               | Some results =>
                   Basic.Json200 {| Basic.count := List.length results;
                                    Basic.results := results |}
               | None => Basic.Status500
               end).
  { intros u Hne Hact Hu. unfold Basic.screen. rewrite Hact, Hu. cbn [negb].
    destruct u; [contradiction | reflexivity]. }
  split.
  - split.
    + intros H500.
      destruct (request_cases req) as [Hbad | (u & Hact & Hu & Hne)].
      * exfalso. unfold Basic.screen in H500.
        destruct Hbad as [Hb | [Hb | Hb]]; rewrite Hb in H500;
          cbn [negb] in H500; try discriminate;
          destruct (strict_equal (action req) (JStr "screen"));
          discriminate.
      * rewrite (Hshape u Hne Hact Hu) in H500.
        exists u. split; [exact Hact |]. split; [exact Hu |].
        destruct (conditions req) as [cs |]; [discriminate |].
        split; [reflexivity |].
        apply basic_valid_nonempty.
        cbn [Basic.applyConditions] in H500.
        destruct (basic_valid price_of u); [discriminate | discriminate].
    + intros (u & Hact & Hu & Hcs & Hsome).
      assert (Hne : u <> []).
      { destruct Hsome as (i & s & Hnth & _). intros ->.
        now destruct i. }
      rewrite (Hshape u Hne Hact Hu), Hcs. cbn [Basic.applyConditions].
      apply basic_valid_nonempty in Hsome.
      destruct (basic_valid price_of u); [contradiction | reflexivity].
  - intros u Hact Hu Hne Hcs Hnull.
    rewrite (Hshape u Hne Hact Hu), Hcs. cbn [Basic.applyConditions].
    destruct (basic_valid price_of u) as [| r rest] eqn:Hv; [reflexivity |].
    exfalso.
    assert (Hnonempty : basic_valid price_of u <> []) by (rewrite Hv; discriminate).
    apply basic_valid_nonempty in Hnonempty as (i & s & Hnth & Hp).
    apply Hp. now apply Hnull.
Qed.

End BasicConditions.

(* ================================================================== *)
(** * The further facts on concrete inputs                              *)
(* ================================================================== *)

Lemma malformed_requests_fetch_nothing_witness :
  let req := {| action := JStr "scan"; universe := Some ["AAA"];
                conditions := None |} in
  malformed req
  /\ snd (@Trend.screen example_runtime _ (tracing fifty) req (tt, []))
     = (tt, [])
  /\ snd (@Finnhub.screen example_runtime _ (tracing fifty) req (tt, []))
     = (tt, [])
  /\ snd (@Yahoo.screen example_runtime _ (tracing fifty) req (tt, []))
     = (tt, []).
Proof.
  cbn zeta.
  assert (H : malformed {| action := JStr "scan"; universe := Some ["AAA"];
                           conditions := None |}) by (left; reflexivity).
  split; [exact H |].
  exact (proj2 (proj2 (proj2
           (@malformed_requests_fetch_nothing example_runtime unit fifty _ tt))) H).
Defined.

Lemma yahoo_request_batches_witness :
  let req := screen_request thirty_symbols [] in
  strict_equal (action req) (JStr "screen") = true
  /\ universe req = Some thirty_symbols
  /\ thirty_symbols <> []
  /\ List.concat (yahoo_batches thirty_symbols) = thirty_symbols
  /\ List.length (yahoo_batches thirty_symbols) = 1.
Proof.
  cbn zeta.
  assert (H1 : strict_equal (action (screen_request thirty_symbols []))
                            (JStr "screen") = true) by reflexivity.
  assert (H2 : universe (screen_request thirty_symbols []) = Some thirty_symbols)
    by reflexivity.
  assert (H3 : thirty_symbols <> []) by discriminate.
  destruct (@yahoo_request_batches example_runtime unit fifty _ _ tt H1 H2 H3)
    as (_ & Hcat & _ & Hlen).
  repeat (split; [assumption |]). exact Hlen.
Defined.

Lemma yahoo_results_have_truthy_close_witness :
  fst (@Yahoo.screen example_runtime unit fifty (screen_request ["AAA"] []) tt)
  = Json200 yahoo_answer
  /\ Forall (fun r => ToBoolean (get_prop r "close") = true)
            (results yahoo_answer).
Proof.
  assert (Hy : fst (@Yahoo.screen example_runtime unit fifty
                      (screen_request ["AAA"] []) tt) = Json200 yahoo_answer)
    by reflexivity.
  split; [exact Hy |].
  destruct (@yahoo_results_have_truthy_close example_runtime unit fifty
              _ tt yahoo_answer Hy) as (u & _ & _ & Hall).
  exact Hall.
Defined.

Lemma yahoo_record_members_witness :
  In "close" ["close"; "open"; "high"; "low"; "week52High"; "week52Low"]
  /\ null_or_truthy
       (get_prop (@Yahoo.enrich example_runtime bare_yahoo_quote) "close")
  /\ ToBoolean (y_currency bare_yahoo_quote) = false
  /\ get_prop (@Yahoo.enrich example_runtime bare_yahoo_quote)
              "tradable_on_t212_cfd" = JBool true.
Proof.
  assert (H1 : In "close" ["close"; "open"; "high"; "low"; "week52High";
                           "week52Low"]) by (cbn; tauto).
  assert (H2 : ToBoolean (y_currency bare_yahoo_quote) = false) by reflexivity.
  destruct (@yahoo_record_members example_runtime bare_yahoo_quote)
    as (Hprices & _ & _ & _ & Htradable).
  split; [exact H1 |]. split; [exact (Hprices "close" H1) |].
  split; [exact H2 | exact (Htradable H2)].
Defined.

Lemma near_conditions_filter_nothing_witness :
  near_condition near_high
  /\ @Trend.applyConditions example_runtime
       (@trend_evaluated example_runtime unit fifty ["AAA"] tt) [near_high]
     = @Trend.applyConditions example_runtime
         (@trend_evaluated example_runtime unit fifty ["AAA"] tt) [].
Proof.
  assert (H : near_condition near_high) by (split; [reflexivity | now left]).
  split; [exact H |].
  exact (proj1 (@near_conditions_filter_nothing example_runtime unit fifty
                  ["AAA"] tt near_high [] H)).
Defined.

Lemma trend_provider_failures_are_silent_witness :
  (forall (s : string) (w' : unit),
      fst (@fetchQuote unit failing_provider s w') = HttpError)
  /\ exists body,
      fst (@Trend.screen example_runtime unit failing_provider
             (screen_request ["AAA"; "BBB"] []) tt) = Json200 body
      /\ results body = [] /\ count body = 0 /\ valid_data body = 0
      /\ universe_size body = 2.
Proof.
  assert (H : forall (s : string) (w' : unit),
             fst (@fetchQuote unit failing_provider s w') = HttpError)
    by (intros; reflexivity).
  split; [exact H |].
  apply (@trend_provider_failures_are_silent example_runtime unit
           failing_provider (screen_request ["AAA"; "BBB"] [])
           ["AAA"; "BBB"] tt (or_introl H)); [reflexivity .. | discriminate].
Defined.

Lemma yahoo_provider_failures_are_silent_witness :
  (forall (l : list string) (w' : unit),
      fst (@fetchYahoo unit failing_provider l w') = HttpError)
  /\ exists body,
      fst (@Yahoo.screen example_runtime unit failing_provider
             (screen_request ["AAA"; "BBB"] []) tt) = Json200 body
      /\ results body = [] /\ count body = 0 /\ valid_data body = 0
      /\ universe_size body = 2.
Proof.
  assert (H : forall (l : list string) (w' : unit),
             fst (@fetchYahoo unit failing_provider l w') = HttpError)
    by (intros; reflexivity).
  split; [exact H |].
  apply (@yahoo_provider_failures_are_silent example_runtime unit
           failing_provider (screen_request ["AAA"; "BBB"] [])
           ["AAA"; "BBB"] tt H); [reflexivity .. | discriminate].
Defined.

Lemma trend_results_keep_order_witness :
  fst (@Trend.screen example_runtime unit fifty (screen_request ["AAA"] []) tt)
  = Json200 (@trend_answer example_runtime)
  /\ exists u,
      universe (screen_request ["AAA"] []) = Some u
      /\ subseq (map symbol_of (results (@trend_answer example_runtime)))
                (map JStr (firstn 25 u)).
Proof.
  assert (Ht : fst (@Trend.screen example_runtime unit fifty
                      (screen_request ["AAA"] []) tt)
               = Json200 (@trend_answer example_runtime)) by reflexivity.
  split; [exact Ht |].
  exact (@trend_results_keep_order example_runtime unit fifty _ tt _ Ht).
Defined.

Lemma trend_answer_reads_first_25_witness :
  thirty_symbols <> []
  /\ firstn 25 thirty_symbols = firstn 25 (thirty_symbols ++ ["ZZZ"])
  /\ exists body body',
      fst (@Trend.screen example_runtime unit fifty
             {| action := JStr "screen"; universe := Some thirty_symbols;
                conditions := None |} tt) = Json200 body
      /\ fst (@Trend.screen example_runtime unit fifty
                {| action := JStr "screen";
                   universe := Some (thirty_symbols ++ ["ZZZ"]);
                   conditions := None |} tt) = Json200 body'
      /\ results body = results body'.
Proof.
  assert (H1 : thirty_symbols <> []) by discriminate.
  assert (H2 : firstn 25 thirty_symbols = firstn 25 (thirty_symbols ++ ["ZZZ"]))
    by reflexivity.
  split; [exact H1 |]. split; [exact H2 |].
  destruct (@trend_answer_reads_first_25 example_runtime unit fifty
              thirty_symbols (thirty_symbols ++ ["ZZZ"]) None tt H1 H2)
    as (body & body' & Hb & Hb' & Hres & _).
  exists body, body'.
  split; [now rewrite Hb |]. split; [now rewrite Hb' | exact Hres].
Defined.

Lemma other_revisions_count_consistency_witness :
  let body := {| count := 1; universe_size := 1; screened_size := None;
                 valid_data := 1; note := None;
                 results := [@Finnhub.enrich example_runtime "AAA"
                               (quote_of (JNum 50%float) JNull)] |} in
  fst (@Finnhub.screen example_runtime unit fifty (screen_request ["AAA"] []) tt)
  = Json200 body
  /\ count body <= valid_data body
  /\ valid_data body <= universe_size body.
Proof.
  cbn zeta.
  match goal with
  | |- ?lhs = Json200 ?b /\ _ =>
      assert (H : lhs = Json200 b) by reflexivity;
      split; [exact H |];
      destruct (proj1 (@other_revisions_count_consistency example_runtime unit
                         fifty (screen_request ["AAA"] []) tt b) H)
        as (_ & Hc & Hv & _)
  end.
  split; assumption.
Defined.

Lemma key_check_witness :
  (exists k, Some "s3cret" = Some k /\ Some "s3cret" = Some k /\ k <> "")
  /\ Middleware.key_accepted (Some "s3cret") (Some "s3cret") = true
  /\ Middleware.key_accepted (Some "s3cret") None = false.
Proof.
  assert (H : exists k, Some "s3cret" = Some k /\ Some "s3cret" = Some k /\ k <> "").
  { exists "s3cret". repeat split. discriminate. }
  split; [exact H |].
  split.
  - exact (proj2 (proj1 (key_check (Some "s3cret") (Some "s3cret"))) H).
  - exact (proj1 (proj2 (key_check (Some "s3cret") None)) (or_introl eq_refl)).
Defined.

Lemma basic_getPrice_witness :
  fst (@fetchQuote unit failing_provider "AAA" tt) = HttpError
  /\ fst (@Basic.getPrice unit failing_provider "AAA" tt) = JNull.
Proof.
  assert (H : fst (@fetchQuote unit failing_provider "AAA" tt) = HttpError)
    by reflexivity.
  split; [exact H |].
  destruct (@basic_getPrice unit failing_provider "AAA" tt)
    as (_ & t & _ & _ & Hfail & _).
  exact (proj1 (Hfail H)).
Defined.

Lemma basic_near_matches_nothing_witness :
  let req := screen_request ["AAA"] [near_high] in
  strict_equal (action req) (JStr "screen") = true
  /\ universe req = Some ["AAA"]
  /\ ["AAA"] <> []
  /\ conditions req = Some [near_high]
  /\ In near_high [near_high]
  /\ c_operation near_high = "near"
  /\ @Basic.screen example_runtime example_relational
       (fun _ _ => JNum 50%float) req
     = Basic.Json200 {| Basic.count := 0; Basic.results := [] |}.
Proof.
  cbn zeta.
  assert (H3 : ["AAA"] <> []) by discriminate.
  assert (H5 : In near_high [near_high]) by (cbn; tauto).
  repeat (split; [first [reflexivity | assumption] |]).
  exact (@basic_near_matches_nothing example_runtime example_relational
           (fun _ _ => JNum 50%float) (screen_request ["AAA"] [near_high])
           ["AAA"] [near_high] near_high eq_refl eq_refl H3 eq_refl H5 eq_refl).
Defined.

Lemma basic_missing_conditions_witness :
  let req := {| action := JStr "screen"; universe := Some ["AAA"];
                conditions := None |} in
  (exists u, strict_equal (action req) (JStr "screen") = true
        /\ universe req = Some u /\ conditions req = None
        /\ exists i s, nth_error u i = Some s
                       /\ (fun (_ : nat) (_ : string) => JNum 50%float) i s <> JNull)
  /\ @Basic.screen example_runtime example_relational
       (fun _ _ => JNum 50%float) req = Basic.Status500.
Proof.
  cbn zeta.
  match goal with
  | |- ?hyp /\ _ =>
      assert (H : hyp)
        by (exists ["AAA"]; repeat split; exists 0, "AAA"; split;
            [reflexivity | discriminate])
  end.
  split; [exact H |].
  exact (proj2 (proj1 (@basic_missing_conditions example_runtime
                         example_relational (fun _ _ => JNum 50%float) _)) H).
Defined.
